(** * Red envelope engine: a shallow embedding of
      [internal/apps/redenvelope/routers.go] and of the expiry sweeper
      ([refundExpiredRedEnvelopes]), with the decimal arithmetic of
      [shopspring/decimal] that both rely on, and of the Redis key and JSON
      helpers of [internal/db/redis.go] and [internal/task/utils.go].

    Layout: the [Decimal] module (arbitrary precision decimals as a
    coefficient and a power-of-ten exponent), the allocation function
    [calculateRandomAmount], the relational store, the three mutating
    operations ([Create], [Claim], the sweeper), the two read-only handlers
    ([GetDetail], [List]), the Redis helpers, then the properties. *)

From Stdlib Require Import ZArith List Bool String Ascii Lia.
From Stdlib Require Import Permutation.
Import ListNotations.
Local Open Scope Z_scope.

(** ** Decimals

    A [decimal.Decimal] is [value * 10 ^ exp] with [value] a [big.Int] and
    [exp] an [int32].  The exponent is kept as a [Z]: the library panics when
    an exponent leaves the [int32] range, which no amount handled here comes
    close to. *)

Module Decimal.

Record Decimal : Type := mkDecimal { value : Z; exp : Z }.

Definition New (v e : Z) : Decimal := mkDecimal v e.
Definition NewFromInt (v : Z) : Decimal := mkDecimal v 0.

(** [decimal.Zero] is [New(0, 1)]. *)
Definition Zero : Decimal := New 0 1.

(** [d.rescale(exp)]: same number at another exponent; going to a larger
    exponent truncates ([big.Int.Quo] rounds toward zero). *)
Definition rescale (d : Decimal) (e : Z) : Decimal :=
  if exp d =? e then d
  else
    let diff := Z.abs (e - exp d) in
    let expScale := 10 ^ diff in
    if exp d <? e then mkDecimal (Z.quot (value d) expScale) e
    else mkDecimal (value d * expScale) e.

Definition RescalePair (d1 d2 : Decimal) : Decimal * Decimal :=
  if exp d1 =? exp d2 then (d1, d2)
  else
    let baseScale := Z.min (exp d1) (exp d2) in
    if negb (baseScale =? exp d1) then (rescale d1 baseScale, d2)
    else (d1, rescale d2 baseScale).

Definition Add (d d2 : Decimal) : Decimal :=
  let '(rd, rd2) := RescalePair d d2 in
  mkDecimal (value rd + value rd2) (exp rd).

Definition Sub (d d2 : Decimal) : Decimal :=
  let '(rd, rd2) := RescalePair d d2 in
  mkDecimal (value rd - value rd2) (exp rd).

Definition Mul (d d2 : Decimal) : Decimal :=
  mkDecimal (value d * value d2) (exp d + exp d2).

Definition Abs (d : Decimal) : Decimal := mkDecimal (Z.abs (value d)) (exp d).

(** [d.Cmp(d2)], with [Lt], [Eq], [Gt] for -1, 0, 1. *)
Definition Cmp (d d2 : Decimal) : comparison :=
  if exp d =? exp d2 then value d ?= value d2
  else
    let '(rd, rd2) := RescalePair d d2 in
    value rd ?= value rd2.

Definition LessThan (d d2 : Decimal) : bool :=
  match Cmp d d2 with Lt => true | _ => false end.
Definition LessThanOrEqual (d d2 : Decimal) : bool :=
  match Cmp d d2 with Gt => false | _ => true end.
Definition GreaterThan (d d2 : Decimal) : bool :=
  match Cmp d d2 with Gt => true | _ => false end.
Definition Equal (d d2 : Decimal) : bool :=
  match Cmp d d2 with Eq => true | _ => false end.

Definition Sign (d : Decimal) : Z := Z.sgn (value d).
Definition IsPositive (d : Decimal) : bool := Sign d =? 1.
Definition IsZero (d : Decimal) : bool := Sign d =? 0.
Definition Exponent (d : Decimal) : Z := exp d.

(** [d.QuoRem(d2, precision)]; [None] is the panic on a zero divisor.
    [big.Int.QuoRem] is truncated division: [Z.quot] and [Z.rem]. *)
Definition QuoRem (d d2 : Decimal) (precision : Z) : option (Decimal * Decimal) :=
  if value d2 =? 0 then None
  else
    let scale := - precision in
    let e := exp d - exp d2 - scale in
    let '(aa, bb, scalerest) :=
      if e <? 0 then (value d, value d2 * 10 ^ (- e), exp d)
      else (value d * 10 ^ e, value d2, scale + exp d2) in
    Some (mkDecimal (Z.quot aa bb) scale, mkDecimal (Z.rem aa bb) scalerest).

(** [d.DivRound(d2, precision)]: the quotient to [precision] places, a
    remainder of half a unit or more rounds away from zero. *)
Definition DivRound (d d2 : Decimal) (precision : Z) : option Decimal :=
  match QuoRem d d2 precision with
  | None => None
  | Some (q, r) =>
      let rv2 := Z.shiftl (Z.abs (value r)) 1 in
      let r2 := mkDecimal rv2 (exp r + precision) in
      match Cmp r2 (Abs d2) with
      | Lt => Some q
      | _ =>
          if Z.sgn (value d) * Z.sgn (value d2) <? 0
          then Some (Sub q (New 1 (- precision)))
          else Some (Add q (New 1 (- precision)))
      end
  end.

Definition DivisionPrecision : Z := 16.

Definition Div (d d2 : Decimal) : option Decimal :=
  DivRound d d2 DivisionPrecision.

(** [d.Round(places)]: half away from zero.  [big.Int.DivMod] by ten is
    Euclidean division, which for a positive divisor is [Z.div], [Z.modulo]. *)
Definition Round (d : Decimal) (places : Z) : Decimal :=
  if exp d =? - places then d
  else
    let ret := rescale d (- places - 1) in
    let v := if value ret <? 0 then value ret - 5 else value ret + 5 in
    let q := v / 10 in
    let m := v mod 10 in
    let q' := if (q <? 0) && negb (m =? 0) then q + 1 else q in
    mkDecimal q' (exp ret + 1).

(** [int64] conversion of a [big.Int]: the low 64 bits, two's complement. *)
Definition wrap64 (z : Z) : Z := (z + 2 ^ 63) mod 2 ^ 64 - 2 ^ 63.

(** [d.IntPart()]: the integer part, as an [int64]. *)
Definition IntPart (d : Decimal) : Z := wrap64 (value (rescale d 0)).

(** [decimal.NewFromFloat(0.01)]: the shortest decimal that prints the
    float, one hundredth. *)
Definition NewFromFloat_0_01 : Decimal := New 1 (-2).

End Decimal.
Import Decimal.

(** ** The allocation algorithm *)

(** [int64] bounds and the source of randomness.  [rand.Int63n(n)] panics on
    [n <= 0]; otherwise it reduces a raw non-negative 63-bit draw modulo [n]
    (after discarding the draws that would bias the result), so every value
    of [[0, n)] is the outcome for some accepted draw [raw]. *)
Definition Int63n (raw n : Z) : option Z :=
  if n <=? 0 then None else Some (raw mod n).

Notation "'let?' x ':=' c 'in' k" :=
  (match c with Some x => k | None => None end)
  (at level 10, x pattern, c at level 100, k at level 200).

(** [calculateRandomAmount(remaining, count)], with the draw made explicit.
    [None] stands for a run-time panic (division by a zero count, or
    [Int63n] on a wrapped argument). *)
Definition calculateRandomAmount (raw : Z) (remaining : Decimal) (count : Z)
  : option Decimal :=
  if count =? 1 then Some remaining
  else
    let minAmount := NewFromFloat_0_01 in
    let minRequired := Mul minAmount (NewFromInt count) in
    if LessThan remaining minRequired then
      let? q := Div remaining (NewFromInt count) in
      Some (Round q 2)
    else
      let? avg := Div remaining (NewFromInt count) in
      let maxAmount := Mul avg (NewFromInt 2) in
      let maxPossible := Sub remaining (Mul minAmount (NewFromInt (count - 1))) in
      let maxAmount :=
        if GreaterThan maxAmount maxPossible then maxPossible else maxAmount in
      let maxAmount :=
        if LessThan maxAmount minAmount then minAmount else maxAmount in
      let diff := Sub maxAmount minAmount in
      if LessThanOrEqual diff Zero then Some minAmount
      else
        let diffCents := IntPart (Mul diff (NewFromInt 100)) in
        if diffCents <=? 0 then Some minAmount
        else
          let? randCents := Int63n raw (wrap64 (diffCents + 1)) in
          let? randAmount := Div (NewFromInt randCents) (NewFromInt 100) in
          let amount := Add minAmount randAmount in
          Some (Round amount 2).

(** ** Data model (package [model], as far as the handlers use it) *)

Inductive RedEnvelopeType : Type :=
| RedEnvelopeTypeFixed
| RedEnvelopeTypeRandom.

Inductive RedEnvelopeStatus : Type :=
| RedEnvelopeStatusActive
| RedEnvelopeStatusFinished
| RedEnvelopeStatusExpired.

Definition status_eqb (a b : RedEnvelopeStatus) : bool :=
  match a, b with
  | RedEnvelopeStatusActive, RedEnvelopeStatusActive
  | RedEnvelopeStatusFinished, RedEnvelopeStatusFinished
  | RedEnvelopeStatusExpired, RedEnvelopeStatusExpired => true
  | _, _ => false
  end.

Definition type_eqb (a b : RedEnvelopeType) : bool :=
  match a, b with
  | RedEnvelopeTypeFixed, RedEnvelopeTypeFixed
  | RedEnvelopeTypeRandom, RedEnvelopeTypeRandom => true
  | _, _ => false
  end.

(** Times are instants in nanoseconds. *)
Definition Time : Type := Z.
Definition Hour : Z := 3600 * 1000000000.

Module RedEnvelope.
Record t : Type := mk {
  ID : Z;
  Code : string;
  CreatorID : Z;
  Type_ : RedEnvelopeType;
  TotalAmount : Decimal;
  RemainingAmount : Decimal;
  TotalCount : Z;
  RemainingCount : Z;
  Greeting : string;
  Status : RedEnvelopeStatus;
  ExpiresAt : Time
}.
End RedEnvelope.

Module RedEnvelopeClaim.
Record t : Type := mk {
  RedEnvelopeID : Z;
  UserID : Z;
  Amount : Decimal
}.
End RedEnvelopeClaim.

Module User.
Record t : Type := mk {
  ID : Z;
  AvailableBalance : Decimal
}.
End User.

Inductive OrderType : Type :=
| OrderTypeRedEnvelopeSend
| OrderTypeRedEnvelopeReceive
| OrderTypeLiteral (tag : string).

Module Order.
Record t : Type := mk {
  PayerUserID : Z;
  PayeeUserID : Z;
  Amount : Decimal;
  Type_ : OrderType;
  TradeTime : Time
}.
End Order.

(** The relational store: one list of rows per table, in primary-key order,
    and the number of transactions begun so far (a transaction that rolls
    back leaves the tables alone but has still been opened). *)
Record Store : Type := mkStore {
  red_envelopes : list RedEnvelope.t;
  red_envelope_claims : list RedEnvelopeClaim.t;
  users : list User.t;
  orders : list Order.t;
  transactions : nat
}.

(** The named conditions a handler answers with. *)
Inductive Failure : Type :=
| FeatureDisabled
| BindingFailed
| InvalidRedEnvelopeAmount
| AmountDecimalPlacesExceeded
| AmountTooSmall
| PayKeyIncorrect
| InsufficientBalance
| RedEnvelopeNotFound
| RedEnvelopeExpired
| RedEnvelopeFinished
| RedEnvelopeAlreadyClaimed
| CannotClaimOwnRedEnvelope
| ErrRecordNotFound
| RuntimePanic.

Inductive Response (A : Type) : Type :=
| OK (a : A)
| Err (f : Failure).
Arguments OK {A} a.
Arguments Err {A} f.

(** [db.Transaction(fn)]: begin, run [fn], commit when it returns no error,
    roll back when it returns one or panics. *)
Definition begin (st : Store) : Store :=
  mkStore (red_envelopes st) (red_envelope_claims st) (users st) (orders st)
          (S (transactions st)).

Definition Transaction {A : Type} (fn : Store -> Store * Response A) (st : Store)
  : Store * Response A :=
  let tx := begin st in
  match fn tx with
  | (tx', OK a) => (tx', OK a)
  | (_, Err f) => (tx, Err f)
  end.

(** [Where(cond).First(&row)]: the first matching row in primary-key order. *)
Definition First {A : Type} (cond : A -> bool) (rows : list A) : option A :=
  find cond rows.

(** [Where(cond).Update(...)]: every matching row is rewritten. *)
Definition Updates {A : Type} (cond : A -> bool) (set : A -> A) (rows : list A)
  : list A :=
  map (fun row => if cond row then set row else row) rows.

Definition with_red_envelopes (st : Store) (rows : list RedEnvelope.t) : Store :=
  mkStore rows (red_envelope_claims st) (users st) (orders st) (transactions st).
Definition with_claims (st : Store) (rows : list RedEnvelopeClaim.t) : Store :=
  mkStore (red_envelopes st) rows (users st) (orders st) (transactions st).
Definition with_users (st : Store) (rows : list User.t) : Store :=
  mkStore (red_envelopes st) (red_envelope_claims st) rows (orders st) (transactions st).
Definition with_orders (st : Store) (rows : list Order.t) : Store :=
  mkStore (red_envelopes st) (red_envelope_claims st) (users st) rows (transactions st).

(** [UPDATE users SET available_balance = available_balance + delta WHERE id = uid]. *)
Definition add_balance (uid : Z) (delta : Decimal) (st : Store) : Store :=
  with_users st
    (Updates (fun u => User.ID u =? uid)
             (fun u => User.mk (User.ID u) (Add (User.AvailableBalance u) delta))
             (users st)).

Definition sub_balance (uid : Z) (delta : Decimal) (st : Store) : Store :=
  with_users st
    (Updates (fun u => User.ID u =? uid)
             (fun u => User.mk (User.ID u) (Sub (User.AvailableBalance u) delta))
             (users st)).

(** The request context: the feature switch, the authenticated caller, the
    caller's pay-key check and the clock. *)
Record Context : Type := mkContext {
  IsRedEnvelopeEnabled : bool;
  currentUser : Z;
  VerifyPayKey : string -> bool;
  Now : Time
}.

(** ** The handlers *)

Module CreateRequest.
Record t : Type := mk {
  Type_ : RedEnvelopeType;
  TotalAmount : Decimal;
  TotalCount : Z;
  Greeting : string;
  PayKey : string
}.
End CreateRequest.

Record CreateResponse : Type := mkCreateResponse {
  CreateResponse_ID : Z;
  CreateResponse_Code : string
}.

Record ClaimRequest : Type := mkClaimRequest { ClaimRequest_Code : string }.

Record ClaimResponse : Type := mkClaimResponse {
  ClaimResponse_Amount : Decimal;
  ClaimResponse_RedEnvelope : RedEnvelope.t
}.

Definition len (s : string) : Z := Z.of_nat (String.length s).

(** [utf8.RuneCountInString], which the validator measures strings with: the
    bytes are read as UTF-8; a lead byte with the continuation bytes its
    range asks for is one rune of two, three or four bytes, and any other byte
    (a stray continuation byte, an invalid lead byte, a sequence cut short or
    out of range) is one rune of one byte. *)
Definition byteOf (c : ascii) : Z := Z.of_N (N_of_ascii c).

Definition isContinuation (c : ascii) : bool :=
  (128 <=? byteOf c) && (byteOf c <=? 191).

(** The width of the rune that starts with [c] and goes on in [rest]. *)
Definition runeSize (c : ascii) (rest : string) : nat :=
  let b := byteOf c in
  if b <? 128 then 1%nat
  else if (b <? 194) || (244 <? b) then 1%nat
  else
    let size := if b <=? 223 then 2%nat else if b <=? 239 then 3%nat else 4%nat in
    let lo := if b =? 224 then 160 else if b =? 240 then 144 else 128 in
    let hi := if b =? 237 then 159 else if b =? 244 then 143 else 191 in
    if (String.length rest <? size - 1)%nat then 1%nat
    else
      match rest with
      | EmptyString => 1%nat
      | String c1 rest1 =>
          if (byteOf c1 <? lo) || (hi <? byteOf c1) then 1%nat
          else if (size =? 2)%nat then 2%nat
          else
            match rest1 with
            | EmptyString => 1%nat
            | String c2 rest2 =>
                if negb (isContinuation c2) then 1%nat
                else if (size =? 3)%nat then 3%nat
                else
                  match rest2 with
                  | EmptyString => 1%nat
                  | String c3 _ =>
                      if negb (isContinuation c3) then 1%nat else 4%nat
                  end
            end
      end.

(** The runes of [s] once [skip] more bytes of the current rune are passed. *)
Fixpoint countRunes (skip : nat) (s : string) : Z :=
  match s with
  | EmptyString => 0
  | String c rest =>
      match skip with
      | S k => countRunes k rest
      | O => 1 + countRunes (runeSize c rest - 1) rest
      end
  end.

Definition RuneCountInString (s : string) : Z := countRunes 0 s.

(** [c.ShouldBindJSON(&req)] with the [binding] tags of [CreateRequest]:
    [total_count] an [int] of at least 1, [greeting] at most 100 runes,
    [pay_key] present and at most 10 runes.  ([type] is one of the two
    constructors by typing.) *)
Definition ShouldBindJSON_Create (req : CreateRequest.t) : bool :=
  (1 <=? CreateRequest.TotalCount req)
  && (CreateRequest.TotalCount req <? 2 ^ 63)
  && (RuneCountInString (CreateRequest.Greeting req) <=? 100)
  && (1 <=? len (CreateRequest.PayKey req))
  && (RuneCountInString (CreateRequest.PayKey req) <=? 10).

Definition ShouldBindJSON_Claim (req : ClaimRequest) : bool :=
  1 <=? len (ClaimRequest_Code req).

(** The next value of a table's auto-increment key. *)
Definition nextID {A : Type} (rows : list A) : Z := Z.of_nat (List.length rows) + 1.

(** The transaction of [Create]. *)
Definition createTx (ctx : Context) (req : CreateRequest.t) (code : string)
    (tx : Store) : Store * Response RedEnvelope.t :=
  match First (fun u => User.ID u =? currentUser ctx) (users tx) with
  | None => (tx, Err ErrRecordNotFound)
  | Some user =>
      if LessThan (User.AvailableBalance user) (CreateRequest.TotalAmount req)
      then (tx, Err InsufficientBalance)
      else
        let tx := sub_balance (User.ID user) (CreateRequest.TotalAmount req) tx in
        let redEnvelope :=
          RedEnvelope.mk
            (nextID (red_envelopes tx))
            code
            (User.ID user)
            (CreateRequest.Type_ req)
            (CreateRequest.TotalAmount req)
            (CreateRequest.TotalAmount req)
            (CreateRequest.TotalCount req)
            (CreateRequest.TotalCount req)
            (CreateRequest.Greeting req)
            RedEnvelopeStatusActive
            (Now ctx + 24 * Hour) in
        let tx := with_red_envelopes tx (red_envelopes tx ++ [redEnvelope]) in
        let order :=
          Order.mk (User.ID user) (User.ID user) (CreateRequest.TotalAmount req)
                   OrderTypeRedEnvelopeSend (Now ctx) in
        let tx := with_orders tx (orders tx ++ [order]) in
        (tx, OK redEnvelope)
  end.

(** [Create]; [code] is the value [util.GenerateUniqueIDSimple()] returns. *)
Definition Create (ctx : Context) (req : CreateRequest.t) (code : string)
    (st : Store) : Store * Response CreateResponse :=
  if negb (IsRedEnvelopeEnabled ctx) then (st, Err FeatureDisabled)
  else if negb (ShouldBindJSON_Create req) then (st, Err BindingFailed)
  else if LessThanOrEqual (CreateRequest.TotalAmount req) Zero
  then (st, Err InvalidRedEnvelopeAmount)
  else if Exponent (CreateRequest.TotalAmount req) <? -2
  then (st, Err AmountDecimalPlacesExceeded)
  else
    let perShare : Response unit :=
      match CreateRequest.Type_ req with
      | RedEnvelopeTypeFixed =>
          match Div (CreateRequest.TotalAmount req)
                    (NewFromInt (CreateRequest.TotalCount req)) with
          | None => Err RuntimePanic
          | Some perAmount =>
              if LessThan perAmount NewFromFloat_0_01 then Err AmountTooSmall
              else OK tt
          end
      | RedEnvelopeTypeRandom => OK tt
      end in
    match perShare with
    | Err f => (st, Err f)
    | OK _ =>
        if negb (VerifyPayKey ctx (CreateRequest.PayKey req))
        then (st, Err PayKeyIncorrect)
        else
          match Transaction (createTx ctx req code) st with
          | (st', OK redEnvelope) =>
              (st', OK (mkCreateResponse (RedEnvelope.ID redEnvelope) code))
          | (st', Err f) => (st', Err f)
          end
    end.

(** The share computed by [Claim] for the locked envelope row. *)
Definition claimedAmountOf (raw : Z) (redEnvelope : RedEnvelope.t) : option Decimal :=
  match RedEnvelope.Type_ redEnvelope with
  | RedEnvelopeTypeFixed =>
      if RedEnvelope.RemainingCount redEnvelope =? 1
      then Some (RedEnvelope.RemainingAmount redEnvelope)
      else
        let? q := Div (RedEnvelope.TotalAmount redEnvelope)
                      (NewFromInt (RedEnvelope.TotalCount redEnvelope)) in
        Some (Round q 2)
  | RedEnvelopeTypeRandom =>
      calculateRandomAmount raw (RedEnvelope.RemainingAmount redEnvelope)
                            (RedEnvelope.RemainingCount redEnvelope)
  end.

Definition set_remaining (newRemainingCount : Z) (newRemainingAmount : Decimal)
    (newStatus : RedEnvelopeStatus) (e : RedEnvelope.t) : RedEnvelope.t :=
  RedEnvelope.mk (RedEnvelope.ID e) (RedEnvelope.Code e) (RedEnvelope.CreatorID e)
    (RedEnvelope.Type_ e) (RedEnvelope.TotalAmount e) newRemainingAmount
    (RedEnvelope.TotalCount e) newRemainingCount (RedEnvelope.Greeting e)
    newStatus (RedEnvelope.ExpiresAt e).

(** The part of the [Claim] transaction after the four checks: the share,
    the claim row, the envelope update, the credit and the journal entry. *)
Definition claimWrites (ctx : Context) (raw : Z) (redEnvelope : RedEnvelope.t)
    (tx : Store) : Store * Response ClaimResponse :=
  match claimedAmountOf raw redEnvelope with
  | None => (tx, Err RuntimePanic)
  | Some claimedAmount =>
      let claim :=
        RedEnvelopeClaim.mk (RedEnvelope.ID redEnvelope) (currentUser ctx)
                            claimedAmount in
      let tx := with_claims tx (red_envelope_claims tx ++ [claim]) in
      let newRemainingCount := RedEnvelope.RemainingCount redEnvelope - 1 in
      let newRemainingAmount :=
        Sub (RedEnvelope.RemainingAmount redEnvelope) claimedAmount in
      let newStatus :=
        if newRemainingCount <=? 0 then RedEnvelopeStatusFinished
        else RedEnvelope.Status redEnvelope in
      let tx :=
        with_red_envelopes tx
          (Updates (fun e => RedEnvelope.ID e =? RedEnvelope.ID redEnvelope)
                   (set_remaining newRemainingCount newRemainingAmount newStatus)
                   (red_envelopes tx)) in
      let redEnvelope :=
        set_remaining newRemainingCount newRemainingAmount newStatus redEnvelope in
      let tx := add_balance (currentUser ctx) claimedAmount tx in
      let order :=
        Order.mk (RedEnvelope.CreatorID redEnvelope) (currentUser ctx)
                 claimedAmount OrderTypeRedEnvelopeReceive (Now ctx) in
      let tx := with_orders tx (orders tx ++ [order]) in
      (tx, OK (mkClaimResponse claimedAmount redEnvelope))
  end.

Definition hasClaim (envelopeID userID : Z) (rows : list RedEnvelopeClaim.t) : bool :=
  match First (fun c => (RedEnvelopeClaim.RedEnvelopeID c =? envelopeID)
                        && (RedEnvelopeClaim.UserID c =? userID)) rows with
  | Some _ => true
  | None => false
  end.

(** The transaction of [Claim]. *)
Definition claimTx (ctx : Context) (req : ClaimRequest) (raw : Z) (tx : Store)
  : Store * Response ClaimResponse :=
  match First (fun e => String.eqb (RedEnvelope.Code e) (ClaimRequest_Code req))
              (red_envelopes tx) with
  | None => (tx, Err RedEnvelopeNotFound)
  | Some redEnvelope =>
      if status_eqb (RedEnvelope.Status redEnvelope) RedEnvelopeStatusExpired
         || (RedEnvelope.ExpiresAt redEnvelope <? Now ctx)
      then (tx, Err RedEnvelopeExpired)
      else if status_eqb (RedEnvelope.Status redEnvelope) RedEnvelopeStatusFinished
              || (RedEnvelope.RemainingCount redEnvelope <=? 0)
      then (tx, Err RedEnvelopeFinished)
      else if hasClaim (RedEnvelope.ID redEnvelope) (currentUser ctx)
                       (red_envelope_claims tx)
      then (tx, Err RedEnvelopeAlreadyClaimed)
      else claimWrites ctx raw redEnvelope tx
  end.

(** [Claim]; [raw] is the draw the random allocation consumes, if any. *)
Definition Claim (ctx : Context) (req : ClaimRequest) (raw : Z) (st : Store)
  : Store * Response ClaimResponse :=
  if negb (IsRedEnvelopeEnabled ctx) then (st, Err FeatureDisabled)
  else if negb (ShouldBindJSON_Claim req) then (st, Err BindingFailed)
  else Transaction (claimTx ctx req raw) st.

(** ** The expiry sweeper *)

(** The query of [refundExpiredRedEnvelopes]:
    [status = Active AND expires_at < now AND remaining_amount > 0]. *)
Definition expiredEnvelopes (now : Time) (st : Store) : list RedEnvelope.t :=
  filter (fun e => status_eqb (RedEnvelope.Status e) RedEnvelopeStatusActive
                   && (RedEnvelope.ExpiresAt e <? now)
                   && GreaterThan (RedEnvelope.RemainingAmount e) (NewFromInt 0))
         (red_envelopes st).

(** The transaction run for one [envelope] of the query's result; the
    envelope is the row as the query read it, the store is the current one. *)
Definition refundTx (now : Time) (envelope : RedEnvelope.t) (tx : Store)
  : Store * Response unit :=
  let tx :=
    with_red_envelopes tx
      (Updates (fun e => (RedEnvelope.ID e =? RedEnvelope.ID envelope)
                         && status_eqb (RedEnvelope.Status e) RedEnvelopeStatusActive)
               (set_remaining 0 (NewFromInt 0) RedEnvelopeStatusExpired)
               (red_envelopes tx)) in
  if IsPositive (RedEnvelope.RemainingAmount envelope) then
    let tx := add_balance (RedEnvelope.CreatorID envelope)
                          (RedEnvelope.RemainingAmount envelope) tx in
    let order :=
      Order.mk (RedEnvelope.CreatorID envelope) (RedEnvelope.CreatorID envelope)
               (RedEnvelope.RemainingAmount envelope)
               (OrderTypeLiteral "red_envelope_refund") now in
    let tx := with_orders tx (orders tx ++ [order]) in
    (tx, OK tt)
  else (tx, OK tt).

Definition refundOne (now : Time) (envelope : RedEnvelope.t) (st : Store) : Store :=
  fst (Transaction (refundTx now envelope) st).

(** The loop over the query's result; a failed item is logged and skipped. *)
Definition refundAll (now : Time) (envelopes : list RedEnvelope.t) (st : Store)
  : Store :=
  fold_left (fun st envelope => refundOne now envelope st) envelopes st.

Definition refundExpiredRedEnvelopes (now : Time) (st : Store) : Store :=
  refundAll now (expiredEnvelopes now st) st.

(** ** The read-only handlers *)

Record DetailResponse : Type := mkDetailResponse {
  DetailResponse_RedEnvelope : RedEnvelope.t;
  DetailResponse_Claims : list RedEnvelopeClaim.t;
  DetailResponse_UserClaimed : option RedEnvelopeClaim.t
}.

(** [GetDetail].  [currentUser] is [None] when the context holds no user.
    The claims are read [ORDER BY claimed_at DESC]; that column is filled in
    by the database layer and is not among the fields the handlers write, so
    the ordering is the parameter [byClaimedAt]: the rows of the query in,
    the same rows in the order of the result out. *)
Definition GetDetail
    (byClaimedAt : list RedEnvelopeClaim.t -> list RedEnvelopeClaim.t)
    (currentUser : option Z) (code : string) (st : Store)
  : Response DetailResponse :=
  match First (fun e => String.eqb (RedEnvelope.Code e) code) (red_envelopes st) with
  | None => Err RedEnvelopeNotFound
  | Some redEnvelope =>
      let claims :=
        byClaimedAt
          (filter (fun c => RedEnvelopeClaim.RedEnvelopeID c =? RedEnvelope.ID redEnvelope)
                  (red_envelope_claims st)) in
      let userClaimed :=
        match currentUser with
        | Some uid => find (fun c => RedEnvelopeClaim.UserID c =? uid) claims
        | None => None
        end in
      OK (mkDetailResponse redEnvelope claims userClaimed)
  end.

Record ListRequest : Type := mkListRequest {
  ListRequest_Page : Z;
  ListRequest_PageSize : Z;
  ListRequest_Type : string
}.

Record ListResponse : Type := mkListResponse {
  ListResponse_Total : Z;
  ListResponse_Page : Z;
  ListResponse_PageSize : Z;
  ListResponse_RedEnvelopes : list RedEnvelope.t
}.

(** The [binding] tags of [ListRequest]: [page] an [int] of at least 1,
    [page_size] from 1 to 100, [type] empty or one of the two directions. *)
Definition ShouldBindJSON_List (req : ListRequest) : bool :=
  (1 <=? ListRequest_Page req)
  && (ListRequest_Page req <? 2 ^ 63)
  && (1 <=? ListRequest_PageSize req)
  && (ListRequest_PageSize req <=? 100)
  && (String.eqb (ListRequest_Type req) ""
      || String.eqb (ListRequest_Type req) "sent"
      || String.eqb (ListRequest_Type req) "received").

(** The rows the query of [List] selects: the envelopes of the caller, or,
    for [received], one row per pair of an envelope and a claim of the
    caller on it (the inner join). *)
Definition listQuery (uid : Z) (type : string) (st : Store) : list RedEnvelope.t :=
  if String.eqb type "sent"
  then filter (fun e => RedEnvelope.CreatorID e =? uid) (red_envelopes st)
  else if String.eqb type "received"
  then flat_map
         (fun e =>
            map (fun _ => e)
                (filter (fun c => (RedEnvelopeClaim.RedEnvelopeID c =? RedEnvelope.ID e)
                                  && (RedEnvelopeClaim.UserID c =? uid))
                        (red_envelope_claims st)))
         (red_envelopes st)
  else filter (fun e => RedEnvelope.CreatorID e =? uid) (red_envelopes st).

(** [Offset(n)] and [Limit(n)] of the query builder: no [OFFSET] is written
    for [n <= 0], no [LIMIT] for [n < 0]. *)
Definition Offset {A : Type} (n : Z) (rows : list A) : list A :=
  skipn (Z.to_nat n) rows.

Definition Limit {A : Type} (n : Z) (rows : list A) : list A :=
  if n <? 0 then rows else firstn (Z.to_nat n) rows.

(** [List].  The rows are read [ORDER BY created_at DESC]; as for
    [claimed_at], the ordering is the parameter [byCreatedAt].  The offset is
    computed in [int]. *)
Definition List (byCreatedAt : list RedEnvelope.t -> list RedEnvelope.t)
    (ctx : Context) (req : ListRequest) (st : Store) : Response ListResponse :=
  if negb (ShouldBindJSON_List req) then Err BindingFailed
  else
    let query := listQuery (currentUser ctx) (ListRequest_Type req) st in
    let total := Z.of_nat (List.length query) in
    let redEnvelopes :=
      Limit (ListRequest_PageSize req)
            (Offset (wrap64 ((ListRequest_Page req - 1) * ListRequest_PageSize req))
                    (byCreatedAt query)) in
    OK (mkListResponse total (ListRequest_Page req) (ListRequest_PageSize req)
                       redEnvelopes).

(** The envelopes a list in direction [type] is about: those the user has a
    claim on, or those the user created. *)
Definition wanted (uid : Z) (type : string) (st : Store) (e : RedEnvelope.t) : bool :=
  if String.eqb type "received"
  then hasClaim (RedEnvelope.ID e) uid (red_envelope_claims st)
  else RedEnvelope.CreatorID e =? uid.

(** The rows of a list response. *)
Definition listedRows (r : Response ListResponse) : list RedEnvelope.t :=
  match r with
  | OK a => ListResponse_RedEnvelopes a
  | Err _ => []
  end.

(** ** Redis keys and JSON values

    [internal/db/redis.go] and [internal/task/utils.go].  Of the
    configuration only the key prefix matters here. *)

Record RedisConfig : Type := mkRedisConfig {
  KeyPrefix : string
}.

(** [db.PrefixedKey]. *)
Definition PrefixedKey (cfg : RedisConfig) (key : string) : string :=
  let prefix := KeyPrefix cfg in
  if String.eqb prefix "" then key else (prefix ++ key)%string.

(** [task.PrefixedQueue]. *)
Definition PrefixedQueue (cfg : RedisConfig) (queue : string) : string :=
  let prefix := KeyPrefix cfg in
  if String.eqb prefix "" then queue else (prefix ++ queue)%string.

(** The hashes a server holds: for a key and a field, the value set last.
    The newest entry comes first. *)
Definition Hashes : Type := list (string * string * string).

Definition sameField (key field : string) (entry : string * string * string) : bool :=
  String.eqb (fst (fst entry)) key && String.eqb (snd (fst entry)) field.

(** [HSET key field value] and [HGET key field] on a reachable server;
    [HGET] answers [redis.Nil] for a field that is not set. *)
Definition HSet (key field value : string) (r : Hashes) : Hashes :=
  (key, field, value) :: filter (fun entry => negb (sameField key field entry)) r.

Inductive RedisError : Type :=
| MarshalError
| RedisNil
| UnmarshalError.

Definition HGet (key field : string) (r : Hashes) : RedisError + string :=
  match find (sameField key field) r with
  | Some entry => inr (snd entry)
  | None => inl RedisNil
  end.

(** [HSetJSON] and [HGetJSON] for values of a type [T], with
    [json.Marshal] and [json.Unmarshal] at [T] as [marshal] and [unmarshal];
    [None] is their error. *)
Definition HSetJSON {T : Type} (marshal : T -> option string) (cfg : RedisConfig)
    (hashKey fieldKey : string) (data : T) (r : Hashes)
  : Hashes * option RedisError :=
  match marshal data with
  | None => (r, Some MarshalError)
  | Some jsonData => (HSet (PrefixedKey cfg hashKey) fieldKey jsonData r, None)
  end.

Definition HGetJSON {T : Type} (unmarshal : string -> option T) (cfg : RedisConfig)
    (hashKey fieldKey : string) (r : Hashes) : RedisError + T :=
  match HGet (PrefixedKey cfg hashKey) fieldKey r with
  | inl err => inl err
  | inr val =>
      match unmarshal val with
      | None => inl UnmarshalError
      | Some data => inr data
      end
  end.

(** ** Auxiliary notions used by the statements *)

(** The number of [10 ^ (- s)] units in [d]; an integer as long as
    [- s <= exp d]. *)
Definition units (s : Z) (d : Decimal) : Z := value d * 10 ^ (exp d + s).

(** The first amount whose number of cents no longer fits an [int64]. *)
Definition Int64Cents : Decimal := New (2 ^ 63) (-2).

(** The envelope found by [code], as [Claim] locks it. *)
Definition lockedEnvelope (code : string) (st : Store) : option RedEnvelope.t :=
  First (fun e => String.eqb (RedEnvelope.Code e) code) (red_envelopes st).

(** The four checks of [Claim] all pass for the caller: the envelope is
    active, not yet past its expiry, has shares left, and the caller holds no
    claim on it. *)
Definition passesChecks (ctx : Context) (redEnvelope : RedEnvelope.t) (st : Store)
  : Prop :=
  RedEnvelope.Status redEnvelope = RedEnvelopeStatusActive
  /\ Now ctx <= RedEnvelope.ExpiresAt redEnvelope
  /\ 0 < RedEnvelope.RemainingCount redEnvelope
  /\ hasClaim (RedEnvelope.ID redEnvelope) (currentUser ctx)
              (red_envelope_claims st) = false.

(** The envelope row after a claim of [claimedAmount]. *)
Definition afterClaim (claimedAmount : Decimal) (e : RedEnvelope.t) : RedEnvelope.t :=
  set_remaining (RedEnvelope.RemainingCount e - 1)
                (Sub (RedEnvelope.RemainingAmount e) claimedAmount)
                (if RedEnvelope.RemainingCount e - 1 <=? 0
                 then RedEnvelopeStatusFinished else RedEnvelope.Status e)
                e.

(** What serving [claimedAmount] from [redEnvelope] to the caller writes,
    table by table: the claim row; the new remaining count, remaining amount
    and status on the envelope's row; the credit on the caller's balance; the
    journal entry from the creator to the caller. *)
Definition claimWritten (ctx : Context) (redEnvelope : RedEnvelope.t)
    (claimedAmount : Decimal) (st st' : Store) : Prop :=
  red_envelope_claims st'
  = red_envelope_claims st
    ++ [RedEnvelopeClaim.mk (RedEnvelope.ID redEnvelope) (currentUser ctx)
                            claimedAmount]
  /\ red_envelopes st'
     = map (fun e =>
              if RedEnvelope.ID e =? RedEnvelope.ID redEnvelope
              then RedEnvelope.mk
                     (RedEnvelope.ID e) (RedEnvelope.Code e) (RedEnvelope.CreatorID e)
                     (RedEnvelope.Type_ e) (RedEnvelope.TotalAmount e)
                     (Sub (RedEnvelope.RemainingAmount redEnvelope) claimedAmount)
                     (RedEnvelope.TotalCount e)
                     (RedEnvelope.RemainingCount redEnvelope - 1)
                     (RedEnvelope.Greeting e)
                     (if RedEnvelope.RemainingCount redEnvelope - 1 <=? 0
                      then RedEnvelopeStatusFinished
                      else RedEnvelope.Status redEnvelope)
                     (RedEnvelope.ExpiresAt e)
              else e)
           (red_envelopes st)
  /\ users st'
     = map (fun u =>
              if User.ID u =? currentUser ctx
              then User.mk (User.ID u) (Add (User.AvailableBalance u) claimedAmount)
              else u)
           (users st)
  /\ orders st'
     = orders st
       ++ [Order.mk (RedEnvelope.CreatorID redEnvelope) (currentUser ctx)
                    claimedAmount OrderTypeRedEnvelopeReceive (Now ctx)].

(** The operations that change the store.  [OpRefund] is one transaction of
    the sweeper's loop, run on a row read by an earlier query: between the
    query and the transaction other requests may have been served. *)
Inductive Op : Type :=
| OpCreate (ctx : Context) (req : CreateRequest.t) (code : string)
| OpClaim (ctx : Context) (req : ClaimRequest) (raw : Z)
| OpSweep (now : Time)
| OpRefund (now : Time) (envelope : RedEnvelope.t).

Definition apply (st : Store) (op : Op) : Store :=
  match op with
  | OpCreate ctx req code => fst (Create ctx req code st)
  | OpClaim ctx req raw => fst (Claim ctx req raw st)
  | OpSweep now => refundExpiredRedEnvelopes now st
  | OpRefund now envelope => refundOne now envelope st
  end.

Definition run (ops : list Op) (st : Store) : Store := fold_left apply ops st.

(** The sum of the claims recorded for an envelope. *)
Definition claimedTotal (envelopeID : Z) (rows : list RedEnvelopeClaim.t) : Decimal :=
  fold_left (fun acc c =>
               if RedEnvelopeClaim.RedEnvelopeID c =? envelopeID
               then Add acc (RedEnvelopeClaim.Amount c) else acc)
            rows (NewFromInt 0).

Definition balanceOf (uid : Z) (st : Store) : option Decimal :=
  option_map User.AvailableBalance (First (fun u => User.ID u =? uid) (users st)).

(** [Finished] goes with nothing left. *)
Definition finishedIsEmpty (e : RedEnvelope.t) : Prop :=
  RedEnvelope.Status e = RedEnvelopeStatusFinished ->
  IsZero (RedEnvelope.RemainingAmount e) = true /\ RedEnvelope.RemainingCount e = 0.

(** Envelope keys are distinct and count up from one, and every claim row
    points to an envelope and holds whole cents. *)
Definition keyed (st : Store) : Prop :=
  NoDup (map RedEnvelope.ID (red_envelopes st))
  /\ (forall e, In e (red_envelopes st) ->
                1 <= RedEnvelope.ID e <= Z.of_nat (List.length (red_envelopes st)))
  /\ (forall c, In c (red_envelope_claims st) ->
                1 <= RedEnvelopeClaim.RedEnvelopeID c
                  <= Z.of_nat (List.length (red_envelopes st))
                /\ -2 <= exp (RedEnvelopeClaim.Amount c)).

(** In cents: what was claimed from [e] is the total less what remains, and
    a Random envelope keeps its remaining amount between zero and the
    total. *)
Definition accounted (st : Store) (e : RedEnvelope.t) : Prop :=
  -2 <= exp (RedEnvelope.TotalAmount e)
  /\ -2 <= exp (RedEnvelope.RemainingAmount e)
  /\ units 2 (claimedTotal (RedEnvelope.ID e) (red_envelope_claims st))
     = units 2 (RedEnvelope.TotalAmount e) - units 2 (RedEnvelope.RemainingAmount e)
  /\ (RedEnvelope.Type_ e = RedEnvelopeTypeRandom ->
      0 <= units 2 (RedEnvelope.RemainingAmount e)
        <= units 2 (RedEnvelope.TotalAmount e)).

Definition ledger (st : Store) : Prop :=
  keyed st
  /\ forall e, In e (red_envelopes st) ->
               RedEnvelope.Status e <> RedEnvelopeStatusExpired -> accounted st e.

(** The amount and the envelope status a successful claim reports. *)
Definition responseAmount (r : Response ClaimResponse) : option Decimal :=
  match r with
  | OK a => Some (ClaimResponse_Amount a)
  | Err _ => None
  end.


(** One committed change of the tables, as the operations make them. *)
Inductive Change (st st' : Store) : Prop :=
| Unchanged :
    red_envelopes st' = red_envelopes st ->
    red_envelope_claims st' = red_envelope_claims st ->
    users st' = users st ->
    orders st' = orders st ->
    Change st st'
| Created (e : RedEnvelope.t) :
    red_envelopes st' = red_envelopes st ++ [e] ->
    RedEnvelope.Status e = RedEnvelopeStatusActive ->
    red_envelope_claims st' = red_envelope_claims st ->
    RedEnvelope.ID e = nextID (red_envelopes st) ->
    RedEnvelope.RemainingAmount e = RedEnvelope.TotalAmount e ->
    RedEnvelope.RemainingCount e = RedEnvelope.TotalCount e ->
    1 <= RedEnvelope.TotalCount e ->
    -2 <= Exponent (RedEnvelope.TotalAmount e) ->
    LessThanOrEqual (RedEnvelope.TotalAmount e) Zero = false ->
    Change st st'
| Claimed (ctx : Context) (raw : Z) (redEnvelope : RedEnvelope.t)
          (claimedAmount : Decimal) :
    In redEnvelope (red_envelopes st) ->
    passesChecks ctx redEnvelope st ->
    claimedAmountOf raw redEnvelope = Some claimedAmount ->
    red_envelopes st'
    = Updates (fun e => RedEnvelope.ID e =? RedEnvelope.ID redEnvelope)
              (set_remaining (RedEnvelope.RemainingCount redEnvelope - 1)
                 (Sub (RedEnvelope.RemainingAmount redEnvelope) claimedAmount)
                 (if RedEnvelope.RemainingCount redEnvelope - 1 <=? 0
                  then RedEnvelopeStatusFinished
                  else RedEnvelope.Status redEnvelope))
              (red_envelopes st) ->
    red_envelope_claims st'
    = red_envelope_claims st
      ++ [RedEnvelopeClaim.mk (RedEnvelope.ID redEnvelope) (currentUser ctx)
                              claimedAmount] ->
    Change st st'
| Refunded (envelope : RedEnvelope.t) :
    red_envelopes st'
    = Updates (fun e => (RedEnvelope.ID e =? RedEnvelope.ID envelope)
                        && status_eqb (RedEnvelope.Status e) RedEnvelopeStatusActive)
              (set_remaining 0 (NewFromInt 0) RedEnvelopeStatusExpired)
              (red_envelopes st) ->
    red_envelope_claims st' = red_envelope_claims st ->
    Change st st'.

(** Any number of changes in a row. *)
Inductive Changes (st : Store) : Store -> Prop :=
| NoChange : Changes st st
| MoreChange (st' st'' : Store) : Changes st st' -> Change st' st'' -> Changes st st''.

(** ** Further notions: claim keys, share counts, funds, the journal *)

(** The pair a claim row is unique by. *)
Definition claimKey (c : RedEnvelopeClaim.t) : Z * Z :=
  (RedEnvelopeClaim.RedEnvelopeID c, RedEnvelopeClaim.UserID c).

(** The claim rows of one envelope. *)
Definition claimsOf (envelopeID : Z) (rows : list RedEnvelopeClaim.t)
  : list RedEnvelopeClaim.t :=
  filter (fun c => RedEnvelopeClaim.RedEnvelopeID c =? envelopeID) rows.

Definition claimCount (envelopeID : Z) (rows : list RedEnvelopeClaim.t) : Z :=
  Z.of_nat (List.length (claimsOf envelopeID rows)).

(** The shares of an envelope and its claim rows agree. *)
Definition counted (st : Store) (e : RedEnvelope.t) : Prop :=
  1 <= RedEnvelope.TotalCount e
  /\ claimCount (RedEnvelope.ID e) (red_envelope_claims st) <= RedEnvelope.TotalCount e
  /\ (RedEnvelope.Status e <> RedEnvelopeStatusExpired ->
      claimCount (RedEnvelope.ID e) (red_envelope_claims st)
      = RedEnvelope.TotalCount e - RedEnvelope.RemainingCount e)
  /\ (RedEnvelope.Status e = RedEnvelopeStatusActive ->
      1 <= RedEnvelope.RemainingCount e <= RedEnvelope.TotalCount e)
  /\ (RedEnvelope.Status e = RedEnvelopeStatusFinished ->
      RedEnvelope.RemainingCount e = 0).

(** What never changes in an envelope row. *)
Definition sameIdentity (e e' : RedEnvelope.t) : Prop :=
  RedEnvelope.ID e' = RedEnvelope.ID e
  /\ RedEnvelope.Code e' = RedEnvelope.Code e
  /\ RedEnvelope.CreatorID e' = RedEnvelope.CreatorID e
  /\ RedEnvelope.Type_ e' = RedEnvelope.Type_ e
  /\ RedEnvelope.TotalAmount e' = RedEnvelope.TotalAmount e
  /\ RedEnvelope.TotalCount e' = RedEnvelope.TotalCount e
  /\ RedEnvelope.Greeting e' = RedEnvelope.Greeting e
  /\ RedEnvelope.ExpiresAt e' = RedEnvelope.ExpiresAt e.

(** How a row may look later: same identity, never more shares left, and no
    change at all once it is Finished or Expired. *)
Definition evolves (e e' : RedEnvelope.t) : Prop :=
  sameIdentity e e'
  /\ RedEnvelope.RemainingCount e' <= RedEnvelope.RemainingCount e
  /\ (RedEnvelope.Status e <> RedEnvelopeStatusActive -> e' = e).

(** Sums over a table. *)
Definition sumZ {A : Type} (f : A -> Z) (rows : list A) : Z :=
  fold_right (fun row acc => f row + acc) 0 rows.

(** All the money the engine knows of, in cents: the balances and what is
    left in the envelopes. *)
Definition funds (st : Store) : Z :=
  sumZ (fun u => units 2 (User.AvailableBalance u)) (users st)
  + sumZ (fun e => units 2 (RedEnvelope.RemainingAmount e)) (red_envelopes st).

(** Operations as requests are served one after the other: a claimant is a
    known user, and a refund transaction runs right after its query, inside
    [OpSweep]. *)
Definition served (st : Store) (op : Op) : Prop :=
  match op with
  | OpClaim ctx _ _ => In (currentUser ctx) (map User.ID (users st))
  | OpRefund _ _ => False
  | _ => True
  end.

(** The users table has one row per user, in whole cents. *)
Definition accounts (st : Store) : Prop :=
  NoDup (map User.ID (users st))
  /\ forall u, In u (users st) -> -2 <= exp (User.AvailableBalance u).

(** What the conservation of funds rests on: the books of the envelopes, one
    row per user, every creator a known user, every amount in whole cents. *)
Definition housekeeping (st : Store) : Prop :=
  ledger st
  /\ accounts st
  /\ forall e, In e (red_envelopes st) ->
               In (RedEnvelope.CreatorID e) (map User.ID (users st))
               /\ -2 <= exp (RedEnvelope.RemainingAmount e).

(** An envelope that a claim at time [now] cannot draw from. *)
Definition closedAt (now : Time) (e : RedEnvelope.t) : Prop :=
  RedEnvelope.Status e <> RedEnvelopeStatusActive
  \/ RedEnvelope.ExpiresAt e < now
  \/ RedEnvelope.RemainingCount e <= 0.

(** The journal entry the sweeper writes when it refunds [envelope]. *)
Definition refundOrder (now : Time) (envelope : RedEnvelope.t) : Order.t :=
  Order.mk (RedEnvelope.CreatorID envelope) (RedEnvelope.CreatorID envelope)
           (RedEnvelope.RemainingAmount envelope)
           (OrderTypeLiteral "red_envelope_refund") now.

(** The journal entries of one kind. *)
Definition sends (rows : list Order.t) : list Order.t :=
  filter (fun o => match Order.Type_ o with
                   | OrderTypeRedEnvelopeSend => true
                   | _ => false
                   end) rows.

Definition receipts (rows : list Order.t) : list Order.t :=
  filter (fun o => match Order.Type_ o with
                   | OrderTypeRedEnvelopeReceive => true
                   | _ => false
                   end) rows.

(** The journal and the tables agree: the send entries are the envelopes,
    one for one and in order, each paid by the creator to the creator for the
    total amount; the receive entries are the claims, one for one and in
    order, each paid to the claimant for the amount claimed. *)
Definition journalled (st : Store) : Prop :=
  map (fun o => (Order.PayerUserID o, Order.PayeeUserID o, Order.Amount o))
      (sends (orders st))
  = map (fun e => (RedEnvelope.CreatorID e, RedEnvelope.CreatorID e,
                   RedEnvelope.TotalAmount e))
        (red_envelopes st)
  /\ map (fun o => (Order.PayeeUserID o, Order.Amount o)) (receipts (orders st))
     = map (fun c => (RedEnvelopeClaim.UserID c, RedEnvelopeClaim.Amount c))
           (red_envelope_claims st).

(** No balance is negative. *)
Definition solvent (st : Store) : Prop :=
  forall u, In u (users st) -> 0 <= value (User.AvailableBalance u).

(** Requests that deal in Random envelopes only, served one after the
    other. *)
Definition randomOnly (op : Op) : Prop :=
  match op with
  | OpCreate _ req _ => CreateRequest.Type_ req = RedEnvelopeTypeRandom
  | OpRefund _ _ => False
  | _ => True
  end.

(** What solvency rests on: the books of the envelopes, one row per user in
    whole cents, no negative balance, Random envelopes only. *)
Definition sound (st : Store) : Prop :=
  ledger st /\ accounts st /\ solvent st
  /\ forall e, In e (red_envelopes st) ->
               RedEnvelope.Type_ e = RedEnvelopeTypeRandom.

(** A request that, if it creates a Random envelope, puts in at least a
    cent per share. *)
Definition fundedRequest (op : Op) : Prop :=
  match op with
  | OpCreate _ req _ =>
      CreateRequest.Type_ req = RedEnvelopeTypeRandom ->
      LessThan (CreateRequest.TotalAmount req)
               (Mul NewFromFloat_0_01 (NewFromInt (CreateRequest.TotalCount req)))
      = false
  | _ => True
  end.

(** A Random envelope that still holds a cent for every share left. *)
Definition funded (e : RedEnvelope.t) : Prop :=
  RedEnvelope.Type_ e = RedEnvelopeTypeRandom ->
  RedEnvelope.Status e <> RedEnvelopeStatusExpired ->
  RedEnvelope.RemainingCount e <= units 2 (RedEnvelope.RemainingAmount e).

(** A request that, if it creates an envelope, puts in less than [2 ^ 63]
    cents. *)
Definition boundedRequest (op : Op) : Prop :=
  match op with
  | OpCreate _ req _ => LessThan (CreateRequest.TotalAmount req) Int64Cents = true
  | _ => True
  end.

(** The conditions [Claim] turns a request down with. *)
Definition claimRejections : list Failure :=
  [FeatureDisabled; BindingFailed; RedEnvelopeNotFound; RedEnvelopeExpired;
   RedEnvelopeFinished; RedEnvelopeAlreadyClaimed].

(** ** A sample history *)

(** A greeting of 34 runes in 102 bytes: 34 times U+4E2D, three bytes each. *)
Definition sampleGreeting : string :=
  String.concat ""
    (repeat (String (ascii_of_nat 228)
               (String (ascii_of_nat 184) (String (ascii_of_nat 173) EmptyString)))
            34).

(** A small history used to instantiate the statements: three users, a
    Random and a Fixed envelope of user 1, a claim on each, and a sweep after
    both have expired. *)
Definition sampleStore : Store :=
  mkStore [] []
          [User.mk 1 (New 10000 (-2)); User.mk 2 (New 0 (-2)); User.mk 3 (New 0 (-2))]
          [] 0.

Definition sampleContext (uid : Z) (now : Time) : Context :=
  mkContext true uid (fun _ => true) now.

Definition sampleRequests : list Op :=
  [OpCreate (sampleContext 1 0)
     (CreateRequest.mk RedEnvelopeTypeRandom (New 1000 (-2)) 2 "" "123456") "abc";
   OpClaim (sampleContext 2 1) (mkClaimRequest "abc") 41;
   OpCreate (sampleContext 1 2)
     (CreateRequest.mk RedEnvelopeTypeFixed (New 300 (-2)) 3 "" "123456") "xyz";
   OpClaim (sampleContext 3 3) (mkClaimRequest "xyz") 0].

Definition sampleSweep : list Op := [OpSweep (100 * Hour)].

(** What a journal entry does to the balance of [uid], in cents: a send
    entry debits the payer, any other entry credits the payee. *)
Definition movement (uid : Z) (o : Order.t) : Z :=
  match Order.Type_ o with
  | OrderTypeRedEnvelopeSend =>
      if Order.PayerUserID o =? uid then - units 2 (Order.Amount o) else 0
  | _ =>
      if Order.PayeeUserID o =? uid then units 2 (Order.Amount o) else 0
  end.

(** The balance of a user row is the balance it had in [before] and the
    movements of the journal. *)
Definition explained (journal : list Order.t) (before after : User.t) : Prop :=
  User.ID after = User.ID before
  /\ -2 <= exp (User.AvailableBalance after)
  /\ units 2 (User.AvailableBalance after)
     = units 2 (User.AvailableBalance before)
       + sumZ (movement (User.ID before)) journal.

(** Operations whose amounts are whole cents: this only restricts a refund
    transaction run on a row of the caller's choice. *)
Definition wholeCents (op : Op) : Prop :=
  match op with
  | OpRefund _ envelope => -2 <= exp (RedEnvelope.RemainingAmount envelope)
  | _ => True
  end.

(** * Properties *)

(** ** Facts about decimals *)

Lemma pow10_pos (n : Z) : 0 <= n -> 0 < 10 ^ n.
Proof. intros; apply Z.pow_pos_nonneg; lia. Qed.

Lemma pow10_split (a b : Z) : 0 <= a -> 0 <= b -> 10 ^ (a + b) = 10 ^ a * 10 ^ b.
Proof. intros; apply Z.pow_add_r; assumption. Qed.

Lemma exp_rescale (d : Decimal) (e : Z) : exp (rescale d e) = e.
Proof.
  unfold rescale.
  destruct (Z.eqb_spec (exp d) e); [assumption|].
  destruct (exp d <? e); reflexivity.
Qed.

Lemma units_rescale_down (s : Z) (d : Decimal) (e : Z) :
  e <= exp d -> 0 <= e + s -> units s (rescale d e) = units s d.
Proof.
  intros Hle Hs. unfold rescale.
  destruct (Z.eqb_spec (exp d) e) as [He|Hne]; [reflexivity|].
  destruct (Z.ltb_spec (exp d) e); [lia|].
  unfold units; cbn [value exp].
  replace (Z.abs (e - exp d)) with (exp d - e) by lia.
  replace (exp d + s) with ((exp d - e) + (e + s)) by lia.
  rewrite (pow10_split (exp d - e) (e + s)) by lia. ring.
Qed.

Lemma RescalePair_spec (d1 d2 : Decimal) :
  exp (fst (RescalePair d1 d2)) = Z.min (exp d1) (exp d2)
  /\ exp (snd (RescalePair d1 d2)) = Z.min (exp d1) (exp d2)
  /\ forall s, 0 <= Z.min (exp d1) (exp d2) + s ->
       units s (fst (RescalePair d1 d2)) = units s d1
       /\ units s (snd (RescalePair d1 d2)) = units s d2.
Proof.
  unfold RescalePair.
  destruct (Z.eqb_spec (exp d1) (exp d2)) as [He|He]; cbn [fst snd].
  - repeat split; lia.
  - destruct (Z.eqb_spec (Z.min (exp d1) (exp d2)) (exp d1)) as [Hm|Hm];
      cbn [negb fst snd]; rewrite ?exp_rescale.
    + repeat split; try lia. apply units_rescale_down; lia.
    + repeat split; try lia. apply units_rescale_down; lia.
Qed.

Lemma exp_Add (d1 d2 : Decimal) : exp (Add d1 d2) = Z.min (exp d1) (exp d2).
Proof.
  unfold Add. pose proof (RescalePair_spec d1 d2) as [H _].
  destruct (RescalePair d1 d2); exact H.
Qed.

Lemma exp_Sub (d1 d2 : Decimal) : exp (Sub d1 d2) = Z.min (exp d1) (exp d2).
Proof.
  unfold Sub. pose proof (RescalePair_spec d1 d2) as [H _].
  destruct (RescalePair d1 d2); exact H.
Qed.

Lemma units_Add (s : Z) (d1 d2 : Decimal) :
  0 <= exp d1 + s -> 0 <= exp d2 + s ->
  units s (Add d1 d2) = units s d1 + units s d2.
Proof.
  intros H1 H2. unfold Add.
  pose proof (RescalePair_spec d1 d2) as (E1 & E2 & U).
  destruct (U s) as [U1 U2]; [lia|].
  destruct (RescalePair d1 d2) as [r1 r2]; cbn [fst snd] in *.
  rewrite <- U1, <- U2. unfold units; cbn [value exp]. rewrite E2, E1. ring.
Qed.

Lemma units_Sub (s : Z) (d1 d2 : Decimal) :
  0 <= exp d1 + s -> 0 <= exp d2 + s ->
  units s (Sub d1 d2) = units s d1 - units s d2.
Proof.
  intros H1 H2. unfold Sub.
  pose proof (RescalePair_spec d1 d2) as (E1 & E2 & U).
  destruct (U s) as [U1 U2]; [lia|].
  destruct (RescalePair d1 d2) as [r1 r2]; cbn [fst snd] in *.
  rewrite <- U1, <- U2. unfold units; cbn [value exp]. rewrite E2, E1. ring.
Qed.

Lemma units_Mul_int (s : Z) (d : Decimal) (n : Z) :
  units s (Mul d (NewFromInt n)) = units s d * n.
Proof.
  unfold units, Mul, NewFromInt; cbn [value exp].
  rewrite Z.add_0_r. ring.
Qed.

Lemma exp_Mul_int (d : Decimal) (n : Z) : exp (Mul d (NewFromInt n)) = exp d.
Proof. unfold Mul, NewFromInt; cbn [exp]. lia. Qed.

(** Side conditions on exponents, as the rewriting lemmas below ask for. *)
Ltac exp_side :=
  rewrite ?exp_Sub, ?exp_Add, ?exp_Mul_int;
  cbn [exp NewFromFloat_0_01 New Zero NewFromInt Int64Cents];
  lia.

Lemma Cmp_units (s : Z) (d1 d2 : Decimal) :
  0 <= exp d1 + s -> 0 <= exp d2 + s ->
  Cmp d1 d2 = (units s d1 ?= units s d2).
Proof.
  intros H1 H2. unfold Cmp.
  destruct (Z.eqb_spec (exp d1) (exp d2)) as [He|He].
  - unfold units. rewrite He.
    apply Zmult_compare_compat_r. pose proof (pow10_pos (exp d2 + s)); lia.
  - pose proof (RescalePair_spec d1 d2) as (E1 & E2 & U).
    destruct (U s) as [U1 U2]; [lia|].
    destruct (RescalePair d1 d2) as [r1 r2]; cbn [fst snd] in *.
    rewrite <- U1, <- U2. unfold units. rewrite E2, E1.
    apply Zmult_compare_compat_r.
    pose proof (pow10_pos (Z.min (exp d1) (exp d2) + s)); lia.
Qed.

Lemma LessThan_units (s : Z) (d1 d2 : Decimal) :
  0 <= exp d1 + s -> 0 <= exp d2 + s ->
  LessThan d1 d2 = (units s d1 <? units s d2).
Proof.
  intros. unfold LessThan, Z.ltb. rewrite (Cmp_units s) by assumption. reflexivity.
Qed.

Lemma LessThanOrEqual_units (s : Z) (d1 d2 : Decimal) :
  0 <= exp d1 + s -> 0 <= exp d2 + s ->
  LessThanOrEqual d1 d2 = (units s d1 <=? units s d2).
Proof.
  intros. unfold LessThanOrEqual, Z.leb. rewrite (Cmp_units s) by assumption.
  reflexivity.
Qed.

Lemma GreaterThan_units (s : Z) (d1 d2 : Decimal) :
  0 <= exp d1 + s -> 0 <= exp d2 + s ->
  GreaterThan d1 d2 = (units s d2 <? units s d1).
Proof.
  intros. unfold GreaterThan. rewrite (Cmp_units s) by assumption.
  rewrite Z.ltb_antisym. unfold Z.leb.
  destruct (units s d1 ?= units s d2); reflexivity.
Qed.

Lemma Cmp_refl (d : Decimal) : Cmp d d = Eq.
Proof. unfold Cmp. rewrite Z.eqb_refl. apply Z.compare_refl. Qed.

Lemma exp_DivRound (d d2 q : Decimal) (precision : Z) :
  DivRound d d2 precision = Some q -> exp q = - precision.
Proof.
  unfold DivRound, QuoRem.
  destruct (value d2 =? 0); [discriminate|].
  destruct (exp d - exp d2 - - precision <? 0);
    (destruct (Cmp _ _);
     [ destruct (_ <? 0); intros [= <-]; rewrite ?exp_Add, ?exp_Sub; cbn [exp New]; lia
     | intros [= <-]; reflexivity
     | destruct (_ <? 0); intros [= <-]; rewrite ?exp_Add, ?exp_Sub; cbn [exp New]; lia ]).
Qed.

Lemma exp_Div (d d2 q : Decimal) : Div d d2 = Some q -> exp q = -16.
Proof. apply exp_DivRound. Qed.

Lemma Div_defined (d d2 : Decimal) :
  value d2 <> 0 -> exists q, Div d d2 = Some q.
Proof.
  intros Hnz. unfold Div, DivRound, QuoRem.
  destruct (Z.eqb_spec (value d2) 0); [contradiction|].
  destruct (exp d - exp d2 - - DivisionPrecision <? 0);
    (destruct (Cmp _ _); [destruct (_ <? 0)| |destruct (_ <? 0)]; eexists; reflexivity).
Qed.

(** Cents divide by one hundred exactly. *)
Lemma Div_cents (c : Z) :
  Div (NewFromInt c) (NewFromInt 100) = Some (mkDecimal (c * 10 ^ 14) (-16)).
Proof.
  unfold Div, DivRound, QuoRem, NewFromInt; cbn [value exp].
  change (100 =? 0) with false.
  change (0 - 0 - - DivisionPrecision) with 16.
  change (- DivisionPrecision) with (-16).
  change (16 <? 0) with false. cbv iota beta.
  replace (c * 10 ^ 16) with (c * 10 ^ 14 * 100) by (cbn; lia).
  rewrite Z.quot_mul by lia.
  replace (Z.rem (c * 10 ^ 14 * 100) 100) with 0
    by (symmetry; apply Z.rem_mul; lia).
  reflexivity.
Qed.

Lemma wrap64_le (z : Z) : 0 <= z -> wrap64 z <= z.
Proof.
  intros Hz. unfold wrap64.
  pose proof (Z.mod_le (z + 2 ^ 63) (2 ^ 64)). lia.
Qed.

Lemma wrap64_small (z : Z) : - 2 ^ 63 <= z < 2 ^ 63 -> wrap64 z = z.
Proof.
  intros Hz. unfold wrap64. rewrite Z.mod_small; lia.
Qed.

(** Adding to a decimal of smaller exponent: the other one is scaled up. *)
Lemma Add_finer (d1 d2 : Decimal) :
  exp d2 < exp d1 ->
  Add d1 d2 = mkDecimal (value d1 * 10 ^ (exp d1 - exp d2) + value d2) (exp d2).
Proof.
  intros Hlt. unfold Add, RescalePair, rescale.
  destruct (Z.eqb_spec (exp d1) (exp d2)); [lia|].
  replace (Z.min (exp d1) (exp d2)) with (exp d2) by lia.
  destruct (Z.eqb_spec (exp d2) (exp d1)); [lia|]. cbn [negb].
  destruct (Z.eqb_spec (exp d1) (exp d2)); [lia|].
  destruct (Z.ltb_spec (exp d1) (exp d2)); [lia|].
  cbn [value exp].
  replace (Z.abs (exp d2 - exp d1)) with (exp d1 - exp d2) by lia.
  reflexivity.
Qed.

(** Rounding a non-negative decimal that has more places than asked for. *)
Lemma Round_nonneg (d : Decimal) (places : Z) :
  exp d < - places - 1 -> 0 <= value d ->
  Round d places
  = mkDecimal ((Z.quot (value d) (10 ^ (- places - 1 - exp d)) + 5) / 10) (- places).
Proof.
  intros He Hv. unfold Round, rescale.
  destruct (Z.eqb_spec (exp d) (- places)); [lia|].
  destruct (Z.eqb_spec (exp d) (- places - 1)); [lia|].
  destruct (Z.ltb_spec (exp d) (- places - 1)); [|lia].
  cbn [value exp].
  replace (Z.abs (- places - 1 - exp d)) with (- places - 1 - exp d) by lia.
  set (p := 10 ^ (- places - 1 - exp d)).
  assert (Hp : 0 < p) by (apply pow10_pos; lia).
  assert (Hq : 0 <= Z.quot (value d) p) by (apply Z.quot_pos; lia).
  destruct (Z.ltb_spec (Z.quot (value d) p) 0); [lia|].
  assert (Hd : 0 <= (Z.quot (value d) p + 5) / 10) by (apply Z.div_pos; lia).
  destruct (Z.ltb_spec ((Z.quot (value d) p + 5) / 10) 0); [lia|].
  cbn [andb]. f_equal. lia.
Qed.

(** The share drawn in the main branch is a whole number of cents. *)
Lemma Round_cents (c : Z) :
  0 <= c ->
  Round (Add NewFromFloat_0_01 (mkDecimal (c * 10 ^ 14) (-16))) 2
  = mkDecimal (1 + c) (-2).
Proof.
  intros Hc.
  rewrite Add_finer by exp_side.
  cbn [value exp NewFromFloat_0_01 New].
  change (10 ^ (-2 - -16)) with (10 ^ 14).
  rewrite Round_nonneg by (cbn [value exp]; lia).
  cbn [value exp].
  change (10 ^ (- (2) - 1 - -16)) with (10 ^ 13).
  replace (1 * 10 ^ 14 + c * 10 ^ 14) with ((1 + c) * 10 * 10 ^ 13)
    by (change (10 ^ 14) with (10 * 10 ^ 13); ring).
  rewrite Z.quot_mul by (pose proof (pow10_pos 13); lia).
  replace ((1 + c) * 10 + 5) with (5 + (1 + c) * 10) by ring.
  rewrite Z.div_add by lia.
  change (5 / 10) with 0. reflexivity.
Qed.

(** ** The random allocation *)

Lemma Int63n_range (raw n r : Z) :
  Int63n raw n = Some r -> 0 < n /\ 0 <= r < n.
Proof.
  unfold Int63n. destruct (Z.leb_spec n 0); [discriminate|].
  intros [= <-]. split; [assumption|]. apply Z.mod_pos_bound; assumption.
Qed.

Lemma units_cent (s : Z) (c : Z) :
  units s (mkDecimal c (-2)) = c * 10 ^ (s - 2).
Proof. unfold units; cbn [value exp]. f_equal. f_equal. lia. Qed.

(** Truncating to whole cents never gains anything. *)
Lemma IntPart_cents_le (s : Z) (diff : Decimal) :
  exp diff <= -2 -> 0 <= exp diff + s -> 0 <= value diff ->
  let t := value (rescale (Mul diff (NewFromInt 100)) 0) in
  0 <= t /\ t * 10 ^ (s - 2) <= units s diff.
Proof.
  intros He Hs Hv t. subst t.
  unfold rescale, Mul, NewFromInt; cbn [value exp].
  rewrite Z.add_0_r.
  destruct (Z.eqb_spec (exp diff) 0); [lia|].
  destruct (Z.ltb_spec (exp diff) 0); [|lia].
  cbn [value].
  replace (Z.abs (0 - exp diff)) with (- exp diff) by lia.
  set (p := 10 ^ (- exp diff)).
  assert (Hp : 0 < p) by (apply pow10_pos; lia).
  pose proof (Z.mul_quot_le (value diff * 100) p ltac:(lia) ltac:(lia)) as [Hq0 Hq1].
  set (t := Z.quot (value diff * 100) p) in *.
  split; [nia|].
  unfold units.
  set (m := 10 ^ (exp diff + s)).
  assert (Hm : 0 < m) by (apply pow10_pos; lia).
  assert (Hpm : p * m = 100 * 10 ^ (s - 2)).
  { unfold p, m. rewrite <- pow10_split by lia.
    replace (- exp diff + (exp diff + s)) with (2 + (s - 2)) by lia.
    rewrite pow10_split by lia. reflexivity. }
  assert (p * t * m <= value diff * 100 * m) by nia.
  nia.
Qed.

(** The shape of the main branch (enough money for a cent each): either the
    minimum is returned, or a draw in a range that leaves the others a cent. *)
Lemma calculateRandomAmount_main_shape (raw : Z) (remaining : Decimal) (count : Z) :
  2 <= count ->
  LessThan remaining (Mul NewFromFloat_0_01 (NewFromInt count)) = false ->
  let s := Z.max 16 (- exp remaining) in
  let m := 10 ^ (s - 2) in
  0 < m
  /\ m * count <= units s remaining
  /\ (calculateRandomAmount raw remaining count = Some NewFromFloat_0_01
      \/ exists t,
           0 <= t /\ 0 < wrap64 t /\ (t + count) * m <= units s remaining
           /\ calculateRandomAmount raw remaining count
              = match Int63n raw (wrap64 (wrap64 t + 1)) with
                | Some randCents => Some (mkDecimal (1 + randCents) (-2))
                | None => None
                end).
Proof.
  intros Hcount Hmain s m.
  unfold calculateRandomAmount.
  destruct (Z.eqb_spec count 1); [lia|].
  rewrite Hmain.
  destruct (Div_defined remaining (NewFromInt count)) as [avg Havg];
    [cbn [value NewFromInt]; lia|].
  rewrite Havg. apply exp_Div in Havg.
  set (maxPossible := Sub remaining (Mul NewFromFloat_0_01 (NewFromInt (count - 1)))).
  assert (EmaxP : exp maxPossible = Z.min (exp remaining) (-2))
    by (unfold maxPossible; rewrite exp_Sub, exp_Mul_int; reflexivity).
  assert (Hm : 0 < m) by (apply pow10_pos; lia).
  assert (Umin : units s NewFromFloat_0_01 = m)
    by (unfold NewFromFloat_0_01, New; rewrite units_cent; lia).
  assert (UmaxP : units s maxPossible = units s remaining - m * (count - 1)).
  { unfold maxPossible. rewrite units_Sub, units_Mul_int, Umin;
      rewrite ?exp_Mul_int; cbn [exp NewFromFloat_0_01 New]; lia. }
  rewrite (LessThan_units s) in Hmain
    by exp_side.
  rewrite units_Mul_int, Umin in Hmain. apply Z.ltb_ge in Hmain.
  split; [exact Hm|]. split; [exact Hmain|].
  set (maxAmount1 := if GreaterThan (Mul avg (NewFromInt 2)) maxPossible
                     then maxPossible else Mul avg (NewFromInt 2)).
  assert (Emax1 : 0 <= exp maxAmount1 + s).
  { unfold maxAmount1. destruct (GreaterThan _ _); rewrite ?exp_Mul_int; lia. }
  assert (Hmax1 : units s maxAmount1 <= units s maxPossible).
  { unfold maxAmount1.
    destruct (GreaterThan (Mul avg (NewFromInt 2)) maxPossible) eqn:Hgt; [lia|].
    rewrite (GreaterThan_units s) in Hgt by (rewrite ?exp_Mul_int; lia).
    apply Z.ltb_ge in Hgt. exact Hgt. }
  set (maxAmount2 := if LessThan maxAmount1 NewFromFloat_0_01
                     then NewFromFloat_0_01 else maxAmount1).
  assert (Emax2 : 0 <= exp maxAmount2 + s).
  { unfold maxAmount2. destruct (LessThan _ _); cbn [exp NewFromFloat_0_01 New]; lia. }
  assert (Hmax2 : units s maxAmount2 <= units s maxPossible).
  { unfold maxAmount2.
    destruct (LessThan maxAmount1 NewFromFloat_0_01) eqn:Hlt; lia. }
  set (diff := Sub maxAmount2 NewFromFloat_0_01).
  assert (Ediff : exp diff <= -2 /\ 0 <= exp diff + s)
    by (unfold diff; rewrite exp_Sub; cbn [exp NewFromFloat_0_01 New]; lia).
  assert (Udiff : units s diff = units s maxAmount2 - m)
    by (unfold diff; rewrite units_Sub, Umin; cbn [exp NewFromFloat_0_01 New]; lia).
  destruct (LessThanOrEqual diff Zero) eqn:Hpos; [left; reflexivity|].
  rewrite (LessThanOrEqual_units s) in Hpos by exp_side.
  apply Z.leb_gt in Hpos.
  assert (Hvd : 0 <= value diff).
  { unfold units in Hpos. cbn [value Zero New] in Hpos.
    pose proof (pow10_pos (exp diff + s) ltac:(lia)). nia. }
  destruct (IntPart_cents_le s diff ltac:(lia) ltac:(lia) Hvd) as [Ht0 Ht1].
  unfold IntPart.
  set (t := value (rescale (Mul diff (NewFromInt 100)) 0)) in *.
  destruct (Z.leb_spec (wrap64 t) 0) as [|Hcents]; [left; reflexivity|].
  right. exists t. fold m in Ht1.
  split; [exact Ht0|]. split; [exact Hcents|]. split; [nia|].
  destruct (Int63n raw (wrap64 (wrap64 t + 1))) as [randCents|] eqn:Hdraw;
    [|reflexivity].
  apply Int63n_range in Hdraw. destruct Hdraw as [Hn Hr].
  rewrite Div_cents. rewrite Round_cents by lia. reflexivity.
Qed.

(** What the main branch returns is a whole number [1 + c] of cents that
    leaves a cent for each of the other [count - 1] claimants. *)
Lemma calculateRandomAmount_main_cents (raw : Z) (remaining : Decimal) (count : Z)
    (share : Decimal) :
  2 <= count ->
  LessThan remaining (Mul NewFromFloat_0_01 (NewFromInt count)) = false ->
  calculateRandomAmount raw remaining count = Some share ->
  exists c,
    0 <= c /\ share = mkDecimal (1 + c) (-2)
    /\ (c + count) * 10 ^ (Z.max 16 (- exp remaining) - 2)
       <= units (Z.max 16 (- exp remaining)) remaining.
Proof.
  intros Hcount Hmain Hcalc.
  destruct (calculateRandomAmount_main_shape raw remaining count Hcount Hmain)
    as (Hm & Hfloor & Hshape).
  set (s := Z.max 16 (- exp remaining)) in *.
  set (m := 10 ^ (s - 2)) in *.
  destruct Hshape as [Hmin|(t & Ht0 & Hcents & Hle & Hrand)].
  - exists 0. split; [lia|]. split; [|lia].
    rewrite Hmin in Hcalc. unfold NewFromFloat_0_01, New in Hcalc.
    assert (share = mkDecimal 1 (-2)) by congruence. subst share. reflexivity.
  - rewrite Hrand in Hcalc.
    destruct (Int63n raw (wrap64 (wrap64 t + 1))) as [randCents|] eqn:Hdraw;
      [|discriminate].
    apply Int63n_range in Hdraw. destruct Hdraw as [Hn Hr].
    pose proof (wrap64_le t Ht0).
    pose proof (wrap64_le (wrap64 t + 1) ltac:(lia)).
    exists randCents. split; [lia|]. split; [congruence|]. nia.
Qed.

Lemma calculateRandomAmount_main_bounds (raw : Z) (remaining : Decimal) (count : Z)
    (share : Decimal) :
  2 <= count ->
  LessThan remaining (Mul NewFromFloat_0_01 (NewFromInt count)) = false ->
  calculateRandomAmount raw remaining count = Some share ->
  LessThanOrEqual NewFromFloat_0_01 share = true
  /\ LessThanOrEqual share
       (Sub remaining (Mul NewFromFloat_0_01 (NewFromInt (count - 1)))) = true
  /\ LessThan Zero share = true
  /\ LessThanOrEqual share remaining = true.
Proof.
  intros Hcount Hmain Hcalc.
  destruct (calculateRandomAmount_main_cents raw remaining count share
              Hcount Hmain Hcalc) as (c & Hc & -> & Hle).
  set (s := Z.max 16 (- exp remaining)) in *.
  set (m := 10 ^ (s - 2)) in *.
  assert (Hm : 0 < m) by (apply pow10_pos; lia).
  assert (Umin : units s NewFromFloat_0_01 = m)
    by (unfold NewFromFloat_0_01, New; rewrite units_cent; unfold m; lia).
  repeat split.
  - rewrite (LessThanOrEqual_units s) by exp_side.
    rewrite Umin, units_cent. apply Z.leb_le. fold m. nia.
  - rewrite (LessThanOrEqual_units s)
      by exp_side.
    rewrite units_cent, units_Sub, units_Mul_int, Umin
      by exp_side.
    apply Z.leb_le. fold m. nia.
  - rewrite (LessThan_units s) by exp_side.
    rewrite units_cent. unfold units; cbn [value Zero New].
    apply Z.ltb_lt. fold m. nia.
  - rewrite (LessThanOrEqual_units s) by (cbn [exp]; lia).
    rewrite units_cent. apply Z.leb_le. fold m. nia.
Qed.

(** The main branch returns a share whenever the remaining amount is below
    [2 ^ 63] cents, where the [int64] count of cents cannot wrap. *)
Lemma calculateRandomAmount_main_defined (raw : Z) (remaining : Decimal) (count : Z) :
  2 <= count ->
  LessThan remaining (Mul NewFromFloat_0_01 (NewFromInt count)) = false ->
  LessThan remaining Int64Cents = true ->
  exists share, calculateRandomAmount raw remaining count = Some share.
Proof.
  intros Hcount Hmain Hfit.
  destruct (calculateRandomAmount_main_shape raw remaining count Hcount Hmain)
    as (Hm & Hfloor & Hshape).
  set (s := Z.max 16 (- exp remaining)) in *.
  set (m := 10 ^ (s - 2)) in *.
  rewrite (LessThan_units s) in Hfit by (cbn [exp Int64Cents New]; lia).
  unfold Int64Cents, New in Hfit. rewrite units_cent in Hfit. fold m in Hfit.
  apply Z.ltb_lt in Hfit.
  destruct Hshape as [Hmin|(t & Ht0 & Hcents & Hle & Hrand)].
  - eexists; exact Hmin.
  - assert (Ht : t < 2 ^ 63 - 2) by nia.
    rewrite Hrand. rewrite (wrap64_small t) by lia.
    rewrite (wrap64_small (t + 1)) by lia.
    unfold Int63n. destruct (Z.leb_spec (t + 1) 0); [lia|]. eexists; reflexivity.
Qed.

(** Dividing a non-negative decimal of at most sixteen places by a positive
    integer: the truncated quotient of the scaled coefficient, or one more. *)
Lemma Div_by_int (d : Decimal) (n : Z) :
  -16 <= exp d -> 0 <= value d -> 0 < n ->
  exists q,
    Div d (NewFromInt n) = Some (mkDecimal q (-16))
    /\ Z.quot (value d * 10 ^ (exp d + 16)) n <= q
       <= Z.quot (value d * 10 ^ (exp d + 16)) n + 1.
Proof.
  intros He Hv Hn.
  unfold Div, DivRound, QuoRem, NewFromInt; cbn [value exp].
  destruct (Z.eqb_spec n 0); [lia|].
  change (- DivisionPrecision) with (-16).
  replace (exp d - 0 - -16) with (exp d + 16) by lia.
  destruct (Z.ltb_spec (exp d + 16) 0); [lia|].
  cbv iota beta.
  set (aa := value d * 10 ^ (exp d + 16)).
  destruct (Cmp _ _).
  - replace (Z.sgn (value d) * Z.sgn n <? 0) with false
      by (symmetry; apply Z.ltb_ge; nia).
    exists (Z.quot aa n + 1). split; [|lia].
    unfold Add, RescalePair, New; cbn [value exp]. reflexivity.
  - exists (Z.quot aa n). split; [reflexivity|lia].
  - replace (Z.sgn (value d) * Z.sgn n <? 0) with false
      by (symmetry; apply Z.ltb_ge; nia).
    exists (Z.quot aa n + 1). split; [|lia].
    unfold Add, RescalePair, New; cbn [value exp]. reflexivity.
Qed.

(** Rounding a sixteen-place decimal to cents. *)
Lemma Round_sixteen (q : Z) :
  0 <= q -> Round (mkDecimal q (-16)) 2 = mkDecimal ((Z.quot q (10 ^ 13) + 5) / 10) (-2).
Proof.
  intros Hq. rewrite Round_nonneg by (cbn [value exp]; lia).
  cbn [value exp]. reflexivity.
Qed.

(** The even-split fallback: the share is zero or one cent, and never more
    than an amount that is a whole number of cents. *)
Lemma calculateRandomAmount_fallback (raw : Z) (remaining : Decimal) (count : Z) :
  2 <= count ->
  0 <= value remaining ->
  LessThan remaining (Mul NewFromFloat_0_01 (NewFromInt count)) = true ->
  -2 <= exp remaining ->
  exists q share,
    Div remaining (NewFromInt count) = Some q
    /\ share = Round q 2
    /\ calculateRandomAmount raw remaining count = Some share
    /\ (share = mkDecimal 0 (-2) \/ share = mkDecimal 1 (-2))
    /\ LessThanOrEqual share remaining = true.
Proof.
  intros Hcount Hv Hfb He.
  assert (Hp : 0 < 10 ^ (exp remaining + 16)) by (apply pow10_pos; lia).
  pose proof Hfb as Hlt.
  rewrite (LessThan_units 16) in Hlt
    by exp_side.
  apply Z.ltb_lt in Hlt. rewrite units_Mul_int in Hlt.
  unfold NewFromFloat_0_01, New in Hlt. rewrite units_cent in Hlt.
  change (1 * 10 ^ (16 - 2)) with (10 ^ 14) in Hlt. unfold units in Hlt.
  destruct (Div_by_int remaining count ltac:(lia) ltac:(lia) ltac:(lia))
    as (q & Hdiv & Hq).
  set (aa := value remaining * 10 ^ (exp remaining + 16)) in *.
  assert (Haa : 0 <= aa) by (unfold aa; nia).
  assert (Hq0 : 0 <= Z.quot aa count) by (apply Z.quot_pos; lia).
  assert (Hq1 : Z.quot aa count < 10 ^ 14)
    by (apply Z.quot_lt_upper_bound; lia).
  exists (mkDecimal q (-16)), (Round (mkDecimal q (-16)) 2).
  split; [exact Hdiv|]. split; [reflexivity|].
  split.
  { unfold calculateRandomAmount. destruct (Z.eqb_spec count 1); [lia|].
    rewrite Hfb, Hdiv. reflexivity. }
  rewrite Round_sixteen by lia.
  assert (Hr : 0 <= Z.quot q (10 ^ 13) <= 10).
  { split; [apply Z.quot_pos; lia|].
    apply Z.quot_le_upper_bound; [lia|]. change (10 ^ 13 * 10) with (10 ^ 14). lia. }
  assert (Hs : (Z.quot q (10 ^ 13) + 5) / 10 = 0 \/ (Z.quot q (10 ^ 13) + 5) / 10 = 1).
  { assert (0 <= (Z.quot q (10 ^ 13) + 5) / 10 < 2); [|lia].
    split; [apply Z.div_pos; lia|apply Z.div_lt_upper_bound; lia]. }
  assert (Hu : 0 <= units 2 remaining).
  { unfold units. pose proof (pow10_pos (exp remaining + 2) ltac:(lia)). nia. }
  destruct Hs as [Hs|Hs]; rewrite Hs.
  - split; [left; reflexivity|].
    rewrite (LessThanOrEqual_units 2) by (cbn [exp]; lia).
    rewrite units_cent. apply Z.leb_le. lia.
  - split; [right; reflexivity|].
    rewrite (LessThanOrEqual_units 2) by (cbn [exp]; lia).
    rewrite units_cent. apply Z.leb_le. change (1 * 10 ^ (2 - 2)) with 1.
    assert (Hqpos : 0 < q).
    { destruct (Z.le_gt_cases q 0) as [Hle|Hgt]; [|exact Hgt].
      assert (q = 0) by lia. subst q. cbn in Hs. discriminate. }
    assert (Hvpos : 0 < value remaining).
    { destruct (Z.le_gt_cases (value remaining) 0) as [Hle|Hgt]; [|exact Hgt].
      assert (Hz : value remaining = 0) by lia.
      unfold aa in Hq. rewrite Hz in Hq. rewrite Z.mul_0_l in Hq.
      rewrite Z.quot_0_l in Hq by lia.
      assert (Hq01 : q = 1) by lia. subst q. cbn in Hs. discriminate. }
    unfold units. pose proof (pow10_pos (exp remaining + 2) ltac:(lia)). nia.
Qed.

(** C4 (as amended).  For a Random allocation with [count >= 2]: when the
    remaining amount covers a cent for everybody
    ([remaining >= 0.01 * count], below [2 ^ 63] cents), a share is returned
    and [0.01 <= share <= remaining - 0.01 * (count - 1)]; when the even-split
    fallback is taken ([remaining < 0.01 * count]) the share is
    [round (remaining / count, 2)] and the upper bound is itself below one
    cent, so no share can meet both bounds. *)
Theorem random_share_bounds (raw : Z) (remaining : Decimal) (count : Z) :
  2 <= count ->
  (LessThan remaining (Mul NewFromFloat_0_01 (NewFromInt count)) = false ->
   LessThan remaining Int64Cents = true ->
   exists share,
     calculateRandomAmount raw remaining count = Some share
     /\ LessThanOrEqual NewFromFloat_0_01 share = true
     /\ LessThanOrEqual share
          (Sub remaining (Mul NewFromFloat_0_01 (NewFromInt (count - 1)))) = true)
  /\ (LessThan remaining (Mul NewFromFloat_0_01 (NewFromInt count)) = true ->
      exists q,
        Div remaining (NewFromInt count) = Some q
        /\ calculateRandomAmount raw remaining count = Some (Round q 2)
        /\ LessThan (Sub remaining (Mul NewFromFloat_0_01 (NewFromInt (count - 1))))
                    NewFromFloat_0_01 = true).
Proof.
  intros Hcount. split.
  - intros Hmain Hfit.
    destruct (calculateRandomAmount_main_defined raw remaining count
                Hcount Hmain Hfit) as [share Hshare].
    exists share. split; [exact Hshare|].
    destruct (calculateRandomAmount_main_bounds raw remaining count share
                Hcount Hmain Hshare) as (H1 & H2 & _).
    split; assumption.
  - intros Hfb.
    destruct (Div_defined remaining (NewFromInt count)) as [q Hq];
      [cbn [value NewFromInt]; lia|].
    exists q. split; [exact Hq|]. split.
    + unfold calculateRandomAmount. destruct (Z.eqb_spec count 1); [lia|].
      rewrite Hfb, Hq. reflexivity.
    + set (s := Z.max 2 (- exp remaining)).
      rewrite (LessThan_units s) in Hfb
        by exp_side.
      rewrite (LessThan_units s)
        by exp_side.
      rewrite units_Sub
        by exp_side.
      rewrite !units_Mul_int in *.
      apply Z.ltb_lt in Hfb. apply Z.ltb_lt. lia.
Qed.

Lemma random_share_bounds_witness :
  exists share,
    calculateRandomAmount 12345 (New 1000 (-2)) 5 = Some share
    /\ LessThanOrEqual NewFromFloat_0_01 share = true
    /\ LessThanOrEqual share
         (Sub (New 1000 (-2)) (Mul NewFromFloat_0_01 (NewFromInt (5 - 1)))) = true.
Proof.
  apply (random_share_bounds 12345 (New 1000 (-2)) 5); [lia|reflexivity|reflexivity].
Defined.

(** C4 as stated fails in the fallback branch: with 0.02 left for three
    claimants the share is 0.01, above [0.02 - 0.01 * 2 = 0]. *)
Lemma random_share_fallback_counterexample :
  exists share,
    2 <= 3
    /\ calculateRandomAmount 0 (New 2 (-2)) 3 = Some share
    /\ ~ (LessThanOrEqual NewFromFloat_0_01 share = true
          /\ LessThanOrEqual share
               (Sub (New 2 (-2)) (Mul NewFromFloat_0_01 (NewFromInt (3 - 1)))) = true).
Proof.
  exists (New 1 (-2)). split; [lia|]. split; [reflexivity|].
  intros [_ H]. vm_compute in H. discriminate.
Qed.

Lemma LessThanOrEqual_refl (d : Decimal) : LessThanOrEqual d d = true.
Proof. unfold LessThanOrEqual. rewrite Cmp_refl. reflexivity. Qed.

(** A fixed share is positive as soon as the per-share quotient reaches a
    cent, which is what [Create] insists on. *)
Lemma fixed_share_positive (total : Decimal) (totalCount : Z) (perAmount : Decimal) :
  Div total (NewFromInt totalCount) = Some perAmount ->
  LessThan perAmount NewFromFloat_0_01 = false ->
  LessThanOrEqual NewFromFloat_0_01 (Round perAmount 2) = true.
Proof.
  intros Hdiv Hge. pose proof (exp_Div _ _ _ Hdiv) as He.
  destruct perAmount as [q e]. cbn [exp] in He. subst e.
  rewrite (LessThan_units 16) in Hge by exp_side.
  apply Z.ltb_ge in Hge. unfold NewFromFloat_0_01, New in Hge.
  rewrite units_cent in Hge. unfold units in Hge; cbn [value exp] in Hge.
  change (10 ^ (-16 + 16)) with 1 in Hge.
  change (1 * 10 ^ (16 - 2)) with (10 ^ 14) in Hge.
  rewrite Round_sixteen by lia.
  rewrite (LessThanOrEqual_units 2) by exp_side.
  unfold NewFromFloat_0_01, New. rewrite !units_cent.
  change (10 ^ (2 - 2)) with 1. apply Z.leb_le.
  assert (10 <= Z.quot q (10 ^ 13)).
  { apply Z.quot_le_lower_bound; [lia|]. change (10 ^ 13 * 10) with (10 ^ 14). lia. }
  assert (1 <= (Z.quot q (10 ^ 13) + 5) / 10)
    by (apply Z.div_le_lower_bound; lia).
  lia.
Qed.

Lemma cent_positive (d : Decimal) :
  LessThanOrEqual NewFromFloat_0_01 d = true -> LessThan Zero d = true.
Proof.
  intros H.
  set (s := Z.max 2 (- exp d)).
  rewrite (LessThanOrEqual_units s) in H by exp_side.
  rewrite (LessThan_units s) by exp_side.
  apply Z.leb_le in H. apply Z.ltb_lt.
  unfold NewFromFloat_0_01, New in H. rewrite units_cent in H.
  unfold Zero, New. unfold units at 1; cbn [value].
  pose proof (pow10_pos (s - 2) ltac:(lia)). lia.
Qed.

(** C2 (as amended).  With [remaining > 0] and [count >= 1]:
    - Random, last claimant: the share is [remaining];
    - Random, [remaining >= 0.01 * count] (below [2 ^ 63] cents): a share is
      returned and [0 < share <= remaining];
    - Random, even-split fallback on a whole number of cents: the share is
      [0] or [0.01] and at most [remaining] - it may be zero;
    - Fixed, last claimant: the share is [remaining];
    - Fixed, earlier claimants: the share is
      [round (totalAmount / totalCount, 2)], positive whenever the quotient
      is at least a cent. *)
Theorem allocation_share_bounds (raw : Z) (remaining : Decimal) (count : Z) :
  LessThan Zero remaining = true ->
  1 <= count ->
  (count = 1 -> calculateRandomAmount raw remaining count = Some remaining)
  /\ (2 <= count ->
      LessThan remaining (Mul NewFromFloat_0_01 (NewFromInt count)) = false ->
      LessThan remaining Int64Cents = true ->
      exists share,
        calculateRandomAmount raw remaining count = Some share
        /\ LessThan Zero share = true
        /\ LessThanOrEqual share remaining = true)
  /\ (2 <= count ->
      LessThan remaining (Mul NewFromFloat_0_01 (NewFromInt count)) = true ->
      -2 <= Exponent remaining ->
      exists share,
        calculateRandomAmount raw remaining count = Some share
        /\ (share = New 0 (-2) \/ share = New 1 (-2))
        /\ LessThanOrEqual share remaining = true)
  /\ (forall redEnvelope,
        RedEnvelope.Type_ redEnvelope = RedEnvelopeTypeFixed ->
        RedEnvelope.RemainingAmount redEnvelope = remaining ->
        RedEnvelope.RemainingCount redEnvelope = count ->
        (count = 1 ->
         claimedAmountOf raw redEnvelope = Some remaining
         /\ LessThanOrEqual remaining remaining = true)
        /\ (count <> 1 ->
            forall perAmount,
              Div (RedEnvelope.TotalAmount redEnvelope)
                  (NewFromInt (RedEnvelope.TotalCount redEnvelope)) = Some perAmount ->
              LessThan perAmount NewFromFloat_0_01 = false ->
              claimedAmountOf raw redEnvelope = Some (Round perAmount 2)
              /\ LessThan Zero (Round perAmount 2) = true)).
Proof.
  intros Hpos Hcount.
  split; [intros ->; reflexivity|].
  split.
  { intros Hc Hmain Hfit.
    destruct (calculateRandomAmount_main_defined raw remaining count Hc Hmain Hfit)
      as [share Hshare].
    exists share. split; [exact Hshare|].
    destruct (calculateRandomAmount_main_bounds raw remaining count share
                Hc Hmain Hshare) as (_ & _ & H3 & H4).
    split; assumption. }
  split.
  { intros Hc Hfb He.
    assert (Hv : 0 <= value remaining).
    { assert (0 < value remaining); [|lia].
      set (s := Z.max 0 (- exp remaining)).
      rewrite (LessThan_units s) in Hpos by exp_side.
      apply Z.ltb_lt in Hpos. unfold units in Hpos. cbn [value Zero New] in Hpos.
      pose proof (pow10_pos (exp remaining + s) ltac:(lia)). nia. }
    destruct (calculateRandomAmount_fallback raw remaining count Hc Hv Hfb He)
      as (q & share & _ & _ & Hcalc & Hval & Hle).
    exists share. split; [exact Hcalc|]. split; [exact Hval|exact Hle]. }
  intros redEnvelope Htype Hrem Hcnt. unfold claimedAmountOf. rewrite Htype, Hcnt.
  split.
  - intros ->. rewrite Hrem. split; [reflexivity|apply LessThanOrEqual_refl].
  - intros Hne perAmount Hdiv Hge.
    destruct (Z.eqb_spec count 1); [contradiction|]. rewrite Hdiv.
    split; [reflexivity|].
    apply cent_positive. eapply fixed_share_positive; eassumption.
Qed.

Lemma allocation_share_bounds_witness :
  exists share,
    calculateRandomAmount 7 (New 1000 (-2)) 5 = Some share
    /\ LessThan Zero share = true
    /\ LessThanOrEqual share (New 1000 (-2)) = true.
Proof.
  apply (allocation_share_bounds 7 (New 1000 (-2)) 5);
    [reflexivity|lia|lia|reflexivity|reflexivity].
Defined.

(** C2 as stated fails: one cent left for five claimants gives a share of
    zero. *)
Lemma allocation_zero_share_counterexample :
  LessThan Zero (New 1 (-2)) = true
  /\ 1 <= 5
  /\ calculateRandomAmount 0 (New 1 (-2)) 5 = Some (New 0 (-2))
  /\ LessThan Zero (New 0 (-2)) = false.
Proof. repeat split; try reflexivity. lia. Qed.

(** The same division, with the rounding decision spelled out: the quotient
    goes up by one unit when twice the remainder reaches the divisor. *)
Lemma Div_by_int_exact (d : Decimal) (n : Z) :
  -16 <= exp d -> 0 <= value d -> 0 < n ->
  Div d (NewFromInt n)
  = Some (mkDecimal
            (Z.quot (value d * 10 ^ (exp d + 16)) n
             + (if 2 * Z.rem (value d * 10 ^ (exp d + 16)) n <? n then 0 else 1))
            (-16)).
Proof.
  intros He Hv Hn.
  unfold Div, DivRound, QuoRem, NewFromInt; cbn [value exp].
  destruct (Z.eqb_spec n 0); [lia|].
  change (- DivisionPrecision) with (-16).
  replace (exp d - 0 - -16) with (exp d + 16) by lia.
  destruct (Z.ltb_spec (exp d + 16) 0); [lia|].
  cbv iota beta.
  set (aa := value d * 10 ^ (exp d + 16)).
  assert (Haa : 0 <= aa).
  { unfold aa. pose proof (pow10_pos (exp d + 16) ltac:(lia)). nia. }
  assert (Hrem : 0 <= Z.rem aa n < n) by (apply Z.rem_bound_pos; lia).
  unfold Cmp, Abs; cbn [value exp].
  change (-16 + 0 + DivisionPrecision =? 0) with true. cbv iota.
  rewrite Z.shiftl_mul_pow2 by lia. change (2 ^ 1) with 2.
  rewrite (Z.abs_eq (Z.rem aa n)) by lia. rewrite (Z.abs_eq n) by lia.
  replace (Z.sgn (value d) * Z.sgn n <? 0) with false
    by (symmetry; apply Z.ltb_ge; nia).
  destruct (Z.ltb_spec (2 * Z.rem aa n) n) as [Hlt|Hge].
  - replace (Z.rem aa n * 2 ?= n) with Lt by (symmetry; apply Z.compare_lt_iff; lia).
    rewrite Z.add_0_r. reflexivity.
  - unfold Add, RescalePair, New; cbn [value exp].
    destruct (Z.rem aa n * 2 ?= n) eqn:Hc.
    + reflexivity.
    + rewrite Z.compare_lt_iff in Hc. lia.
    + reflexivity.
Qed.

(** For every count below [2 * 10 ^ 14] the sixteen-place quotient is under a
    cent exactly when the amount holds fewer cents than there are shares,
    that is when the exact quotient is under a cent. *)
Lemma per_share_check_exact (total : Decimal) (count : Z) :
  -2 <= exp total -> 0 <= value total -> 1 <= count < 2 * 10 ^ 14 ->
  exists perAmount,
    Div total (NewFromInt count) = Some perAmount
    /\ (LessThan perAmount NewFromFloat_0_01 = true <-> units 2 total < count).
Proof.
  intros He Hv Hcount.
  rewrite (Div_by_int_exact total count) by lia.
  eexists. split; [reflexivity|].
  rewrite (LessThan_units 16) by exp_side.
  unfold NewFromFloat_0_01, New. rewrite units_cent.
  change (1 * 10 ^ (16 - 2)) with (10 ^ 14).
  unfold units at 1; cbn [value exp]. change (10 ^ (-16 + 16)) with 1.
  rewrite Z.mul_1_r. rewrite Z.ltb_lt.
  set (k := units 2 total).
  assert (Hk : value total * 10 ^ (exp total + 16) = k * 10 ^ 14).
  { unfold k, units. replace (exp total + 16) with ((exp total + 2) + 14) by lia.
    rewrite pow10_split by lia. ring. }
  rewrite Hk.
  assert (Hk0 : 0 <= k).
  { unfold k, units. pose proof (pow10_pos (exp total + 2) ltac:(lia)). nia. }
  assert (Hp : 0 < 10 ^ 14) by (apply pow10_pos; lia).
  pose proof (Z.quot_rem' (k * 10 ^ 14) count) as Hqr.
  assert (Hrem : 0 <= Z.rem (k * 10 ^ 14) count < count)
    by (apply Z.rem_bound_pos; nia).
  set (q0 := Z.quot (k * 10 ^ 14) count) in *.
  set (r := Z.rem (k * 10 ^ 14) count) in *.
  assert (Hq0 : 0 <= q0) by (apply Z.quot_pos; nia).
  destruct (Z.ltb_spec (2 * r) count) as [Hlt|Hge]; split; intros H; nia.
Qed.

(** ** Create *)

(** A request that binds has at least one share. *)
Lemma bound_count (req : CreateRequest.t) :
  ShouldBindJSON_Create req = true -> 1 <= CreateRequest.TotalCount req.
Proof.
  unfold ShouldBindJSON_Create. intros Hbind.
  apply andb_prop in Hbind. destruct Hbind as [Hbind _].
  apply andb_prop in Hbind. destruct Hbind as [Hbind _].
  apply andb_prop in Hbind. destruct Hbind as [Hbind _].
  apply andb_prop in Hbind. destruct Hbind as [Hbind _].
  apply Z.leb_le in Hbind. exact Hbind.
Qed.

Lemma positive_value (d : Decimal) :
  LessThanOrEqual d Zero = false -> 0 < value d.
Proof.
  intros H. set (s := Z.max 0 (- exp d)).
  rewrite (LessThanOrEqual_units s) in H by exp_side.
  apply Z.leb_gt in H. unfold units in H. cbn [value Zero New] in H.
  pose proof (pow10_pos (exp d + s) ltac:(lia)). nia.
Qed.

(** An amount whose exponent is -2 or more is a whole number of cents. *)
Lemma whole_cents (d : Decimal) :
  -2 <= Exponent d -> Equal d (New (value d * 10 ^ (exp d + 2)) (-2)) = true.
Proof.
  unfold Exponent. intros He. unfold Equal.
  rewrite (Cmp_units 2) by (cbn [exp New]; lia).
  unfold New. rewrite units_cent. change (10 ^ (2 - 2)) with 1.
  unfold units. rewrite Z.mul_1_r, Z.compare_refl. reflexivity.
Qed.

(** X21.  [Create] answers each invalid request with its own condition and
    leaves the store as it was, transaction counter included: feature
    disabled; [totalAmount <= 0]; more than two decimal places (an exponent
    below -2, which every amount that is not a whole number of cents has);
    Fixed type with a decimal quotient [totalAmount / totalCount] (to sixteen
    places) below 0.01, as for 0.02 over 3, which for counts below
    [2 * 10 ^ 14] is the same as fewer cents than shares; pay key not
    verified.  The five conditions are pairwise distinct.  The request is one
    the binding accepts: a count that fits an [int] and is at least 1, a
    greeting of at most 100 runes, a pay key of 1 to 10 runes. *)
Theorem create_rejections (ctx : Context) (req : CreateRequest.t) (code : string)
    (st : Store) :
  (IsRedEnvelopeEnabled ctx = false ->
   Create ctx req code st = (st, Err FeatureDisabled))
  /\ (IsRedEnvelopeEnabled ctx = true -> ShouldBindJSON_Create req = true ->
      (LessThanOrEqual (CreateRequest.TotalAmount req) Zero = true ->
       Create ctx req code st = (st, Err InvalidRedEnvelopeAmount))
      /\ (LessThanOrEqual (CreateRequest.TotalAmount req) Zero = false ->
          (Exponent (CreateRequest.TotalAmount req) < -2
           \/ forall cents, Equal (CreateRequest.TotalAmount req) (New cents (-2)) = false) ->
          Create ctx req code st = (st, Err AmountDecimalPlacesExceeded))
      /\ (LessThanOrEqual (CreateRequest.TotalAmount req) Zero = false ->
          -2 <= Exponent (CreateRequest.TotalAmount req) ->
          CreateRequest.Type_ req = RedEnvelopeTypeFixed ->
          exists perAmount,
            Div (CreateRequest.TotalAmount req)
                (NewFromInt (CreateRequest.TotalCount req)) = Some perAmount
            /\ (LessThan perAmount NewFromFloat_0_01 = true ->
                Create ctx req code st = (st, Err AmountTooSmall))
            /\ (LessThan perAmount NewFromFloat_0_01 = false ->
                VerifyPayKey ctx (CreateRequest.PayKey req) = false ->
                Create ctx req code st = (st, Err PayKeyIncorrect)))
      /\ (LessThanOrEqual (CreateRequest.TotalAmount req) Zero = false ->
          -2 <= Exponent (CreateRequest.TotalAmount req) ->
          CreateRequest.Type_ req = RedEnvelopeTypeFixed ->
          CreateRequest.TotalCount req < 2 * 10 ^ 14 ->
          units 2 (CreateRequest.TotalAmount req) < CreateRequest.TotalCount req ->
          Create ctx req code st = (st, Err AmountTooSmall))
      /\ (LessThanOrEqual (CreateRequest.TotalAmount req) Zero = false ->
          -2 <= Exponent (CreateRequest.TotalAmount req) ->
          CreateRequest.Type_ req = RedEnvelopeTypeRandom ->
          VerifyPayKey ctx (CreateRequest.PayKey req) = false ->
          Create ctx req code st = (st, Err PayKeyIncorrect))
      /\ (CreateRequest.Type_ req = RedEnvelopeTypeFixed ->
          CreateRequest.TotalAmount req = New 2 (-2) ->
          CreateRequest.TotalCount req = 3 ->
          Create ctx req code st = (st, Err AmountTooSmall)))
  /\ NoDup [FeatureDisabled; InvalidRedEnvelopeAmount; AmountDecimalPlacesExceeded;
            AmountTooSmall; PayKeyIncorrect].
Proof.
  split; [|split].
  - intros Hoff. unfold Create. rewrite Hoff. reflexivity.
  - intros Hon Hbind. unfold Create. rewrite Hon, Hbind. cbn [negb].
    split; [intros ->; reflexivity|].
    split.
    { intros -> Hplaces.
      assert (He : Exponent (CreateRequest.TotalAmount req) < -2).
      { destruct Hplaces as [He|Hno]; [exact He|].
        destruct (Z.lt_ge_cases (Exponent (CreateRequest.TotalAmount req)) (-2))
          as [He|He]; [exact He|].
        pose proof (whole_cents _ He) as Heq. rewrite Hno in Heq. discriminate. }
      apply Z.ltb_lt in He. rewrite He. reflexivity. }
    split.
    { intros -> He -> .
      destruct (Z.ltb_spec (Exponent (CreateRequest.TotalAmount req)) (-2)); [lia|].
      destruct (Div_defined (CreateRequest.TotalAmount req)
                  (NewFromInt (CreateRequest.TotalCount req))) as [perAmount Hdiv].
      { cbn [value NewFromInt]. pose proof (bound_count req Hbind). lia. }
      exists perAmount. rewrite Hdiv. split; [reflexivity|].
      split; [intros ->; reflexivity|].
      intros -> ->. reflexivity. }
    split.
    { intros Hpos He Htype Hmax Hcents. rewrite Hpos, Htype.
      destruct (Z.ltb_spec (Exponent (CreateRequest.TotalAmount req)) (-2)); [lia|].
      pose proof (bound_count req Hbind) as Hcount.
      pose proof (positive_value _ Hpos) as Hv.
      destruct (per_share_check_exact (CreateRequest.TotalAmount req)
                  (CreateRequest.TotalCount req) He ltac:(lia) ltac:(lia))
        as (perAmount & Hdiv & Hiff).
      rewrite Hdiv, (proj2 Hiff Hcents). reflexivity. }
    split.
    { intros -> He -> ->.
      destruct (Z.ltb_spec (Exponent (CreateRequest.TotalAmount req)) (-2)); [lia|].
      reflexivity. }
    intros -> -> ->. reflexivity.
  - repeat constructor; cbn; intuition discriminate.
Qed.

Lemma create_rejections_witness :
  RuneCountInString sampleGreeting = 34
  /\ len sampleGreeting = 102
  /\ Create (mkContext true 1 (fun _ => true) 0)
            (CreateRequest.mk RedEnvelopeTypeRandom (New 12345 (-3)) 2 sampleGreeting
                              "123456") "c"
            (mkStore [] [] [User.mk 1 (New 10000 (-2))] [] 0)
     = (mkStore [] [] [User.mk 1 (New 10000 (-2))] [] 0,
        Err AmountDecimalPlacesExceeded).
Proof.
  split; [vm_compute; reflexivity|]. split; [vm_compute; reflexivity|].
  apply (create_rejections (mkContext true 1 (fun _ => true) 0)
           (CreateRequest.mk RedEnvelopeTypeRandom (New 12345 (-3)) 2 sampleGreeting
                             "123456") "c"
           (mkStore [] [] [User.mk 1 (New 10000 (-2))] [] 0));
    [reflexivity|vm_compute; reflexivity|vm_compute; reflexivity|].
  left. vm_compute. reflexivity.
Defined.

(** C8.  Where [Create] lets a share below a cent through.  For a Fixed
    envelope of 1999999999999.99 over [2 * 10 ^ 14] shares the request binds
    and the amount is below 0.01 a share, but the quotient, which the decimal
    library rounds to sixteen places, is 0.0100000000000000: the per-share
    check passes, the pay key is verified and the transaction is opened.  A
    caller who cannot pay is answered "insufficient balance" by the
    transaction, not "amount too small" before it; a caller who can pay gets
    the envelope. *)
Theorem create_lets_a_share_below_a_cent_through :
  let req := CreateRequest.mk RedEnvelopeTypeFixed (New 199999999999999 (-2))
                              200000000000000 "" "123456" in
  let ctx := mkContext true 1 (fun _ => true) 0 in
  let poor := mkStore [] [] [User.mk 1 (New 10000 (-2))] [] 0 in
  let rich := mkStore [] [] [User.mk 1 (New 200000000000000 (-2))] [] 0 in
  ShouldBindJSON_Create req = true
  /\ LessThan (CreateRequest.TotalAmount req)
              (Mul NewFromFloat_0_01 (NewFromInt (CreateRequest.TotalCount req))) = true
  /\ Div (CreateRequest.TotalAmount req) (NewFromInt (CreateRequest.TotalCount req))
     = Some (New 100000000000000 (-16))
  /\ LessThan (New 100000000000000 (-16)) NewFromFloat_0_01 = false
  /\ Create ctx req "c" poor = (begin poor, Err InsufficientBalance)
  /\ transactions (fst (Create ctx req "c" poor)) = 1%nat
  /\ snd (Create ctx req "c" rich) = OK (mkCreateResponse 1 "c")
  /\ map (fun e => (RedEnvelope.TotalAmount e, RedEnvelope.TotalCount e,
                    RedEnvelope.Status e))
         (red_envelopes (fst (Create ctx req "c" rich)))
     = [(New 199999999999999 (-2), 200000000000000, RedEnvelopeStatusActive)].
Proof. vm_compute. repeat split; reflexivity. Qed.

(** ** Claim *)

Lemma status_eqb_eq (a b : RedEnvelopeStatus) : status_eqb a b = true <-> a = b.
Proof. destruct a, b; cbn; split; congruence. Qed.

Lemma status_eqb_neq (a b : RedEnvelopeStatus) : status_eqb a b = false <-> a <> b.
Proof. destruct a, b; cbn; split; congruence. Qed.

Lemma hasClaim_true (envelopeID userID : Z) (rows : list RedEnvelopeClaim.t) :
  hasClaim envelopeID userID rows = true
  <-> exists c, In c rows /\ RedEnvelopeClaim.RedEnvelopeID c = envelopeID
                /\ RedEnvelopeClaim.UserID c = userID.
Proof.
  unfold hasClaim, First. split.
  - destruct (find _ rows) as [c|] eqn:Hf; [|discriminate]. intros _.
    apply find_some in Hf. destruct Hf as [Hin Hc].
    apply andb_prop in Hc. destruct Hc as [H1 H2].
    exists c. split; [exact Hin|]. split; apply Z.eqb_eq; assumption.
  - intros (c & Hin & H1 & H2).
    destruct (find _ rows) as [c'|] eqn:Hf; [reflexivity|].
    pose proof (find_none _ _ Hf c Hin) as Hc. cbv beta in Hc.
    rewrite H1, H2, !Z.eqb_refl in Hc. discriminate.
Qed.

Lemma lockedEnvelope_none (code : string) (st : Store) :
  lockedEnvelope code st = None
  <-> forall e, In e (red_envelopes st) -> RedEnvelope.Code e <> code.
Proof.
  unfold lockedEnvelope, First. split.
  - intros Hf e Hin Heq. pose proof (find_none _ _ Hf e Hin) as Hc.
    cbv beta in Hc. rewrite Heq, String.eqb_refl in Hc. discriminate.
  - intros Hall. destruct (find _ (red_envelopes st)) as [e|] eqn:Hf; [|reflexivity].
    apply find_some in Hf. destruct Hf as [Hin Hc].
    apply String.eqb_eq in Hc. destruct (Hall e Hin Hc).
Qed.

(** A request that gets past the feature switch and the binding runs the
    transaction. *)
Lemma Claim_transaction (ctx : Context) (req : ClaimRequest) (raw : Z) (st : Store) :
  IsRedEnvelopeEnabled ctx = true -> ShouldBindJSON_Claim req = true ->
  Claim ctx req raw st = Transaction (claimTx ctx req raw) st.
Proof. intros Hon Hbind. unfold Claim. rewrite Hon, Hbind. reflexivity. Qed.

(** What the writes of a claim amount to. *)
Lemma Transaction_claimWrites (ctx : Context) (raw : Z) (redEnvelope : RedEnvelope.t)
    (st : Store) :
  match claimedAmountOf raw redEnvelope with
  | None => Transaction (claimWrites ctx raw redEnvelope) st = (begin st, Err RuntimePanic)
  | Some claimedAmount =>
      exists st',
        Transaction (claimWrites ctx raw redEnvelope) st
        = (st', OK (mkClaimResponse claimedAmount (afterClaim claimedAmount redEnvelope)))
        /\ red_envelope_claims st'
           = red_envelope_claims st
             ++ [RedEnvelopeClaim.mk (RedEnvelope.ID redEnvelope) (currentUser ctx)
                                     claimedAmount]
        /\ red_envelopes st'
           = Updates (fun e => RedEnvelope.ID e =? RedEnvelope.ID redEnvelope)
                     (set_remaining (RedEnvelope.RemainingCount redEnvelope - 1)
                        (Sub (RedEnvelope.RemainingAmount redEnvelope) claimedAmount)
                        (if RedEnvelope.RemainingCount redEnvelope - 1 <=? 0
                         then RedEnvelopeStatusFinished
                         else RedEnvelope.Status redEnvelope))
                     (red_envelopes st)
        /\ users st' = users (add_balance (currentUser ctx) claimedAmount st)
        /\ orders st'
           = orders st
             ++ [Order.mk (RedEnvelope.CreatorID redEnvelope) (currentUser ctx)
                          claimedAmount OrderTypeRedEnvelopeReceive (Now ctx)]
  end.
Proof.
  unfold Transaction, claimWrites.
  destruct (claimedAmountOf raw redEnvelope) as [claimedAmount|]; [|reflexivity].
  eexists. split; [reflexivity|]. cbn. repeat split; reflexivity.
Qed.

(** The order of the checks inside the transaction. *)
Lemma claimTx_cases (ctx : Context) (req : ClaimRequest) (raw : Z) (tx : Store) :
  match lockedEnvelope (ClaimRequest_Code req) tx with
  | None => claimTx ctx req raw tx = (tx, Err RedEnvelopeNotFound)
  | Some redEnvelope =>
      ((RedEnvelope.Status redEnvelope = RedEnvelopeStatusExpired
        \/ RedEnvelope.ExpiresAt redEnvelope < Now ctx) ->
       claimTx ctx req raw tx = (tx, Err RedEnvelopeExpired))
      /\ (RedEnvelope.Status redEnvelope <> RedEnvelopeStatusExpired ->
          Now ctx <= RedEnvelope.ExpiresAt redEnvelope ->
          (RedEnvelope.Status redEnvelope = RedEnvelopeStatusFinished
           \/ RedEnvelope.RemainingCount redEnvelope <= 0) ->
          claimTx ctx req raw tx = (tx, Err RedEnvelopeFinished))
      /\ (RedEnvelope.Status redEnvelope = RedEnvelopeStatusActive ->
          Now ctx <= RedEnvelope.ExpiresAt redEnvelope ->
          0 < RedEnvelope.RemainingCount redEnvelope ->
          (hasClaim (RedEnvelope.ID redEnvelope) (currentUser ctx)
                    (red_envelope_claims tx) = true ->
           claimTx ctx req raw tx = (tx, Err RedEnvelopeAlreadyClaimed))
          /\ (hasClaim (RedEnvelope.ID redEnvelope) (currentUser ctx)
                       (red_envelope_claims tx) = false ->
              claimTx ctx req raw tx = claimWrites ctx raw redEnvelope tx))
  end.
Proof.
  unfold claimTx, lockedEnvelope.
  destruct (First _ (red_envelopes tx)) as [redEnvelope|]; [|reflexivity].
  split; [|split].
  - intros [Hs|Ht].
    + apply status_eqb_eq in Hs. rewrite Hs. reflexivity.
    + apply Z.ltb_lt in Ht. rewrite Ht, orb_true_r. reflexivity.
  - intros Hs Ht Hfin. apply status_eqb_neq in Hs. rewrite Hs.
    destruct (Z.ltb_spec (RedEnvelope.ExpiresAt redEnvelope) (Now ctx)); [lia|].
    cbn [orb]. destruct Hfin as [Hf|Hc].
    + apply status_eqb_eq in Hf. rewrite Hf. reflexivity.
    + apply Z.leb_le in Hc. rewrite Hc, orb_true_r. reflexivity.
  - intros Hs Ht Hc. rewrite Hs. cbn [status_eqb orb].
    destruct (Z.ltb_spec (RedEnvelope.ExpiresAt redEnvelope) (Now ctx)); [lia|].
    destruct (Z.leb_spec (RedEnvelope.RemainingCount redEnvelope) 0); [lia|].
    split; intros ->; reflexivity.
Qed.

Lemma begin_tables (st : Store) :
  red_envelopes (begin st) = red_envelopes st
  /\ red_envelope_claims (begin st) = red_envelope_claims st
  /\ users (begin st) = users st
  /\ orders (begin st) = orders st.
Proof. repeat split. Qed.

Lemma lockedEnvelope_begin (code : string) (st : Store) :
  lockedEnvelope code (begin st) = lockedEnvelope code st.
Proof. reflexivity. Qed.

(** A claim that passes the checks performs the writes. *)
Lemma Claim_proceeds (ctx : Context) (req : ClaimRequest) (raw : Z) (st : Store)
    (redEnvelope : RedEnvelope.t) :
  IsRedEnvelopeEnabled ctx = true -> ShouldBindJSON_Claim req = true ->
  lockedEnvelope (ClaimRequest_Code req) st = Some redEnvelope ->
  passesChecks ctx redEnvelope st ->
  Claim ctx req raw st = Transaction (claimWrites ctx raw redEnvelope) st.
Proof.
  intros Hon Hbind Hlock (Hs & Ht & Hc & Hno).
  rewrite Claim_transaction by assumption.
  unfold Transaction.
  pose proof (claimTx_cases ctx req raw (begin st)) as Hcases.
  rewrite lockedEnvelope_begin, Hlock in Hcases.
  destruct Hcases as (_ & _ & Hok).
  destruct (Hok Hs Ht Hc) as [_ Hgo]. rewrite (Hgo Hno). reflexivity.
Qed.

(** C6 (as amended).  Once the envelope row is locked, [Claim] rejects in
    this order, each time with its own condition and with the tables as they
    were (only the count of opened transactions moves): "not found" when no
    envelope has the code; "expired" when the status is Expired or
    [expiresAt < now] - at [expiresAt = now] the envelope can still be
    claimed; "finished" when the status is Finished or no share is left;
    "already claimed" when a claim row exists for the envelope and the
    caller; otherwise the claim proceeds to the allocation and the writes. *)
Theorem claim_rejection_order (ctx : Context) (req : ClaimRequest) (raw : Z)
    (st : Store) :
  IsRedEnvelopeEnabled ctx = true -> ShouldBindJSON_Claim req = true ->
  ((forall e, In e (red_envelopes st) -> RedEnvelope.Code e <> ClaimRequest_Code req) ->
   Claim ctx req raw st = (begin st, Err RedEnvelopeNotFound))
  /\ (forall redEnvelope,
        lockedEnvelope (ClaimRequest_Code req) st = Some redEnvelope ->
        ((RedEnvelope.Status redEnvelope = RedEnvelopeStatusExpired
          \/ RedEnvelope.ExpiresAt redEnvelope < Now ctx) ->
         Claim ctx req raw st = (begin st, Err RedEnvelopeExpired))
        /\ (RedEnvelope.Status redEnvelope <> RedEnvelopeStatusExpired ->
            Now ctx <= RedEnvelope.ExpiresAt redEnvelope ->
            (RedEnvelope.Status redEnvelope = RedEnvelopeStatusFinished
             \/ RedEnvelope.RemainingCount redEnvelope <= 0) ->
            Claim ctx req raw st = (begin st, Err RedEnvelopeFinished))
        /\ (RedEnvelope.Status redEnvelope = RedEnvelopeStatusActive ->
            Now ctx <= RedEnvelope.ExpiresAt redEnvelope ->
            0 < RedEnvelope.RemainingCount redEnvelope ->
            ((exists c, In c (red_envelope_claims st)
                        /\ RedEnvelopeClaim.RedEnvelopeID c = RedEnvelope.ID redEnvelope
                        /\ RedEnvelopeClaim.UserID c = currentUser ctx) ->
             Claim ctx req raw st = (begin st, Err RedEnvelopeAlreadyClaimed))
            /\ ((forall c, In c (red_envelope_claims st) ->
                           RedEnvelopeClaim.RedEnvelopeID c = RedEnvelope.ID redEnvelope ->
                           RedEnvelopeClaim.UserID c <> currentUser ctx) ->
                snd (Claim ctx req raw st)
                = match claimedAmountOf raw redEnvelope with
                  | Some claimedAmount =>
                      OK (mkClaimResponse claimedAmount
                                          (afterClaim claimedAmount redEnvelope))
                  | None => Err RuntimePanic
                  end))).
Proof.
  intros Hon Hbind. rewrite Claim_transaction by assumption.
  pose proof (claimTx_cases ctx req raw (begin st)) as Hcases.
  rewrite lockedEnvelope_begin in Hcases. unfold Transaction.
  split.
  - intros Hnone. apply lockedEnvelope_none in Hnone. rewrite Hnone in Hcases.
    rewrite Hcases. reflexivity.
  - intros redEnvelope Hlock. rewrite Hlock in Hcases.
    destruct Hcases as (Hexp & Hfin & Hact).
    split; [|split].
    + intros H. rewrite (Hexp H). reflexivity.
    + intros H1 H2 H3. rewrite (Hfin H1 H2 H3). reflexivity.
    + intros H1 H2 H3. destruct (Hact H1 H2 H3) as [Hdup Hgo]. split.
      * intros Hex. apply hasClaim_true in Hex. rewrite (Hdup Hex). reflexivity.
      * intros Hnone.
        assert (Hno : hasClaim (RedEnvelope.ID redEnvelope) (currentUser ctx)
                               (red_envelope_claims (begin st)) = false).
        { destruct (hasClaim _ _ _) eqn:Hh; [|reflexivity].
          apply hasClaim_true in Hh. destruct Hh as (c & Hin & Hid & Hu).
          destruct (Hnone c Hin Hid Hu). }
        rewrite (Hgo Hno).
        pose proof (Transaction_claimWrites ctx raw redEnvelope st) as Hw.
        unfold Transaction in Hw.
        destruct (claimedAmountOf raw redEnvelope) as [claimedAmount|].
        -- destruct Hw as (st' & Heq & _). rewrite Heq. reflexivity.
        -- rewrite Hw. reflexivity.
Qed.

Lemma claim_rejection_order_witness :
  Claim (mkContext true 2 (fun _ => true) 5) (mkClaimRequest "abc") 0
        (mkStore [] [] [User.mk 2 (New 0 (-2))] [] 0)
  = (begin (mkStore [] [] [User.mk 2 (New 0 (-2))] [] 0), Err RedEnvelopeNotFound).
Proof.
  apply (claim_rejection_order (mkContext true 2 (fun _ => true) 5)
           (mkClaimRequest "abc") 0 (mkStore [] [] [User.mk 2 (New 0 (-2))] [] 0));
    [reflexivity|reflexivity|].
  intros e Hin. destruct Hin.
Defined.

(** C6 as stated fails at the boundary: an active envelope whose expiry is
    exactly now is not rejected as expired, the claim goes through. *)
Lemma claim_at_expiry_counterexample :
  let redEnvelope :=
    RedEnvelope.mk 1 "abc" 1 RedEnvelopeTypeFixed (New 1000 (-2)) (New 1000 (-2))
                   3 3 "" RedEnvelopeStatusActive 100 in
  let st := mkStore [redEnvelope] [] [User.mk 1 (New 0 (-2)); User.mk 2 (New 0 (-2))] [] 0 in
  let ctx := mkContext true 2 (fun _ => true) 100 in
  lockedEnvelope "abc" st = Some redEnvelope
  /\ RedEnvelope.ExpiresAt redEnvelope <= Now ctx
  /\ snd (Claim ctx (mkClaimRequest "abc") 0 st)
     = OK (mkClaimResponse (New 333 (-2)) (afterClaim (New 333 (-2)) redEnvelope))
  /\ snd (Claim ctx (mkClaimRequest "abc") 0 st) <> Err RedEnvelopeExpired.
Proof.
  cbv zeta. split; [reflexivity|]. split; [cbn; lia|].
  split; [vm_compute; reflexivity|].
  vm_compute. discriminate.
Qed.

(** A claim that passes the checks and has its share computed answers with
    the share and the envelope as rewritten, and writes the four tables. *)
Lemma Claim_written (ctx : Context) (req : ClaimRequest) (raw : Z) (st : Store)
    (redEnvelope : RedEnvelope.t) (claimedAmount : Decimal) :
  IsRedEnvelopeEnabled ctx = true -> ShouldBindJSON_Claim req = true ->
  lockedEnvelope (ClaimRequest_Code req) st = Some redEnvelope ->
  passesChecks ctx redEnvelope st ->
  claimedAmountOf raw redEnvelope = Some claimedAmount ->
  exists st',
    Claim ctx req raw st
    = (st', OK (mkClaimResponse claimedAmount (afterClaim claimedAmount redEnvelope)))
    /\ claimWritten ctx redEnvelope claimedAmount st st'.
Proof.
  intros Hon Hbind Hlock Hpass Hamt.
  rewrite (Claim_proceeds ctx req raw st redEnvelope Hon Hbind Hlock Hpass).
  pose proof (Transaction_claimWrites ctx raw redEnvelope st) as Hw.
  rewrite Hamt in Hw. destruct Hw as (st' & Heq & Hclaims & Hrows & Husers & Horders).
  exists st'. split; [exact Heq|].
  unfold claimWritten. split; [exact Hclaims|]. split; [exact Hrows|].
  split; [exact Husers|exact Horders].
Qed.

(** C9.  No input makes [Claim] answer [CannotClaimOwnRedEnvelope], and the
    creator's own claim is served like anybody's.  When the checks pass and
    the share is [claimedAmount], the creator's claim succeeds with that
    share and writes what a claim writes: the claim row in the creator's
    name, the envelope's new count, amount and status, the share added to the
    creator's balance, and the journal entry from the creator to the creator.
    Any other caller without a claim on the envelope gets the same answer,
    and the same writes in their own name. *)
Theorem self_claim_permitted (ctx : Context) (req : ClaimRequest) (raw : Z)
    (st : Store) :
  snd (Claim ctx req raw st) <> Err CannotClaimOwnRedEnvelope
  /\ (forall redEnvelope,
        IsRedEnvelopeEnabled ctx = true -> ShouldBindJSON_Claim req = true ->
        lockedEnvelope (ClaimRequest_Code req) st = Some redEnvelope ->
        currentUser ctx = RedEnvelope.CreatorID redEnvelope ->
        passesChecks ctx redEnvelope st ->
        (forall claimedAmount,
           claimedAmountOf raw redEnvelope = Some claimedAmount ->
           exists st',
             Claim ctx req raw st
             = (st', OK (mkClaimResponse claimedAmount
                                         (afterClaim claimedAmount redEnvelope)))
             /\ claimWritten ctx redEnvelope claimedAmount st st')
        /\ (forall other,
              hasClaim (RedEnvelope.ID redEnvelope) other (red_envelope_claims st) = false ->
              snd (Claim (mkContext (IsRedEnvelopeEnabled ctx) other
                                    (VerifyPayKey ctx) (Now ctx)) req raw st)
              = snd (Claim ctx req raw st)
              /\ forall claimedAmount,
                   claimedAmountOf raw redEnvelope = Some claimedAmount ->
                   exists st',
                     Claim (mkContext (IsRedEnvelopeEnabled ctx) other
                                      (VerifyPayKey ctx) (Now ctx)) req raw st
                     = (st', OK (mkClaimResponse claimedAmount
                                                 (afterClaim claimedAmount redEnvelope)))
                     /\ claimWritten (mkContext (IsRedEnvelopeEnabled ctx) other
                                                (VerifyPayKey ctx) (Now ctx))
                                     redEnvelope claimedAmount st st')).
Proof.
  split.
  - unfold Claim.
    destruct (IsRedEnvelopeEnabled ctx); cbn [negb snd]; [|discriminate].
    destruct (ShouldBindJSON_Claim req); cbn [negb snd]; [|discriminate].
    unfold Transaction.
    destruct (claimTx ctx req raw (begin st)) as [tx' [resp|f]] eqn:Htx;
      cbn [snd]; [discriminate|].
    intros Hf. injection Hf as ->.
    unfold claimTx in Htx.
    destruct (First _ (red_envelopes (begin st))) as [e|]; [|discriminate].
    repeat (match type of Htx with
            | (if ?b then _ else _) = _ => destruct b; [discriminate|]
            end).
    unfold claimWrites in Htx. destruct (claimedAmountOf raw e); discriminate.
  - intros redEnvelope Hon Hbind Hlock Hself Hpass.
    assert (Hsnd : forall c, passesChecks c redEnvelope st ->
              IsRedEnvelopeEnabled c = true ->
              snd (Claim c req raw st)
              = match claimedAmountOf raw redEnvelope with
                | Some claimedAmount =>
                    OK (mkClaimResponse claimedAmount
                                        (afterClaim claimedAmount redEnvelope))
                | None => Err RuntimePanic
                end).
    { intros c Hc Hc_on.
      rewrite (Claim_proceeds c req raw st redEnvelope Hc_on Hbind Hlock Hc).
      pose proof (Transaction_claimWrites c raw redEnvelope st) as Hw.
      destruct (claimedAmountOf raw redEnvelope) as [claimedAmount|].
      - destruct Hw as (st' & Heq & _). rewrite Heq. reflexivity.
      - rewrite Hw. reflexivity. }
    split.
    + intros claimedAmount Hamt.
      exact (Claim_written ctx req raw st redEnvelope claimedAmount
               Hon Hbind Hlock Hpass Hamt).
    + intros other Hother.
      assert (Hpass' : passesChecks (mkContext (IsRedEnvelopeEnabled ctx) other
                                               (VerifyPayKey ctx) (Now ctx))
                                    redEnvelope st).
      { destruct Hpass as (H1 & H2 & H3 & _). repeat split; assumption. }
      split.
      * rewrite (Hsnd ctx Hpass Hon). apply Hsnd; [exact Hpass'|exact Hon].
      * intros claimedAmount Hamt.
        exact (Claim_written (mkContext (IsRedEnvelopeEnabled ctx) other
                                        (VerifyPayKey ctx) (Now ctx))
                 req raw st redEnvelope claimedAmount
                 Hon Hbind Hlock Hpass' Hamt).
Qed.

Lemma self_claim_permitted_witness :
  let redEnvelope :=
    RedEnvelope.mk 1 "abc" 1 RedEnvelopeTypeRandom (New 1000 (-2)) (New 1000 (-2))
                   3 3 "" RedEnvelopeStatusActive 100 in
  let st := mkStore [redEnvelope] [] [User.mk 1 (New 0 (-2)); User.mk 2 (New 0 (-2))]
                    [] 0 in
  exists st',
    Claim (mkContext true 1 (fun _ => true) 5) (mkClaimRequest "abc") 41 st
    = (st', OK (mkClaimResponse (New 42 (-2)) (afterClaim (New 42 (-2)) redEnvelope)))
    /\ red_envelope_claims st' = [RedEnvelopeClaim.mk 1 1 (New 42 (-2))]
    /\ users st' = [User.mk 1 (New 42 (-2)); User.mk 2 (New 0 (-2))]
    /\ red_envelopes st'
       = [RedEnvelope.mk 1 "abc" 1 RedEnvelopeTypeRandom (New 1000 (-2)) (New 958 (-2))
                         3 2 "" RedEnvelopeStatusActive 100]
    /\ orders st' = [Order.mk 1 1 (New 42 (-2)) OrderTypeRedEnvelopeReceive 5].
Proof.
  cbv zeta.
  assert (Hpass : passesChecks (mkContext true 1 (fun _ => true) 5)
                    (RedEnvelope.mk 1 "abc" 1 RedEnvelopeTypeRandom
                       (New 1000 (-2)) (New 1000 (-2)) 3 3 ""
                       RedEnvelopeStatusActive 100)
                    (mkStore [RedEnvelope.mk 1 "abc" 1 RedEnvelopeTypeRandom
                                (New 1000 (-2)) (New 1000 (-2)) 3 3 ""
                                RedEnvelopeStatusActive 100]
                             [] [User.mk 1 (New 0 (-2)); User.mk 2 (New 0 (-2))]
                             [] 0))
    by (unfold passesChecks; cbn; repeat split; lia).
  assert (Hamt : claimedAmountOf 41
                   (RedEnvelope.mk 1 "abc" 1 RedEnvelopeTypeRandom
                      (New 1000 (-2)) (New 1000 (-2)) 3 3 ""
                      RedEnvelopeStatusActive 100)
                 = Some (New 42 (-2))) by (vm_compute; reflexivity).
  destruct (proj1 (proj2 (self_claim_permitted
                            (mkContext true 1 (fun _ => true) 5)
                            (mkClaimRequest "abc") 41
                            (mkStore [RedEnvelope.mk 1 "abc" 1 RedEnvelopeTypeRandom
                                        (New 1000 (-2)) (New 1000 (-2)) 3 3 ""
                                        RedEnvelopeStatusActive 100]
                                     [] [User.mk 1 (New 0 (-2)); User.mk 2 (New 0 (-2))]
                                     [] 0))
                         (RedEnvelope.mk 1 "abc" 1 RedEnvelopeTypeRandom
                            (New 1000 (-2)) (New 1000 (-2)) 3 3 ""
                            RedEnvelopeStatusActive 100)
                         eq_refl eq_refl eq_refl eq_refl Hpass)
                  (New 42 (-2)) Hamt)
    as (st' & Heq & Hclaims & Hrows & Husers & Horders).
  exists st'. split; [exact Heq|].
  rewrite Hclaims, Hrows, Husers, Horders. vm_compute. repeat split; reflexivity.
Defined.

Lemma Claim_amount (ctx : Context) (req : ClaimRequest) (raw : Z) (st : Store)
    (redEnvelope : RedEnvelope.t) (claimedAmount : Decimal) :
  IsRedEnvelopeEnabled ctx = true -> ShouldBindJSON_Claim req = true ->
  lockedEnvelope (ClaimRequest_Code req) st = Some redEnvelope ->
  passesChecks ctx redEnvelope st ->
  claimedAmountOf raw redEnvelope = Some claimedAmount ->
  exists st',
    Claim ctx req raw st
    = (st', OK (mkClaimResponse claimedAmount (afterClaim claimedAmount redEnvelope)))
    /\ lockedEnvelope (ClaimRequest_Code req) st'
       = Some (afterClaim claimedAmount redEnvelope).
Proof.
  intros Hon Hbind Hlock Hpass Hamt.
  rewrite (Claim_proceeds ctx req raw st redEnvelope Hon Hbind Hlock Hpass).
  pose proof (Transaction_claimWrites ctx raw redEnvelope st) as Hw.
  rewrite Hamt in Hw. destruct Hw as (st' & Heq & _ & Henv & _).
  exists st'. split; [exact Heq|].
  unfold lockedEnvelope in *. rewrite Henv. unfold First, Updates in *.
  clear - Hlock. induction (red_envelopes st) as [|e l IH]; [discriminate|].
  cbn [map find] in *.
  destruct (RedEnvelope.ID e =? RedEnvelope.ID redEnvelope) eqn:Hid.
  - cbn [set_remaining RedEnvelope.Code].
    destruct (String.eqb (RedEnvelope.Code e) (ClaimRequest_Code req)) eqn:Hc.
    + injection Hlock as ->. reflexivity.
    + apply IH. exact Hlock.
  - destruct (String.eqb (RedEnvelope.Code e) (ClaimRequest_Code req)) eqn:Hc.
    + injection Hlock as ->. rewrite Z.eqb_refl in Hid. discriminate.
    + apply IH. exact Hlock.
Qed.



(** ** Every operation is a sequence of changes *)

Lemma Changes_trans (a b c : Store) : Changes a b -> Changes b c -> Changes a c.
Proof.
  intros Hab Hbc. induction Hbc as [|c' c'' _ IH Hstep]; [exact Hab|].
  eapply MoreChange; eassumption.
Qed.

Lemma Changes_one (a b : Store) : Change a b -> Changes a b.
Proof. intros H. eapply MoreChange; [apply NoChange|exact H]. Qed.

Lemma Change_begin (st : Store) : Change st (begin st).
Proof. apply Unchanged; reflexivity. Qed.

Lemma lockedEnvelope_In (code : string) (st : Store) (e : RedEnvelope.t) :
  lockedEnvelope code st = Some e -> In e (red_envelopes st).
Proof. unfold lockedEnvelope, First. intros H. apply find_some in H. apply H. Qed.

Lemma Create_Change (ctx : Context) (req : CreateRequest.t) (code : string)
    (st : Store) :
  Change st (fst (Create ctx req code st)).
Proof.
  unfold Create.
  destruct (negb (IsRedEnvelopeEnabled ctx)); [apply Unchanged; reflexivity|].
  destruct (ShouldBindJSON_Create req) eqn:Hbind; cbn [negb];
    [|apply Unchanged; reflexivity].
  destruct (LessThanOrEqual (CreateRequest.TotalAmount req) Zero) eqn:Hpos;
    [apply Unchanged; reflexivity|].
  destruct (Z.ltb_spec (Exponent (CreateRequest.TotalAmount req)) (-2)) as [|Hexp];
    [apply Unchanged; reflexivity|].
  pose proof (bound_count req Hbind) as Hcount.
  assert (Htx : Change st (fst (Transaction (createTx ctx req code) st))).
  { unfold Transaction, createTx.
    destruct (First _ (users (begin st))) as [user|]; [|apply Unchanged; reflexivity].
    destruct (LessThan _ _); [apply Unchanged; reflexivity|].
    cbn [fst]. eapply Created; cbn; try reflexivity; assumption. }
  assert (Hgo : Change st
            (fst (if negb (VerifyPayKey ctx (CreateRequest.PayKey req))
                  then (st, Err PayKeyIncorrect)
                  else
                    match Transaction (createTx ctx req code) st with
                    | (st', OK redEnvelope) =>
                        (st', OK (mkCreateResponse (RedEnvelope.ID redEnvelope) code))
                    | (st', Err f) => (st', Err f)
                    end))).
  { destruct (negb _); [apply Unchanged; reflexivity|].
    destruct (Transaction (createTx ctx req code) st) as [st' [e|f]]; exact Htx. }
  destruct (CreateRequest.Type_ req); [|exact Hgo].
  destruct (Div _ _) as [perAmount|]; [|apply Unchanged; reflexivity].
  destruct (LessThan perAmount NewFromFloat_0_01); [apply Unchanged; reflexivity|].
  exact Hgo.
Qed.

(** What a call of [Claim] does: it is rejected and the tables stay, or the
    locked envelope passed the checks and the writes are made. *)
Lemma Claim_inv (ctx : Context) (req : ClaimRequest) (raw : Z) (st : Store) :
  (exists f,
     snd (Claim ctx req raw st) = Err f
     /\ red_envelopes (fst (Claim ctx req raw st)) = red_envelopes st
     /\ red_envelope_claims (fst (Claim ctx req raw st)) = red_envelope_claims st
     /\ users (fst (Claim ctx req raw st)) = users st
     /\ orders (fst (Claim ctx req raw st)) = orders st)
  \/ (exists redEnvelope claimedAmount,
        lockedEnvelope (ClaimRequest_Code req) st = Some redEnvelope
        /\ passesChecks ctx redEnvelope st
        /\ claimedAmountOf raw redEnvelope = Some claimedAmount
        /\ Claim ctx req raw st = Transaction (claimWrites ctx raw redEnvelope) st
        /\ snd (Claim ctx req raw st)
           = OK (mkClaimResponse claimedAmount (afterClaim claimedAmount redEnvelope))).
Proof.
  assert (Hrej : forall f, Claim ctx req raw st = (begin st, Err f) ->
            exists f,
              snd (Claim ctx req raw st) = Err f
              /\ red_envelopes (fst (Claim ctx req raw st)) = red_envelopes st
              /\ red_envelope_claims (fst (Claim ctx req raw st)) = red_envelope_claims st
              /\ users (fst (Claim ctx req raw st)) = users st
              /\ orders (fst (Claim ctx req raw st)) = orders st).
  { intros f ->. exists f. repeat split. }
  destruct (IsRedEnvelopeEnabled ctx) eqn:Hon;
    [|left; unfold Claim; rewrite Hon; eexists; repeat split; reflexivity].
  destruct (ShouldBindJSON_Claim req) eqn:Hbind;
    [|left; unfold Claim; rewrite Hon, Hbind; eexists; repeat split; reflexivity].
  pose proof (Claim_transaction ctx req raw st Hon Hbind) as Htx.
  pose proof (claimTx_cases ctx req raw (begin st)) as Hcases.
  rewrite lockedEnvelope_begin in Hcases. unfold Transaction in Htx.
  destruct (lockedEnvelope (ClaimRequest_Code req) st) as [redEnvelope|] eqn:Hlock;
    [|left; eapply Hrej; rewrite Htx, Hcases; reflexivity].
  destruct Hcases as (Hexp & Hfin & Hact).
  destruct (Z.lt_ge_cases (RedEnvelope.ExpiresAt redEnvelope) (Now ctx)) as [Ht|Ht];
    [left; eapply Hrej; rewrite Htx, Hexp; [reflexivity|right; exact Ht]|].
  destruct (RedEnvelope.Status redEnvelope) eqn:Hs.
  - destruct (Z.le_gt_cases (RedEnvelope.RemainingCount redEnvelope) 0) as [Hc|Hc];
      [left; eapply Hrej; rewrite Htx, Hfin;
       [reflexivity|discriminate|exact Ht|right; exact Hc]|].
    destruct (Hact eq_refl Ht ltac:(lia)) as [Hdup _].
    destruct (hasClaim (RedEnvelope.ID redEnvelope) (currentUser ctx)
                       (red_envelope_claims st)) eqn:Hh;
      [left; eapply Hrej; rewrite Htx, (Hdup Hh); reflexivity|].
    assert (Hpass : passesChecks ctx redEnvelope st)
      by (repeat split; [exact Hs|exact Ht|lia|exact Hh]).
    pose proof (Claim_proceeds ctx req raw st redEnvelope Hon Hbind Hlock Hpass) as Heq.
    pose proof (Transaction_claimWrites ctx raw redEnvelope st) as Hw.
    destruct (claimedAmountOf raw redEnvelope) as [claimedAmount|] eqn:Hamt.
    + right. exists redEnvelope, claimedAmount.
      destruct Hw as (st' & Hst' & _).
      split; [first [exact Hlock|reflexivity]|]. split; [exact Hpass|].
      split; [first [exact Hamt|reflexivity]|].
      split; [exact Heq|]. rewrite Heq, Hst'. reflexivity.
    + left. eapply Hrej. rewrite Heq. exact Hw.
  - left. eapply Hrej. rewrite Htx, Hfin;
      [reflexivity|discriminate|exact Ht|left; reflexivity].
  - left. eapply Hrej. rewrite Htx, Hexp; [reflexivity|left; reflexivity].
Qed.

Lemma Claim_Change (ctx : Context) (req : ClaimRequest) (raw : Z) (st : Store) :
  Change st (fst (Claim ctx req raw st)).
Proof.
  destruct (Claim_inv ctx req raw st)
    as [(f & _ & H1 & H2 & H3 & H4)|(e & a & Hlock & Hpass & Hamt & Heq & _)].
  - apply Unchanged; assumption.
  - rewrite Heq.
    pose proof (Transaction_claimWrites ctx raw e st) as Hw. rewrite Hamt in Hw.
    destruct Hw as (st' & Hst' & Hclaims & Henv & _). rewrite Hst'. cbn [fst].
    eapply Claimed; try eassumption.
    eapply lockedEnvelope_In; eassumption.
Qed.

Lemma refundOne_Change (now : Time) (envelope : RedEnvelope.t) (st : Store) :
  Change st (refundOne now envelope st).
Proof.
  unfold refundOne, Transaction, refundTx.
  destruct (IsPositive (RedEnvelope.RemainingAmount envelope));
    cbn [fst]; eapply Refunded; reflexivity.
Qed.

Lemma refundAll_Changes (now : Time) (envelopes : list RedEnvelope.t) (st : Store) :
  Changes st (refundAll now envelopes st).
Proof.
  revert st. induction envelopes as [|e l IH]; intros st; [apply NoChange|].
  cbn [refundAll fold_left]. eapply Changes_trans; [|apply IH].
  apply Changes_one, refundOne_Change.
Qed.

Lemma apply_Changes (st : Store) (op : Op) : Changes st (apply st op).
Proof.
  destruct op; cbn [apply].
  - apply Changes_one, Create_Change.
  - apply Changes_one, Claim_Change.
  - apply refundAll_Changes.
  - apply Changes_one, refundOne_Change.
Qed.

Lemma run_Changes (ops : list Op) (st : Store) : Changes st (run ops st).
Proof.
  revert st. induction ops as [|op ops IH]; intros st; [apply NoChange|].
  cbn [run fold_left]. eapply Changes_trans; [apply apply_Changes|apply IH].
Qed.

(** ** Finished envelopes *)

Lemma Sub_self (d : Decimal) : IsZero (Sub d d) = true.
Proof.
  unfold Sub, RescalePair. rewrite Z.eqb_refl.
  unfold IsZero, Sign; cbn [value]. rewrite Z.sub_diag. reflexivity.
Qed.

(** The last claimant takes what is left, whatever the type. *)
Lemma claimedAmountOf_last (raw : Z) (redEnvelope : RedEnvelope.t) :
  RedEnvelope.RemainingCount redEnvelope = 1 ->
  claimedAmountOf raw redEnvelope = Some (RedEnvelope.RemainingAmount redEnvelope).
Proof.
  intros Hlast. unfold claimedAmountOf, calculateRandomAmount. rewrite Hlast.
  destruct (RedEnvelope.Type_ redEnvelope); reflexivity.
Qed.

Lemma In_Updates {A : Type} (cond : A -> bool) (set : A -> A) (rows : list A) (x : A) :
  In x (Updates cond set rows) ->
  exists y, In y rows /\ x = if cond y then set y else y.
Proof.
  unfold Updates. intros H. apply in_map_iff in H.
  destruct H as (y & Heq & Hin). exists y. split; [exact Hin|]. symmetry. exact Heq.
Qed.

Lemma Change_finishedIsEmpty (st st' : Store) :
  Change st st' ->
  (forall e, In e (red_envelopes st) -> finishedIsEmpty e) ->
  forall e, In e (red_envelopes st') -> finishedIsEmpty e.
Proof.
  intros Hch Hinv e Hin.
  destruct Hch as [Henv _ _ _|e0 Henv Hactive _ _ _ _ _ _ _|ctx raw env amt _ Hpass Hamt Henv _
                  |envelope Henv _]; rewrite Henv in Hin.
  - apply Hinv; exact Hin.
  - apply in_app_or in Hin. destruct Hin as [Hin|[<-|[]]]; [apply Hinv; exact Hin|].
    intros Hfin. rewrite Hactive in Hfin. discriminate.
  - apply In_Updates in Hin. destruct Hin as (y & Hy & ->).
    destruct (RedEnvelope.ID y =? RedEnvelope.ID env); [|apply Hinv; exact Hy].
    destruct Hpass as (Hs & _ & Hc & _).
    unfold finishedIsEmpty, set_remaining; cbn [RedEnvelope.Status
      RedEnvelope.RemainingAmount RedEnvelope.RemainingCount].
    destruct (Z.leb_spec (RedEnvelope.RemainingCount env - 1) 0) as [Hle|Hgt].
    + intros _. assert (Hlast : RedEnvelope.RemainingCount env = 1) by lia.
      rewrite (claimedAmountOf_last raw env Hlast) in Hamt.
      assert (amt = RedEnvelope.RemainingAmount env) by congruence. subst amt.
      split; [apply Sub_self|lia].
    + rewrite Hs. discriminate.
  - apply In_Updates in Hin. destruct Hin as (y & Hy & ->).
    destruct (_ && _); [|apply Hinv; exact Hy].
    intros Hfin. cbn in Hfin. discriminate.
Qed.

Lemma Changes_finishedIsEmpty (st st' : Store) :
  Changes st st' ->
  (forall e, In e (red_envelopes st) -> finishedIsEmpty e) ->
  forall e, In e (red_envelopes st') -> finishedIsEmpty e.
Proof.
  intros Hch Hinv. induction Hch as [|st' st'' _ IH Hstep]; [exact Hinv|].
  eapply Change_finishedIsEmpty; eassumption.
Qed.

(** C10.  Starting from a store without envelopes, after any sequence of
    [Create], [Claim] and sweeper steps every Finished envelope has nothing
    left: remaining amount zero and remaining count zero.  A claim only
    finishes an envelope when it is the last one ([remainingCount = 1]), and
    then it takes the whole remaining amount, for both types. *)
Theorem finished_envelopes_are_empty (st : Store) (ops : list Op) :
  red_envelopes st = [] ->
  (forall e, In e (red_envelopes (run ops st)) ->
             RedEnvelope.Status e = RedEnvelopeStatusFinished ->
             IsZero (RedEnvelope.RemainingAmount e) = true
             /\ RedEnvelope.RemainingCount e = 0)
  /\ (forall ctx req raw resp,
        snd (Claim ctx req raw (run ops st)) = OK resp ->
        RedEnvelope.Status (ClaimResponse_RedEnvelope resp) = RedEnvelopeStatusFinished ->
        exists redEnvelope,
          lockedEnvelope (ClaimRequest_Code req) (run ops st) = Some redEnvelope
          /\ RedEnvelope.RemainingCount redEnvelope = 1
          /\ ClaimResponse_Amount resp = RedEnvelope.RemainingAmount redEnvelope).
Proof.
  intros Hempty. split.
  - apply (Changes_finishedIsEmpty st (run ops st) (run_Changes ops st)).
    rewrite Hempty. intros e [].
  - intros ctx req raw resp Hok Hfin.
    destruct (Claim_inv ctx req raw (run ops st))
      as [(f & Hf & _)|(env & amt & Hlock & Hpass & Hamt & _ & Hsnd)];
      [rewrite Hok in Hf; discriminate|].
    rewrite Hok in Hsnd. injection Hsnd as ->. cbn in Hfin.
    destruct Hpass as (Hs & _ & Hc & _).
    exists env. split; [exact Hlock|].
    destruct (Z.leb_spec (RedEnvelope.RemainingCount env - 1) 0) as [Hle|Hgt];
      [|rewrite Hs in Hfin; discriminate].
    assert (Hlast : RedEnvelope.RemainingCount env = 1) by lia.
    split; [exact Hlast|]. cbn.
    rewrite (claimedAmountOf_last raw env Hlast) in Hamt. congruence.
Qed.

Lemma finished_envelopes_are_empty_witness :
  let user := fun uid cents => User.mk uid (New cents (-2)) in
  let st0 := mkStore [] [] [user 1 10000; user 2 0; user 3 0] [] 0 in
  let ctx := fun uid => mkContext true uid (fun _ => true) 0 in
  let ops :=
    [OpCreate (ctx 1)
       (CreateRequest.mk RedEnvelopeTypeRandom (New 1000 (-2)) 2 "" "123456") "abc";
     OpClaim (ctx 2) (mkClaimRequest "abc") 7 ;
     OpClaim (ctx 3) (mkClaimRequest "abc") 9] in
  exists e,
    lockedEnvelope "abc" (run ops st0) = Some e
    /\ RedEnvelope.Status e = RedEnvelopeStatusFinished
    /\ IsZero (RedEnvelope.RemainingAmount e) = true
    /\ RedEnvelope.RemainingCount e = 0.
Proof.
  cbv zeta. eexists. split; [vm_compute; reflexivity|]. split; [reflexivity|].
  eapply (proj1 (finished_envelopes_are_empty
                   (mkStore [] [] [User.mk 1 (New 10000 (-2)); User.mk 2 (New 0 (-2));
                                   User.mk 3 (New 0 (-2))] [] 0)
                   [OpCreate (mkContext true 1 (fun _ => true) 0)
                      (CreateRequest.mk RedEnvelopeTypeRandom (New 1000 (-2)) 2 ""
                                        "123456") "abc";
                    OpClaim (mkContext true 2 (fun _ => true) 0) (mkClaimRequest "abc") 7;
                    OpClaim (mkContext true 3 (fun _ => true) 0) (mkClaimRequest "abc") 9]
                   eq_refl)).
  - vm_compute. left. reflexivity.
  - reflexivity.
Defined.

(** ** One claim per user and envelope *)

Lemma find_app_some {A : Type} (f : A -> bool) (l l' : list A) (x : A) :
  find f l = Some x -> find f (l ++ l') = Some x.
Proof.
  induction l as [|a l IH]; [discriminate|]. cbn [find app].
  destruct (f a); [trivial|exact IH].
Qed.

Lemma hasClaim_app (envelopeID userID : Z) (rows more : list RedEnvelopeClaim.t) :
  hasClaim envelopeID userID rows = true ->
  hasClaim envelopeID userID (rows ++ more) = true.
Proof.
  unfold hasClaim, First. destruct (find _ rows) as [c|] eqn:Hf; [|discriminate].
  intros _. rewrite (find_app_some _ _ more c Hf). reflexivity.
Qed.

Lemma hasClaim_last (envelopeID userID : Z) (rows : list RedEnvelopeClaim.t)
    (amount : Decimal) :
  hasClaim envelopeID userID
           (rows ++ [RedEnvelopeClaim.mk envelopeID userID amount]) = true.
Proof.
  apply hasClaim_true. eexists. split; [apply in_or_app; right; left; reflexivity|].
  split; reflexivity.
Qed.

(** An update that keeps code and key keeps the envelope a code leads to. *)
Lemma lockedEnvelope_Updates (code : string) (cond : RedEnvelope.t -> bool)
    (n : Z) (amount : Decimal) (s : RedEnvelopeStatus) (rows : list RedEnvelope.t)
    (e : RedEnvelope.t) :
  find (fun e => String.eqb (RedEnvelope.Code e) code) rows = Some e ->
  exists e',
    find (fun e => String.eqb (RedEnvelope.Code e) code)
         (Updates cond (set_remaining n amount s) rows) = Some e'
    /\ RedEnvelope.ID e' = RedEnvelope.ID e.
Proof.
  induction rows as [|a l IH]; [discriminate|].
  cbn [find Updates map]. fold (Updates cond (set_remaining n amount s) l).
  destruct (String.eqb (RedEnvelope.Code a) code) eqn:Ha.
  - intros [= <-]. destruct (cond a); cbn [set_remaining RedEnvelope.Code];
      rewrite Ha; eexists; split; reflexivity.
  - intros Hf. destruct (cond a); cbn [set_remaining RedEnvelope.Code];
      rewrite Ha; apply IH; exact Hf.
Qed.

(** The caller [userID] holds a claim on the envelope that [code] leads to. *)
Lemma Change_claimed (code : string) (envelopeID userID : Z) (st st' : Store) :
  Change st st' ->
  (exists e, lockedEnvelope code st = Some e /\ RedEnvelope.ID e = envelopeID) ->
  hasClaim envelopeID userID (red_envelope_claims st) = true ->
  (exists e, lockedEnvelope code st' = Some e /\ RedEnvelope.ID e = envelopeID)
  /\ hasClaim envelopeID userID (red_envelope_claims st') = true.
Proof.
  intros Hch (e & Hlock & Hid) Hhas. unfold lockedEnvelope, First in *.
  destruct Hch as [Henv Hcl _ _|e0 Henv _ Hcl _ _ _ _ _ _|ctx raw env amt _ _ _ Henv Hcl
                  |envelope Henv Hcl]; rewrite Henv, Hcl.
  - split; [exists e; split; assumption|exact Hhas].
  - split; [|exact Hhas]. exists e. split; [|exact Hid].
    apply find_app_some. exact Hlock.
  - split; [|apply hasClaim_app; exact Hhas].
    edestruct (lockedEnvelope_Updates code) as (e' & He' & Hid'); [exact Hlock|].
    exists e'. split; [exact He'|congruence].
  - split; [|exact Hhas].
    edestruct (lockedEnvelope_Updates code) as (e' & He' & Hid'); [exact Hlock|].
    exists e'. split; [exact He'|congruence].
Qed.

Lemma Changes_claimed (code : string) (envelopeID userID : Z) (st st' : Store) :
  Changes st st' ->
  (exists e, lockedEnvelope code st = Some e /\ RedEnvelope.ID e = envelopeID) ->
  hasClaim envelopeID userID (red_envelope_claims st) = true ->
  (exists e, lockedEnvelope code st' = Some e /\ RedEnvelope.ID e = envelopeID)
  /\ hasClaim envelopeID userID (red_envelope_claims st') = true.
Proof.
  intros Hch Hlock Hhas. induction Hch as [|st' st'' _ IH Hstep]; [split; assumption|].
  destruct IH as [Hlock' Hhas']. eapply Change_claimed; eassumption.
Qed.

(** C7 (as amended).  After a successful claim the caller has been
    credited the share once, and whatever happens next, every later claim of
    the same caller on the same code is rejected and leaves the tables as they
    are, so there is no second credit.  The rejection is "already claimed" as
    long as the envelope is active, within its time and has shares left; it is
    "expired" or "finished" once the envelope is, because those checks come
    first (and "feature disabled" when the switch is off). *)
Theorem claim_once (ctx : Context) (req : ClaimRequest) (raw : Z) (st st1 : Store)
    (resp : ClaimResponse) :
  Claim ctx req raw st = (st1, OK resp) ->
  users st1 = users (add_balance (currentUser ctx) (ClaimResponse_Amount resp) st)
  /\ forall (ops : list Op) (ctx2 : Context) (raw2 : Z),
       currentUser ctx2 = currentUser ctx ->
       exists redEnvelope,
         lockedEnvelope (ClaimRequest_Code req) (run ops st1) = Some redEnvelope
         /\ snd (Claim ctx2 req raw2 (run ops st1))
            = Err (if negb (IsRedEnvelopeEnabled ctx2) then FeatureDisabled
                   else if status_eqb (RedEnvelope.Status redEnvelope)
                                      RedEnvelopeStatusExpired
                           || (RedEnvelope.ExpiresAt redEnvelope <? Now ctx2)
                   then RedEnvelopeExpired
                   else if status_eqb (RedEnvelope.Status redEnvelope)
                                      RedEnvelopeStatusFinished
                           || (RedEnvelope.RemainingCount redEnvelope <=? 0)
                   then RedEnvelopeFinished
                   else RedEnvelopeAlreadyClaimed)
         /\ users (fst (Claim ctx2 req raw2 (run ops st1))) = users (run ops st1)
         /\ red_envelopes (fst (Claim ctx2 req raw2 (run ops st1)))
            = red_envelopes (run ops st1)
         /\ red_envelope_claims (fst (Claim ctx2 req raw2 (run ops st1)))
            = red_envelope_claims (run ops st1)
         /\ orders (fst (Claim ctx2 req raw2 (run ops st1))) = orders (run ops st1).
Proof.
  intros Hclaim.
  assert (Hbind : ShouldBindJSON_Claim req = true).
  { unfold Claim in Hclaim. destruct (IsRedEnvelopeEnabled ctx); [|discriminate].
    destruct (ShouldBindJSON_Claim req); [reflexivity|discriminate]. }
  destruct (Claim_inv ctx req raw st)
    as [(f & Hf & _)|(env & amt & Hlock & Hpass & Hamt & Heq & Hsnd)];
    [rewrite Hclaim in Hf; discriminate|].
  rewrite Hclaim in Hsnd. cbn [snd] in Hsnd. injection Hsnd as ->.
  pose proof (Transaction_claimWrites ctx raw env st) as Hw. rewrite Hamt in Hw.
  destruct Hw as (st' & Hst' & Hclaims & Henvs & Husers & _).
  assert (st' = st1) by congruence. subst st'.
  split; [exact Husers|].
  intros ops ctx2 raw2 Hsame.
  assert (Hlock1 : exists e, lockedEnvelope (ClaimRequest_Code req) st1 = Some e
                             /\ RedEnvelope.ID e = RedEnvelope.ID env).
  { unfold lockedEnvelope, First in *. rewrite Henvs.
    apply lockedEnvelope_Updates. exact Hlock. }
  assert (Hhas1 : hasClaim (RedEnvelope.ID env) (currentUser ctx)
                           (red_envelope_claims st1) = true)
    by (rewrite Hclaims; apply hasClaim_last).
  destruct (Changes_claimed (ClaimRequest_Code req) (RedEnvelope.ID env)
              (currentUser ctx) st1 (run ops st1) (run_Changes ops st1) Hlock1 Hhas1)
    as [(e2 & Hlock2 & Hid2) Hhas2].
  exists e2. split; [exact Hlock2|].
  unfold Claim.
  destruct (IsRedEnvelopeEnabled ctx2); cbn [negb]; [|repeat split].
  rewrite Hbind. cbn [negb]. unfold Transaction, claimTx.
  fold (lockedEnvelope (ClaimRequest_Code req) (begin (run ops st1))).
  rewrite lockedEnvelope_begin, Hlock2.
  destruct (status_eqb (RedEnvelope.Status e2) RedEnvelopeStatusExpired
            || (RedEnvelope.ExpiresAt e2 <? Now ctx2)); [repeat split|].
  destruct (status_eqb (RedEnvelope.Status e2) RedEnvelopeStatusFinished
            || (RedEnvelope.RemainingCount e2 <=? 0)); [repeat split|].
  rewrite Hid2, Hsame. cbn [begin red_envelope_claims]. rewrite Hhas2.
  repeat split.
Qed.

Lemma claim_once_witness :
  let redEnvelope :=
    RedEnvelope.mk 1 "abc" 1 RedEnvelopeTypeFixed (New 1000 (-2)) (New 1000 (-2))
                   3 3 "" RedEnvelopeStatusActive 100 in
  let st := mkStore [redEnvelope] [] [User.mk 1 (New 0 (-2)); User.mk 2 (New 0 (-2))] [] 0 in
  let ctx := mkContext true 2 (fun _ => true) 5 in
  let req := mkClaimRequest "abc" in
  let st1 := fst (Claim ctx req 0 st) in
  balanceOf 2 st1 = Some (New 333 (-2))
  /\ snd (Claim ctx req 0 st1) = Err RedEnvelopeAlreadyClaimed
  /\ users (fst (Claim ctx req 0 st1)) = users st1.
Proof.
  intros redEnvelope st ctx req st1.
  assert (Hfirst : Claim ctx req 0 st
                   = (st1, OK (mkClaimResponse (New 333 (-2))
                                               (afterClaim (New 333 (-2)) redEnvelope))))
    by (vm_compute; reflexivity).
  destruct (claim_once ctx req 0 st st1 _ Hfirst) as [Hcredit Hlater].
  destruct (Hlater [] ctx 0 eq_refl) as (e & Hlock & Hrej & Husers & _).
  cbn [run fold_left] in Hlock, Hrej, Husers.
  assert (He : e = afterClaim (New 333 (-2)) redEnvelope).
  { vm_compute in Hlock. injection Hlock as <-. vm_compute. reflexivity. }
  subst e.
  split; [vm_compute; reflexivity|].
  split; [rewrite Hrej; vm_compute; reflexivity|exact Husers].
Defined.

(** C7 as stated fails when the first claim was the last share: the second
    call is answered "finished", not "already claimed". *)
Lemma second_claim_finished_counterexample :
  let redEnvelope :=
    RedEnvelope.mk 1 "abc" 1 RedEnvelopeTypeFixed (New 1000 (-2)) (New 334 (-2))
                   3 1 "" RedEnvelopeStatusActive 100 in
  let st := mkStore [redEnvelope] [] [User.mk 1 (New 0 (-2)); User.mk 2 (New 0 (-2))] [] 0 in
  let ctx := mkContext true 2 (fun _ => true) 5 in
  let first := Claim ctx (mkClaimRequest "abc") 0 st in
  let second := Claim ctx (mkClaimRequest "abc") 0 (fst first) in
  responseAmount (snd first) = Some (New 334 (-2))
  /\ snd second = Err RedEnvelopeFinished
  /\ snd second <> Err RedEnvelopeAlreadyClaimed.
Proof.
  cbv zeta. split; [vm_compute; reflexivity|].
  split; [vm_compute; reflexivity|]. vm_compute. discriminate.
Qed.

(** ** The claims and the remaining amount *)

Lemma exp_Round (d : Decimal) (places : Z) : exp (Round d places) = - places.
Proof.
  unfold Round. destruct (Z.eqb_spec (exp d) (- places)); [assumption|].
  cbn [exp]. rewrite exp_rescale. lia.
Qed.

(** A share holds whole cents when the remaining amount does. *)
Lemma claimedAmountOf_exp (raw : Z) (e : RedEnvelope.t) (amount : Decimal) :
  claimedAmountOf raw e = Some amount ->
  -2 <= exp (RedEnvelope.RemainingAmount e) ->
  0 < RedEnvelope.RemainingCount e ->
  -2 <= exp amount.
Proof.
  unfold claimedAmountOf. intros Hamt He Hc.
  destruct (RedEnvelope.Type_ e).
  - destruct (Z.eqb_spec (RedEnvelope.RemainingCount e) 1).
    + injection Hamt as <-. exact He.
    + destruct (Div _ _) as [q|]; [|discriminate].
      injection Hamt as <-. rewrite exp_Round. lia.
  - destruct (Z.eq_dec (RedEnvelope.RemainingCount e) 1) as [H1|H1].
    + rewrite H1 in Hamt. cbn in Hamt. injection Hamt as <-. exact He.
    + destruct (LessThan (RedEnvelope.RemainingAmount e)
                  (Mul NewFromFloat_0_01 (NewFromInt (RedEnvelope.RemainingCount e))))
        eqn:Hfb.
      * unfold calculateRandomAmount in Hamt.
        destruct (Z.eqb_spec (RedEnvelope.RemainingCount e) 1); [contradiction|].
        rewrite Hfb in Hamt. destruct (Div _ _) as [q|]; [|discriminate].
        injection Hamt as <-. rewrite exp_Round. lia.
      * assert (H2 : 2 <= RedEnvelope.RemainingCount e) by lia.
        destruct (calculateRandomAmount_main_cents raw _ _ amount H2 Hfb Hamt)
          as (c & _ & -> & _).
        cbn [exp]. lia.
Qed.

(** A random share lies between nothing and everything that is left. *)
Lemma random_share_within (raw : Z) (e : RedEnvelope.t) (amount : Decimal) :
  RedEnvelope.Type_ e = RedEnvelopeTypeRandom ->
  claimedAmountOf raw e = Some amount ->
  -2 <= exp (RedEnvelope.RemainingAmount e) ->
  0 <= units 2 (RedEnvelope.RemainingAmount e) ->
  0 < RedEnvelope.RemainingCount e ->
  0 <= units 2 amount <= units 2 (RedEnvelope.RemainingAmount e).
Proof.
  intros Htype Hamt He Hu Hc.
  pose proof (claimedAmountOf_exp raw e amount Hamt He Hc) as Hea.
  unfold claimedAmountOf in Hamt. rewrite Htype in Hamt.
  set (remaining := RedEnvelope.RemainingAmount e) in *.
  set (count := RedEnvelope.RemainingCount e) in *.
  destruct (Z.eq_dec count 1) as [H1|H1].
  { rewrite H1 in Hamt. cbn in Hamt. injection Hamt as <-. lia. }
  destruct (LessThan remaining (Mul NewFromFloat_0_01 (NewFromInt count))) eqn:Hfb.
  - assert (Hv : 0 <= value remaining).
    { unfold units in Hu. pose proof (pow10_pos (exp remaining + 2) ltac:(lia)). nia. }
    assert (H2 : 2 <= count) by lia.
    destruct (calculateRandomAmount_fallback raw remaining count H2 Hv Hfb He)
      as (q & share & _ & _ & Hcalc & Hval & Hle).
    assert (share = amount) by congruence. subst share.
    rewrite (LessThanOrEqual_units 2) in Hle by lia. apply Z.leb_le in Hle.
    split; [|exact Hle].
    destruct Hval as [-> | ->]; rewrite units_cent; cbn; lia.
  - assert (H2 : 2 <= count) by lia.
    destruct (calculateRandomAmount_main_bounds raw remaining count amount
                H2 Hfb Hamt) as (_ & _ & Hpos & Hle).
    rewrite (LessThanOrEqual_units 2) in Hle by lia. apply Z.leb_le in Hle.
    rewrite (LessThan_units 2) in Hpos by exp_side.
    apply Z.ltb_lt in Hpos. unfold units at 1 in Hpos. cbn [value Zero New] in Hpos.
    lia.
Qed.

Lemma claimedTotal_app (envelopeID : Z) (rows : list RedEnvelopeClaim.t)
    (c : RedEnvelopeClaim.t) :
  claimedTotal envelopeID (rows ++ [c])
  = if RedEnvelopeClaim.RedEnvelopeID c =? envelopeID
    then Add (claimedTotal envelopeID rows) (RedEnvelopeClaim.Amount c)
    else claimedTotal envelopeID rows.
Proof. unfold claimedTotal. rewrite fold_left_app. reflexivity. Qed.

Lemma claimed_fold_exp (envelopeID : Z) (rows : list RedEnvelopeClaim.t)
    (acc : Decimal) :
  -2 <= exp acc ->
  (forall c, In c rows -> -2 <= exp (RedEnvelopeClaim.Amount c)) ->
  -2 <= exp (fold_left
               (fun acc c =>
                  if RedEnvelopeClaim.RedEnvelopeID c =? envelopeID
                  then Add acc (RedEnvelopeClaim.Amount c) else acc)
               rows acc).
Proof.
  revert acc. induction rows as [|c l IH]; intros acc Hacc Hall; [exact Hacc|].
  cbn [fold_left]. apply IH.
  - destruct (_ =? _); [|exact Hacc]. rewrite exp_Add.
    pose proof (Hall c (or_introl eq_refl)). lia.
  - intros c' Hin. apply Hall. right. exact Hin.
Qed.

Lemma claimedTotal_exp (envelopeID : Z) (rows : list RedEnvelopeClaim.t) :
  (forall c, In c rows -> -2 <= exp (RedEnvelopeClaim.Amount c)) ->
  -2 <= exp (claimedTotal envelopeID rows).
Proof.
  intros Hall. unfold claimedTotal. apply claimed_fold_exp; [|exact Hall].
  cbn [exp NewFromInt]. lia.
Qed.

(** No claim row for the envelope, nothing claimed. *)
Lemma claimed_fold_none (envelopeID : Z) (rows : list RedEnvelopeClaim.t)
    (acc : Decimal) :
  (forall c, In c rows -> RedEnvelopeClaim.RedEnvelopeID c <> envelopeID) ->
  fold_left (fun acc c =>
               if RedEnvelopeClaim.RedEnvelopeID c =? envelopeID
               then Add acc (RedEnvelopeClaim.Amount c) else acc)
            rows acc = acc.
Proof.
  revert acc. induction rows as [|c l IH]; intros acc Hall; [reflexivity|].
  cbn [fold_left]. destruct (Z.eqb_spec (RedEnvelopeClaim.RedEnvelopeID c) envelopeID).
  - destruct (Hall c (or_introl eq_refl)). assumption.
  - apply IH. intros c' Hin. apply Hall. right. exact Hin.
Qed.

Lemma map_ID_Updates (cond : RedEnvelope.t -> bool) (n : Z) (amount : Decimal)
    (s : RedEnvelopeStatus) (rows : list RedEnvelope.t) :
  map RedEnvelope.ID (Updates cond (set_remaining n amount s) rows)
  = map RedEnvelope.ID rows.
Proof.
  unfold Updates. rewrite map_map. apply map_ext. intros e.
  destruct (cond e); reflexivity.
Qed.

Lemma length_Updates {A : Type} (cond : A -> bool) (set : A -> A) (rows : list A) :
  List.length (Updates cond set rows) = List.length rows.
Proof. apply length_map. Qed.

Lemma same_key_same_row (rows : list RedEnvelope.t) (e e' : RedEnvelope.t) :
  NoDup (map RedEnvelope.ID rows) -> In e rows -> In e' rows ->
  RedEnvelope.ID e = RedEnvelope.ID e' -> e = e'.
Proof.
  induction rows as [|a l IH]; intros Hnd Hin Hin' Hid; [destruct Hin|].
  cbn [map] in Hnd. inversion Hnd as [|x xs Hnotin Hnd']; subst.
  destruct Hin as [->|Hin], Hin' as [->|Hin'].
  - reflexivity.
  - destruct Hnotin. rewrite Hid. apply in_map. exact Hin'.
  - destruct Hnotin. rewrite <- Hid. apply in_map. exact Hin.
  - apply IH; assumption.
Qed.

Lemma accounted_same_claims (st st' : Store) (e : RedEnvelope.t) :
  red_envelope_claims st' = red_envelope_claims st ->
  accounted st e -> accounted st' e.
Proof. unfold accounted. intros ->. trivial. Qed.

Lemma keyed_Updates (st st' : Store) (cond : RedEnvelope.t -> bool) (n : Z)
    (amount : Decimal) (s : RedEnvelopeStatus) :
  red_envelopes st' = Updates cond (set_remaining n amount s) (red_envelopes st) ->
  (forall c, In c (red_envelope_claims st') ->
             In c (red_envelope_claims st)
             \/ (exists e, In e (red_envelopes st)
                           /\ RedEnvelopeClaim.RedEnvelopeID c = RedEnvelope.ID e)
                /\ -2 <= exp (RedEnvelopeClaim.Amount c)) ->
  keyed st -> keyed st'.
Proof.
  intros Henv Hcl (Hnd & Hrange & Hclaims). unfold keyed.
  rewrite Henv, map_ID_Updates, length_Updates.
  split; [exact Hnd|]. split.
  - intros e Hin. apply In_Updates in Hin. destruct Hin as (y & Hy & ->).
    replace (RedEnvelope.ID (if cond y then set_remaining n amount s y else y))
      with (RedEnvelope.ID y) by (destruct (cond y); reflexivity).
    apply Hrange. exact Hy.
  - intros c Hin. destruct (Hcl c Hin) as [Hold|[(e & He & Hid) Hexp]].
    + apply Hclaims. exact Hold.
    + split; [rewrite Hid; apply Hrange; exact He|exact Hexp].
Qed.

(** Every change keeps the books. *)
Lemma Change_ledger (st st' : Store) : Change st st' -> ledger st -> ledger st'.
Proof.
  intros Hch [Hkeyed Hacc].
  destruct Hch as [Henv Hcl _ _
                  |e0 Henv Hactive Hcl Hid Hrem Hcnt Hcount Hexp Hpos
                  |ctx raw env amt Hin Hpass Hamt Henv Hcl
                  |envelope Henv Hcl].
  - split.
    + unfold keyed. rewrite Henv, Hcl. exact Hkeyed.
    + intros e Hin Hs. rewrite Henv in Hin.
      apply (accounted_same_claims st st' e Hcl). apply Hacc; assumption.
  - destruct Hkeyed as (Hnd & Hrange & Hclaims).
    assert (Hlen : Z.of_nat (List.length (red_envelopes st ++ [e0]))
                   = Z.of_nat (List.length (red_envelopes st)) + 1)
      by (rewrite length_app; cbn [List.length]; lia).
    unfold nextID in Hid.
    split.
    + unfold keyed. rewrite Henv, Hcl, Hlen. split; [|split].
      * rewrite map_app. apply NoDup_app; [exact Hnd|repeat constructor; intros []|].
        intros a Ha [<-|[]]. apply in_map_iff in Ha. destruct Ha as (y & Hy & Hin).
        pose proof (Hrange y Hin). lia.
      * intros e Hin. apply in_app_or in Hin. destruct Hin as [Hin|[<-|[]]].
        -- pose proof (Hrange e Hin). lia.
        -- lia.
      * intros c Hin. destruct (Hclaims c Hin) as [Hr He]. split; [lia|exact He].
    + intros e Hin Hs. rewrite Henv in Hin. apply in_app_or in Hin.
      destruct Hin as [Hin|[<-|[]]].
      * apply (accounted_same_claims st st' e Hcl). apply Hacc; assumption.
      * unfold accounted. rewrite Hcl, Hrem. unfold Exponent in Hexp.
        split; [exact Hexp|]. split; [exact Hexp|].
        unfold claimedTotal. rewrite claimed_fold_none.
        -- split; [unfold units at 1; cbn [value NewFromInt]; lia|].
           intros _. pose proof (positive_value _ Hpos).
           unfold units. pose proof (pow10_pos (exp (RedEnvelope.TotalAmount e0) + 2)
                                      ltac:(lia)). nia.
        -- intros c Hc. pose proof (Hclaims c Hc). lia.
  - destruct Hpass as (Hs & _ & Hc & _).
    assert (Henvacc : accounted st env)
      by (apply Hacc; [exact Hin|rewrite Hs; discriminate]).
    destruct Henvacc as (Het & Her & Hsum & Hrand).
    pose proof (claimedAmountOf_exp raw env amt Hamt Her Hc) as Hea.
    assert (Hkeyed' : keyed st').
    { eapply keyed_Updates; [exact Henv| |exact Hkeyed].
      intros c Hcin. rewrite Hcl in Hcin. apply in_app_or in Hcin.
      destruct Hcin as [Hold|[<-|[]]]; [left; exact Hold|right].
      split; [exists env; split; [exact Hin|reflexivity]|exact Hea]. }
    split; [exact Hkeyed'|].
    destruct Hkeyed as (Hnd & Hrange & Hclaims).
    intros e He Hse. rewrite Henv in He. apply In_Updates in He.
    destruct He as (y & Hy & ->).
    destruct (Z.eqb_spec (RedEnvelope.ID y) (RedEnvelope.ID env)) as [Hid|Hid].
    + assert (y = env) by (eapply same_key_same_row; eassumption). subst y.
      unfold accounted, set_remaining; cbn [RedEnvelope.TotalAmount
        RedEnvelope.RemainingAmount RedEnvelope.ID RedEnvelope.Type_].
      rewrite Hcl, claimedTotal_app. cbn [RedEnvelopeClaim.RedEnvelopeID
        RedEnvelopeClaim.Amount]. rewrite Z.eqb_refl.
      split; [exact Het|]. split; [rewrite exp_Sub; lia|].
      pose proof (claimedTotal_exp (RedEnvelope.ID env) (red_envelope_claims st)
                    (fun c Hcin => proj2 (Hclaims c Hcin))) as Hect.
      rewrite units_Add, units_Sub by lia.
      split; [lia|].
      intros Htype. specialize (Hrand Htype).
      pose proof (random_share_within raw env amt Htype Hamt Her ltac:(lia) Hc).
      lia.
    + assert (Hy' : accounted st y).
      { apply Hacc; [exact Hy|]. exact Hse. }
      unfold accounted in *. rewrite Hcl, claimedTotal_app.
      cbn [RedEnvelopeClaim.RedEnvelopeID].
      destruct (Z.eqb_spec (RedEnvelope.ID env) (RedEnvelope.ID y)); [congruence|].
      exact Hy'.
  - split.
    + eapply keyed_Updates; [exact Henv| |exact Hkeyed].
      intros c Hcin. rewrite Hcl in Hcin. left. exact Hcin.
    + intros e He Hse. rewrite Henv in He. apply In_Updates in He.
      destruct He as (y & Hy & ->).
      destruct ((RedEnvelope.ID y =? RedEnvelope.ID envelope)
                && status_eqb (RedEnvelope.Status y) RedEnvelopeStatusActive).
      * cbn in Hse. congruence.
      * apply (accounted_same_claims st st' y Hcl). apply Hacc; assumption.
Qed.

Lemma Changes_ledger (st st' : Store) : Changes st st' -> ledger st -> ledger st'.
Proof.
  intros Hch Hl. induction Hch as [|st' st'' _ IH Hstep]; [exact Hl|].
  eapply Change_ledger; eassumption.
Qed.

Lemma ledger_empty (st : Store) :
  red_envelopes st = [] -> red_envelope_claims st = [] -> ledger st.
Proof.
  intros He Hc. unfold ledger, keyed. rewrite He, Hc. cbn.
  split; [split; [constructor|split; intros ? []]|intros ? []].
Qed.

(** X6.  The part of C1 that the code keeps.  From a store without envelopes or
    claims, after any operations, for every envelope that has not been swept:
    the recorded claims add up to the total less the remaining amount; and a
    Random envelope's remaining amount stays between zero and the total, so
    its claims never exceed the total. *)
Lemma claims_account_for_the_difference (st : Store) (ops : list Op) :
  red_envelopes st = [] -> red_envelope_claims st = [] ->
  forall e, In e (red_envelopes (run ops st)) ->
    RedEnvelope.Status e <> RedEnvelopeStatusExpired ->
    Equal (claimedTotal (RedEnvelope.ID e) (red_envelope_claims (run ops st)))
          (Sub (RedEnvelope.TotalAmount e) (RedEnvelope.RemainingAmount e)) = true
    /\ (RedEnvelope.Type_ e = RedEnvelopeTypeRandom ->
        LessThanOrEqual (NewFromInt 0) (RedEnvelope.RemainingAmount e) = true
        /\ LessThanOrEqual (RedEnvelope.RemainingAmount e)
                           (RedEnvelope.TotalAmount e) = true
        /\ LessThanOrEqual
             (claimedTotal (RedEnvelope.ID e) (red_envelope_claims (run ops st)))
             (RedEnvelope.TotalAmount e) = true).
Proof.
  intros He Hc e Hin Hs.
  destruct (Changes_ledger st (run ops st) (run_Changes ops st) (ledger_empty st He Hc))
    as [(_ & _ & Hclaims) Hacc].
  destruct (Hacc e Hin Hs) as (Het & Her & Hsum & Hrand).
  pose proof (claimedTotal_exp (RedEnvelope.ID e) (red_envelope_claims (run ops st))
                (fun c Hcin => proj2 (Hclaims c Hcin))) as Hect.
  split.
  - unfold Equal. rewrite (Cmp_units 2) by (rewrite ?exp_Sub; lia).
    rewrite units_Sub by lia. rewrite Hsum, Z.compare_refl. reflexivity.
  - intros Htype. specialize (Hrand Htype).
    rewrite !(LessThanOrEqual_units 2) by (cbn [exp NewFromInt]; lia).
    unfold units at 1; cbn [value NewFromInt].
    repeat split; apply Z.leb_le; lia.
Qed.

Lemma claims_account_for_the_difference_witness :
  exists e,
    lockedEnvelope "abc" (run sampleRequests sampleStore) = Some e
    /\ Equal (claimedTotal (RedEnvelope.ID e)
                           (red_envelope_claims (run sampleRequests sampleStore)))
             (Sub (RedEnvelope.TotalAmount e) (RedEnvelope.RemainingAmount e)) = true
    /\ LessThanOrEqual (RedEnvelope.RemainingAmount e) (RedEnvelope.TotalAmount e) = true.
Proof.
  eexists. split; [vm_compute; reflexivity|].
  destruct (claims_account_for_the_difference sampleStore sampleRequests eq_refl eq_refl
              (RedEnvelope.mk 1 "abc" 1 RedEnvelopeTypeRandom (New 1000 (-2))
                 (New 958 (-2)) 2 1 "" RedEnvelopeStatusActive (24 * Hour)))
    as (Hsum & Hrandom).
  - vm_compute. left. reflexivity.
  - discriminate.
  - split; [exact Hsum|]. apply Hrandom. reflexivity.
Defined.

(** ** Where the code departs from its own intent *)

(** C1.  A Fixed envelope of 0.09 for six: each share is
    [round (0.015, 2) = 0.02], so after four claims 0.01 is left and the
    fifth claim still takes 0.02.  The claims then add up to 0.10, more than
    the total, the remaining amount is -0.01, and the last claimant receives
    that negative amount. *)
Theorem fixed_round_up_overdraws :
  let user := fun uid cents => User.mk uid (New cents (-2)) in
  let st0 := mkStore [] [] [user 1 10000; user 2 0; user 3 0; user 4 0; user 5 0;
                            user 6 0; user 7 0] [] 0 in
  let ctx := fun uid => mkContext true uid (fun _ => true) 0 in
  let created :=
    fst (Create (ctx 1)
           (CreateRequest.mk RedEnvelopeTypeFixed (New 9 (-2)) 6 "" "123456")
           "abc" st0) in
  let claim := fun uid st => Claim (ctx uid) (mkClaimRequest "abc") 0 st in
  let st5 := run [OpClaim (ctx 2) (mkClaimRequest "abc") 0;
                  OpClaim (ctx 3) (mkClaimRequest "abc") 0;
                  OpClaim (ctx 4) (mkClaimRequest "abc") 0;
                  OpClaim (ctx 5) (mkClaimRequest "abc") 0;
                  OpClaim (ctx 6) (mkClaimRequest "abc") 0] created in
  option_map RedEnvelope.TotalAmount (lockedEnvelope "abc" st5) = Some (New 9 (-2))
  /\ map RedEnvelopeClaim.Amount (red_envelope_claims st5)
     = [New 2 (-2); New 2 (-2); New 2 (-2); New 2 (-2); New 2 (-2)]
  /\ claimedTotal 1 (red_envelope_claims st5) = New 10 (-2)
  /\ GreaterThan (claimedTotal 1 (red_envelope_claims st5)) (New 9 (-2)) = true
  /\ option_map RedEnvelope.RemainingAmount (lockedEnvelope "abc" st5)
     = Some (New (-1) (-2))
  /\ option_map RedEnvelope.Status (lockedEnvelope "abc" st5)
     = Some RedEnvelopeStatusActive
  /\ responseAmount (snd (claim 7 st5)) = Some (New (-1) (-2))
  /\ balanceOf 7 (fst (claim 7 st5)) = Some (New (-1) (-2)).
Proof. vm_compute. repeat split; reflexivity. Qed.

(** C3.  The refund transaction re-checks the status only in the update of
    the envelope row; the credit uses the row as the query read it.  Here the
    query at time 200 reads an active envelope with 5.00 left; a claim that
    read its clock at 99 commits next and finishes the envelope; the refund
    transaction then finds no active row, leaves the envelope Finished, and
    still credits the creator 5.00 and journals a refund.  Likewise two sweeps
    that both queried before either refunded pay the creator twice. *)
Theorem refund_credits_without_active_row :
  let redEnvelope :=
    RedEnvelope.mk 1 "abc" 1 RedEnvelopeTypeRandom (New 1000 (-2)) (New 500 (-2))
                   2 1 "" RedEnvelopeStatusActive 100 in
  let st := mkStore [redEnvelope] [] [User.mk 1 (New 0 (-2)); User.mk 2 (New 0 (-2))] [] 0 in
  let queried := expiredEnvelopes 200 st in
  let claimed :=
    fst (Claim (mkContext true 2 (fun _ => true) 99) (mkClaimRequest "abc") 0 st) in
  let swept := refundAll 200 queried claimed in
  let twice := refundAll 200 queried (refundAll 200 queried st) in
  queried = [redEnvelope]
  /\ option_map RedEnvelope.Status (lockedEnvelope "abc" claimed)
     = Some RedEnvelopeStatusFinished
  /\ balanceOf 2 claimed = Some (New 500 (-2))
  /\ option_map RedEnvelope.Status (lockedEnvelope "abc" swept)
     = Some RedEnvelopeStatusFinished
  /\ balanceOf 1 claimed = Some (New 0 (-2))
  /\ balanceOf 1 swept = Some (New 500 (-2))
  /\ map Order.Type_ (orders swept)
     = [OrderTypeRedEnvelopeReceive; OrderTypeLiteral "red_envelope_refund"]
  /\ option_map RedEnvelope.Status
       (lockedEnvelope "abc" (refundAll 200 queried st))
     = Some RedEnvelopeStatusExpired
  /\ balanceOf 1 (refundAll 200 queried st) = Some (New 500 (-2))
  /\ balanceOf 1 twice = Some (New 1000 (-2)).
Proof. vm_compute. repeat split; reflexivity. Qed.

(** The part of C3 that holds: a sweep whose query finds nothing, as when
    every overdue envelope is already Expired, changes nothing, and after a
    sweep the same query finds nothing. *)
Lemma sweep_nothing_to_do (now : Time) (st : Store) :
  (forall e, In e (red_envelopes st) ->
             RedEnvelope.ExpiresAt e < now ->
             RedEnvelope.Status e <> RedEnvelopeStatusActive) ->
  refundExpiredRedEnvelopes now st = st.
Proof.
  intros Hall. unfold refundExpiredRedEnvelopes, expiredEnvelopes.
  replace (filter _ (red_envelopes st)) with (@nil RedEnvelope.t); [reflexivity|].
  symmetry. induction (red_envelopes st) as [|e l IH]; [reflexivity|].
  cbn [filter].
  destruct (status_eqb (RedEnvelope.Status e) RedEnvelopeStatusActive) eqn:Hs.
  - destruct (Z.ltb_spec (RedEnvelope.ExpiresAt e) now) as [Ht|Ht].
    + apply status_eqb_eq in Hs. destruct (Hall e (or_introl eq_refl) Ht Hs).
    + cbn [andb]. apply IH. intros e' Hin. apply Hall. right. exact Hin.
  - cbn [andb]. apply IH. intros e' Hin. apply Hall. right. exact Hin.
Qed.

(** Whatever the store holds, a refund transaction run on a row that no
    longer has an active counterpart rewrites no envelope and still pays the
    creator what the stale row says is left. *)
Lemma refundOne_stale_row (now : Time) (envelope : RedEnvelope.t) (st : Store) :
  (forall e, In e (red_envelopes st) ->
             RedEnvelope.ID e = RedEnvelope.ID envelope ->
             RedEnvelope.Status e <> RedEnvelopeStatusActive) ->
  IsPositive (RedEnvelope.RemainingAmount envelope) = true ->
  red_envelopes (refundOne now envelope st) = red_envelopes st
  /\ users (refundOne now envelope st)
     = users (add_balance (RedEnvelope.CreatorID envelope)
                          (RedEnvelope.RemainingAmount envelope) st)
  /\ orders (refundOne now envelope st)
     = orders st
       ++ [Order.mk (RedEnvelope.CreatorID envelope) (RedEnvelope.CreatorID envelope)
                    (RedEnvelope.RemainingAmount envelope)
                    (OrderTypeLiteral "red_envelope_refund") now].
Proof.
  intros Hstale Hpos. unfold refundOne, Transaction, refundTx. rewrite Hpos.
  cbn [fst]. cbn. repeat split.
  unfold Updates. rewrite <- (map_id (red_envelopes st)) at 2.
  apply map_ext_in. intros e Hin.
  destruct (Z.eqb_spec (RedEnvelope.ID e) (RedEnvelope.ID envelope)) as [Hid|];
    [|reflexivity].
  cbn [andb]. pose proof (Hstale e Hin Hid) as Hs.
  apply status_eqb_neq in Hs. rewrite Hs. reflexivity.
Qed.

(** * Further properties of the engine *)

(** ** One claim row per envelope and user *)

Lemma hasClaim_false (envelopeID userID : Z) (rows : list RedEnvelopeClaim.t) :
  hasClaim envelopeID userID rows = false ->
  ~ In (envelopeID, userID) (map claimKey rows).
Proof.
  intros Hno Hin. apply in_map_iff in Hin. destruct Hin as (c & Hkey & Hc).
  unfold claimKey in Hkey. injection Hkey as H1 H2.
  assert (Hyes : hasClaim envelopeID userID rows = true)
    by (apply hasClaim_true; exists c; repeat split; assumption).
  congruence.
Qed.

Lemma NoDup_snoc {A : Type} (l : list A) (x : A) :
  NoDup l -> ~ In x l -> NoDup (l ++ [x]).
Proof.
  intros Hl Hx. apply NoDup_app; [exact Hl|repeat constructor; intros []|].
  intros a Ha [<-|[]]. exact (Hx Ha).
Qed.

Lemma Change_claimKeys (st st' : Store) :
  Change st st' ->
  NoDup (map claimKey (red_envelope_claims st)) ->
  NoDup (map claimKey (red_envelope_claims st')).
Proof.
  intros Hch Hnd.
  destruct Hch as [_ Hcl _ _|e0 _ _ Hcl _ _ _ _ _ _|ctx raw env amt _ Hpass _ _ Hcl
                  |envelope _ Hcl]; rewrite Hcl; try exact Hnd.
  rewrite map_app. cbn [map claimKey RedEnvelopeClaim.RedEnvelopeID
                         RedEnvelopeClaim.UserID].
  apply NoDup_snoc; [exact Hnd|].
  apply hasClaim_false. apply Hpass.
Qed.

(** X1.  Whatever the requests, a user never holds two claim rows on one
    envelope. *)
Theorem no_double_claim (st : Store) (ops : list Op) :
  NoDup (map claimKey (red_envelope_claims st)) ->
  NoDup (map claimKey (red_envelope_claims (run ops st))).
Proof.
  intros Hnd. pose proof (run_Changes ops st) as Hch.
  induction Hch as [|st' st'' _ IH Hstep]; [exact Hnd|].
  eapply Change_claimKeys; eassumption.
Qed.

Lemma no_double_claim_witness :
  NoDup (map claimKey (red_envelope_claims sampleStore))
  /\ NoDup (map claimKey (red_envelope_claims (run sampleRequests sampleStore))).
Proof.
  split; [constructor|].
  apply (no_double_claim sampleStore sampleRequests). constructor.
Defined.

(** ** Shares left and claim rows *)

Lemma claimCount_app (envelopeID : Z) (rows : list RedEnvelopeClaim.t)
    (c : RedEnvelopeClaim.t) :
  claimCount envelopeID (rows ++ [c])
  = claimCount envelopeID rows
    + (if RedEnvelopeClaim.RedEnvelopeID c =? envelopeID then 1 else 0).
Proof.
  unfold claimCount, claimsOf. rewrite filter_app, length_app. cbn [filter].
  destruct (_ =? _); cbn [List.length]; lia.
Qed.

Lemma claimCount_none (envelopeID : Z) (rows : list RedEnvelopeClaim.t) :
  (forall c, In c rows -> RedEnvelopeClaim.RedEnvelopeID c <> envelopeID) ->
  claimCount envelopeID rows = 0.
Proof.
  intros Hall. unfold claimCount, claimsOf.
  replace (filter _ rows) with (@nil RedEnvelopeClaim.t); [reflexivity|].
  symmetry. induction rows as [|c l IH]; [reflexivity|]. cbn [filter].
  destruct (Z.eqb_spec (RedEnvelopeClaim.RedEnvelopeID c) envelopeID) as [Heq|_].
  - destruct (Hall c (or_introl eq_refl) Heq).
  - apply IH. intros c' Hin. apply Hall. right. exact Hin.
Qed.

Lemma counted_same_claims (st st' : Store) (e : RedEnvelope.t) :
  red_envelope_claims st' = red_envelope_claims st -> counted st e -> counted st' e.
Proof. unfold counted. intros ->. trivial. Qed.

Lemma Change_counted (st st' : Store) :
  Change st st' -> keyed st ->
  (forall e, In e (red_envelopes st) -> counted st e) ->
  forall e, In e (red_envelopes st') -> counted st' e.
Proof.
  intros Hch (Hnd & Hrange & Hclaims) Hall e Hin.
  destruct Hch as [Henv Hcl _ _
                  |e0 Henv Hactive Hcl Hid Hrem Hcnt Hcount Hexp Hpos
                  |ctx raw env amt Henvin Hpass Hamt Henv Hcl
                  |envelope Henv Hcl]; rewrite Henv in Hin.
  - apply (counted_same_claims st st' e Hcl). apply Hall. exact Hin.
  - apply in_app_or in Hin. destruct Hin as [Hin|[<-|[]]].
    + apply (counted_same_claims st st' e Hcl). apply Hall. exact Hin.
    + unfold counted. rewrite Hcl, Hactive, Hcnt.
      rewrite claimCount_none.
      * repeat split; try lia; discriminate.
      * intros c Hc. pose proof (Hclaims c Hc). unfold nextID in Hid. lia.
  - apply In_Updates in Hin. destruct Hin as (y & Hy & ->).
    pose proof (Hall y Hy) as Hcy.
    destruct (Z.eqb_spec (RedEnvelope.ID y) (RedEnvelope.ID env)) as [Hid|Hid].
    + assert (y = env) by (eapply same_key_same_row; eassumption). subst y.
      destruct Hpass as (Hs & _ & Hc & _).
      destruct Hcy as (H1 & H2 & H3 & H4 & H5).
      specialize (H3 ltac:(rewrite Hs; discriminate)). specialize (H4 Hs).
      unfold counted, set_remaining; cbn [RedEnvelope.TotalCount
        RedEnvelope.RemainingCount RedEnvelope.ID RedEnvelope.Status].
      rewrite Hcl, claimCount_app. cbn [RedEnvelopeClaim.RedEnvelopeID].
      rewrite Z.eqb_refl.
      destruct (Z.leb_spec (RedEnvelope.RemainingCount env - 1) 0).
      * repeat split; try lia; discriminate.
      * rewrite Hs. repeat split; try lia; discriminate.
    + unfold counted in *. rewrite Hcl, claimCount_app.
      cbn [RedEnvelopeClaim.RedEnvelopeID].
      destruct (Z.eqb_spec (RedEnvelope.ID env) (RedEnvelope.ID y)); [congruence|].
      rewrite Z.add_0_r. exact Hcy.
  - apply In_Updates in Hin. destruct Hin as (y & Hy & ->).
    pose proof (Hall y Hy) as Hcy.
    destruct ((RedEnvelope.ID y =? RedEnvelope.ID envelope)
              && status_eqb (RedEnvelope.Status y) RedEnvelopeStatusActive).
    + destruct Hcy as (H1 & H2 & _).
      unfold counted, set_remaining; cbn [RedEnvelope.TotalCount
        RedEnvelope.RemainingCount RedEnvelope.ID RedEnvelope.Status].
      rewrite Hcl. repeat split; try assumption; try congruence; discriminate.
    + apply (counted_same_claims st st' y Hcl). exact Hcy.
Qed.

(** The bookkeeping of amounts and of shares together. *)
Lemma Changes_books (st st' : Store) :
  Changes st st' ->
  ledger st /\ (forall e, In e (red_envelopes st) -> counted st e) ->
  ledger st' /\ (forall e, In e (red_envelopes st') -> counted st' e).
Proof.
  intros Hch Hinv. induction Hch as [|st' st'' _ IH Hstep]; [exact Hinv|].
  destruct IH as [Hl Hc]. split.
  - eapply Change_ledger; eassumption.
  - eapply Change_counted; [exact Hstep|apply Hl|exact Hc].
Qed.

Lemma books_empty (st : Store) :
  red_envelopes st = [] -> red_envelope_claims st = [] ->
  ledger st /\ (forall e, In e (red_envelopes st) -> counted st e).
Proof.
  intros He Hc. split; [apply ledger_empty; assumption|].
  rewrite He. intros e [].
Qed.

(** X2.  Starting without envelopes or claims, after any requests: an envelope
    never has more claim rows than shares; while it is not swept the claim
    rows number the shares taken; an Active envelope has a share left and a
    Finished one has none. *)
Theorem shares_match_claims (st : Store) (ops : list Op) :
  red_envelopes st = [] -> red_envelope_claims st = [] ->
  forall e, In e (red_envelopes (run ops st)) ->
    claimCount (RedEnvelope.ID e) (red_envelope_claims (run ops st))
      <= RedEnvelope.TotalCount e
    /\ (RedEnvelope.Status e <> RedEnvelopeStatusExpired ->
        claimCount (RedEnvelope.ID e) (red_envelope_claims (run ops st))
        = RedEnvelope.TotalCount e - RedEnvelope.RemainingCount e)
    /\ (RedEnvelope.Status e = RedEnvelopeStatusActive ->
        1 <= RedEnvelope.RemainingCount e <= RedEnvelope.TotalCount e)
    /\ (RedEnvelope.Status e = RedEnvelopeStatusFinished ->
        RedEnvelope.RemainingCount e = 0).
Proof.
  intros He Hc e Hin.
  destruct (Changes_books st (run ops st) (run_Changes ops st) (books_empty st He Hc))
    as [_ Hcounted].
  destruct (Hcounted e Hin) as (_ & H2 & H3 & H4 & H5).
  repeat split; try assumption; apply H4; assumption.
Qed.

Lemma shares_match_claims_witness :
  exists e,
    lockedEnvelope "xyz" (run sampleRequests sampleStore) = Some e
    /\ claimCount (RedEnvelope.ID e) (red_envelope_claims (run sampleRequests sampleStore))
       = RedEnvelope.TotalCount e - RedEnvelope.RemainingCount e
    /\ 1 <= RedEnvelope.RemainingCount e <= RedEnvelope.TotalCount e.
Proof.
  eexists. split; [vm_compute; reflexivity|].
  destruct (shares_match_claims sampleStore sampleRequests eq_refl eq_refl
              (RedEnvelope.mk 2 "xyz" 1 RedEnvelopeTypeFixed (New 300 (-2))
                 (New 200 (-2)) 3 2 "" RedEnvelopeStatusActive (2 + 24 * Hour)))
    as (_ & Hrows & Hleft & _).
  - vm_compute. right. left. reflexivity.
  - split; [apply Hrows; discriminate|apply Hleft; reflexivity].
Defined.

(** ** Rows only move forward *)

Lemma evolves_refl (e : RedEnvelope.t) : evolves e e.
Proof. unfold evolves, sameIdentity. repeat split; lia. Qed.

Lemma evolves_trans (e e' e'' : RedEnvelope.t) :
  evolves e e' -> evolves e' e'' -> evolves e e''.
Proof.
  unfold evolves, sameIdentity.
  intros ((A1 & A2 & A3 & A4 & A5 & A6 & A7 & A8) & Ac & Aterm)
         ((B1 & B2 & B3 & B4 & B5 & B6 & B7 & B8) & Bc & Bterm).
  repeat split; try congruence; try lia.
  intros Hs. specialize (Aterm Hs). subst e'. apply Bterm. exact Hs.
Qed.

Lemma Forall2_evolves_refl (l : list RedEnvelope.t) : Forall2 evolves l l.
Proof. induction l; constructor; [apply evolves_refl|assumption]. Qed.

Lemma Forall2_evolves_trans (l l' l'' : list RedEnvelope.t) :
  Forall2 evolves l l' -> Forall2 evolves l' l'' -> Forall2 evolves l l''.
Proof.
  intros H. revert l''. induction H as [|x y l l' Hxy _ IH]; intros l'' H'.
  - inversion H'. constructor.
  - inversion H' as [|y' z l1 l2 Hyz Hrest]; subst. constructor.
    + eapply evolves_trans; eassumption.
    + apply IH. exact Hrest.
Qed.

Lemma Forall2_Updates (cond : RedEnvelope.t -> bool) (set : RedEnvelope.t -> RedEnvelope.t)
    (l : list RedEnvelope.t) :
  (forall y, In y l -> evolves y (if cond y then set y else y)) ->
  Forall2 evolves l (Updates cond set l).
Proof.
  induction l as [|a l IH]; intros H; cbn [Updates map]; constructor.
  - apply H. left. reflexivity.
  - apply IH. intros y Hy. apply H. right. exact Hy.
Qed.

Lemma Change_evolves (st st' : Store) :
  Change st st' -> keyed st ->
  (forall e, In e (red_envelopes st) -> counted st e) ->
  exists kept more,
    red_envelopes st' = kept ++ more /\ Forall2 evolves (red_envelopes st) kept.
Proof.
  intros Hch (Hnd & _ & _) Hall.
  destruct Hch as [Henv _ _ _
                  |e0 Henv _ _ _ _ _ _ _ _
                  |ctx raw env amt Henvin Hpass _ Henv _
                  |envelope Henv _]; rewrite Henv.
  - exists (red_envelopes st), []. rewrite app_nil_r.
    split; [reflexivity|apply Forall2_evolves_refl].
  - exists (red_envelopes st), [e0]. split; [reflexivity|apply Forall2_evolves_refl].
  - eexists. exists []. rewrite app_nil_r. split; [reflexivity|].
    apply Forall2_Updates. intros y Hy.
    destruct (Z.eqb_spec (RedEnvelope.ID y) (RedEnvelope.ID env)) as [Hid|_];
      [|apply evolves_refl].
    assert (y = env) by (eapply same_key_same_row; eassumption). subst y.
    destruct Hpass as (Hs & _).
    unfold evolves, sameIdentity, set_remaining; cbn.
    repeat split; try lia. intros Hne. contradiction.
  - eexists. exists []. rewrite app_nil_r. split; [reflexivity|].
    apply Forall2_Updates. intros y Hy.
    destruct (Z.eqb_spec (RedEnvelope.ID y) (RedEnvelope.ID envelope)) as [Hid|_];
      [|apply evolves_refl]. cbn [andb].
    destruct (status_eqb (RedEnvelope.Status y) RedEnvelopeStatusActive) eqn:Hs;
      [|apply evolves_refl].
    apply status_eqb_eq in Hs.
    destruct (Hall y Hy) as (_ & _ & _ & Hact & _). specialize (Hact Hs).
    unfold evolves, sameIdentity, set_remaining; cbn.
    repeat split; try lia. intros Hne. contradiction.
Qed.

Lemma Changes_evolves (st st' : Store) :
  Changes st st' ->
  ledger st -> (forall e, In e (red_envelopes st) -> counted st e) ->
  exists kept more,
    red_envelopes st' = kept ++ more /\ Forall2 evolves (red_envelopes st) kept.
Proof.
  intros Hch Hl Hc. induction Hch as [|st' st'' Hprev IH Hstep].
  - exists (red_envelopes st), []. rewrite app_nil_r.
    split; [reflexivity|apply Forall2_evolves_refl].
  - destruct IH as (k1 & m1 & Heq1 & Hf1).
    destruct (Changes_books st st' Hprev (conj Hl Hc)) as [Hl' Hc'].
    destruct (Change_evolves st' st'' Hstep (proj1 Hl') Hc')
      as (k2 & m2 & Heq2 & Hf2).
    rewrite Heq1 in Hf2. apply Forall2_app_inv_l in Hf2.
    destruct Hf2 as (k2a & k2b & Hfa & _ & ->).
    exists k2a, (k2b ++ m2). split; [rewrite Heq2, app_assoc; reflexivity|].
    eapply Forall2_evolves_trans; eassumption.
Qed.

(** X3.  Envelope rows are never removed or reordered, later requests only
    append rows; a row keeps its key, code, creator, type, total amount,
    total count, greeting and expiry; its shares left never grow; and once it
    is Finished or Expired it is never written again. *)
Theorem envelopes_only_move_forward (st : Store) (ops later : list Op) :
  red_envelopes st = [] -> red_envelope_claims st = [] ->
  exists kept more,
    red_envelopes (run later (run ops st)) = kept ++ more
    /\ Forall2 evolves (red_envelopes (run ops st)) kept.
Proof.
  intros He Hc.
  destruct (Changes_books st (run ops st) (run_Changes ops st) (books_empty st He Hc))
    as [Hl Hcounted].
  apply Changes_evolves; [apply run_Changes|exact Hl|exact Hcounted].
Qed.

Lemma envelopes_only_move_forward_witness :
  exists kept more,
    red_envelopes (run sampleSweep (run sampleRequests sampleStore)) = kept ++ more
    /\ Forall2 evolves (red_envelopes (run sampleRequests sampleStore)) kept.
Proof.
  exact (envelopes_only_move_forward sampleStore sampleRequests sampleSweep
           eq_refl eq_refl).
Defined.

(** ** Funds *)

Lemma sumZ_app {A : Type} (f : A -> Z) (l l' : list A) :
  sumZ f (l ++ l') = sumZ f l + sumZ f l'.
Proof. induction l as [|a l IH]; cbn [sumZ fold_right app] in *; [reflexivity|].
  fold (sumZ f (l ++ l')). fold (sumZ f l). lia. Qed.

Lemma sumZ_cons {A : Type} (f : A -> Z) (a : A) (l : list A) :
  sumZ f (a :: l) = f a + sumZ f l.
Proof. reflexivity. Qed.

Lemma sumZ_zero {A : Type} (h : A -> Z) (l : list A) :
  (forall y, In y l -> h y = 0) -> sumZ h l = 0.
Proof.
  induction l as [|a l IH]; intros H; [reflexivity|]. rewrite sumZ_cons.
  rewrite (H a (or_introl eq_refl)), IH; [reflexivity|].
  intros y Hy. apply H. right. exact Hy.
Qed.

Lemma sumZ_single {A : Type} (h : A -> Z) (l : list A) (x : A) :
  NoDup l -> In x l -> (forall y, In y l -> y <> x -> h y = 0) -> sumZ h l = h x.
Proof.
  induction l as [|a l IH]; intros Hnd Hin H; [destruct Hin|].
  inversion Hnd as [|a' l' Hnotin Hnd']; subst. rewrite sumZ_cons.
  destruct Hin as [->|Hin].
  - rewrite sumZ_zero; [lia|]. intros y Hy. apply H; [right; exact Hy|].
    intros ->. contradiction.
  - rewrite (H a (or_introl eq_refl)); [|intros ->; contradiction].
    rewrite IH; [lia|exact Hnd'|exact Hin|].
    intros y Hy. apply H. right. exact Hy.
Qed.

(** What an update adds to a sum. *)
Lemma sumZ_Updates {A : Type} (f : A -> Z) (cond : A -> bool) (set : A -> A)
    (l : list A) :
  sumZ f (Updates cond set l)
  = sumZ f l + sumZ (fun y => if cond y then f (set y) - f y else 0) l.
Proof.
  induction l as [|a l IH]; [reflexivity|].
  cbn [Updates map]. fold (Updates cond set l). rewrite !sumZ_cons, IH.
  destruct (cond a); lia.
Qed.

Lemma Updates_nothing {A : Type} (cond : A -> bool) (set : A -> A) (l : list A) :
  (forall y, In y l -> cond y = false) -> Updates cond set l = l.
Proof.
  intros H. unfold Updates. rewrite <- (map_id l) at 2. apply map_ext_in.
  intros y Hy. rewrite (H y Hy). reflexivity.
Qed.

Lemma same_user_same_row (rows : list User.t) (u u' : User.t) :
  NoDup (map User.ID rows) -> In u rows -> In u' rows ->
  User.ID u = User.ID u' -> u = u'.
Proof.
  induction rows as [|a l IH]; intros Hnd Hin Hin' Hid; [destruct Hin|].
  cbn [map] in Hnd. inversion Hnd as [|x xs Hnotin Hnd']; subst.
  destruct Hin as [->|Hin], Hin' as [->|Hin'].
  - reflexivity.
  - destruct Hnotin. rewrite Hid. apply in_map. exact Hin'.
  - destruct Hnotin. rewrite <- Hid. apply in_map. exact Hin.
  - apply IH; assumption.
Qed.

(** Crediting (or debiting) one account. *)
Lemma balance_update (uid : Z) (change : Decimal -> Decimal) (delta : Z)
    (rows : list User.t) :
  NoDup (map User.ID rows) ->
  (forall u, In u rows -> -2 <= exp (User.AvailableBalance u)) ->
  (forall b, -2 <= exp b -> -2 <= exp (change b) /\ units 2 (change b) = units 2 b + delta) ->
  let rows' := Updates (fun u => User.ID u =? uid)
                       (fun u => User.mk (User.ID u) (change (User.AvailableBalance u)))
                       rows in
  map User.ID rows' = map User.ID rows
  /\ (forall u, In u rows' -> -2 <= exp (User.AvailableBalance u))
  /\ sumZ (fun u => units 2 (User.AvailableBalance u)) rows'
     = sumZ (fun u => units 2 (User.AvailableBalance u)) rows
       + (if existsb (fun u => User.ID u =? uid) rows then delta else 0).
Proof.
  intros Hnd Hexp Hchange rows'. subst rows'. split; [|split].
  - unfold Updates. rewrite map_map. apply map_ext. intros u.
    destruct (_ =? _); reflexivity.
  - intros u Hu. apply In_Updates in Hu. destruct Hu as (y & Hy & ->).
    destruct (_ =? _); [|apply Hexp; exact Hy].
    cbn [User.AvailableBalance]. apply Hchange, Hexp, Hy.
  - rewrite sumZ_Updates. f_equal.
    destruct (existsb (fun u => User.ID u =? uid) rows) eqn:Hex.
    + apply existsb_exists in Hex. destruct Hex as (x & Hx & Hid).
      rewrite (sumZ_single
                 (fun y => if User.ID y =? uid
                           then units 2 (User.AvailableBalance
                                           (User.mk (User.ID y)
                                              (change (User.AvailableBalance y))))
                                - units 2 (User.AvailableBalance y)
                           else 0) rows x).
      * rewrite Hid. cbn [User.AvailableBalance].
        destruct (Hchange (User.AvailableBalance x) (Hexp x Hx)) as [_ ->]. lia.
      * apply (NoDup_map_inv User.ID). exact Hnd.
      * exact Hx.
      * intros y Hy Hne. destruct (Z.eqb_spec (User.ID y) uid) as [Hyid|]; [|reflexivity].
        destruct Hne. apply Z.eqb_eq in Hid.
        eapply same_user_same_row; try eassumption. congruence.
    + apply sumZ_zero. intros y Hy.
      destruct (Z.eqb_spec (User.ID y) uid) as [Hyid|]; [|reflexivity].
      assert (Hc : existsb (fun u => User.ID u =? uid) rows = true).
      { apply existsb_exists. exists y. split; [exact Hy|]. apply Z.eqb_eq. exact Hyid. }
      congruence.
Qed.

Lemma known_user (uid : Z) (rows : list User.t) :
  In uid (map User.ID rows) -> existsb (fun u => User.ID u =? uid) rows = true.
Proof.
  intros Hin. apply in_map_iff in Hin. destruct Hin as (u & Hid & Hu).
  apply existsb_exists. exists u. split; [exact Hu|]. apply Z.eqb_eq. exact Hid.
Qed.

(** Rewriting the one row that carries a key. *)
Lemma remaining_update (rows : list RedEnvelope.t) (x : RedEnvelope.t)
    (cond : RedEnvelope.t -> bool) (n : Z) (amount : Decimal) (s : RedEnvelopeStatus) :
  NoDup (map RedEnvelope.ID rows) -> In x rows -> cond x = true ->
  (forall y, In y rows -> cond y = true -> RedEnvelope.ID y = RedEnvelope.ID x) ->
  sumZ (fun e => units 2 (RedEnvelope.RemainingAmount e))
       (Updates cond (set_remaining n amount s) rows)
  = sumZ (fun e => units 2 (RedEnvelope.RemainingAmount e)) rows
    - units 2 (RedEnvelope.RemainingAmount x) + units 2 amount.
Proof.
  intros Hnd Hx Hcx Hkey. rewrite sumZ_Updates.
  rewrite (sumZ_single
             (fun y => if cond y
                       then units 2 (RedEnvelope.RemainingAmount
                                       (set_remaining n amount s y))
                            - units 2 (RedEnvelope.RemainingAmount y)
                       else 0) rows x).
  - rewrite Hcx. cbn [set_remaining RedEnvelope.RemainingAmount]. lia.
  - apply (NoDup_map_inv RedEnvelope.ID). exact Hnd.
  - exact Hx.
  - intros y Hy Hne. destruct (cond y) eqn:Hcy; [|reflexivity].
    destruct Hne. eapply same_key_same_row; try eassumption. apply Hkey; assumption.
Qed.

(** What a call of [Create] does: it is rejected and the tables stay, or the
    caller's row is found with enough balance, is debited the total, and the
    envelope and the journal entry are appended. *)
Lemma Create_inv (ctx : Context) (req : CreateRequest.t) (code : string) (st : Store) :
  (exists f,
     snd (Create ctx req code st) = Err f
     /\ red_envelopes (fst (Create ctx req code st)) = red_envelopes st
     /\ red_envelope_claims (fst (Create ctx req code st)) = red_envelope_claims st
     /\ users (fst (Create ctx req code st)) = users st
     /\ orders (fst (Create ctx req code st)) = orders st)
  \/ (exists user,
        First (fun u => User.ID u =? currentUser ctx) (users st) = Some user
        /\ LessThan (User.AvailableBalance user) (CreateRequest.TotalAmount req) = false
        /\ LessThanOrEqual (CreateRequest.TotalAmount req) Zero = false
        /\ -2 <= Exponent (CreateRequest.TotalAmount req)
        /\ 1 <= CreateRequest.TotalCount req
        /\ IsRedEnvelopeEnabled ctx = true
        /\ VerifyPayKey ctx (CreateRequest.PayKey req) = true
        /\ Create ctx req code st
           = (mkStore
                (red_envelopes st
                 ++ [RedEnvelope.mk (nextID (red_envelopes st)) code (User.ID user)
                       (CreateRequest.Type_ req) (CreateRequest.TotalAmount req)
                       (CreateRequest.TotalAmount req) (CreateRequest.TotalCount req)
                       (CreateRequest.TotalCount req) (CreateRequest.Greeting req)
                       RedEnvelopeStatusActive (Now ctx + 24 * Hour)])
                (red_envelope_claims st)
                (Updates (fun u => User.ID u =? User.ID user)
                         (fun u => User.mk (User.ID u)
                                     (Sub (User.AvailableBalance u)
                                          (CreateRequest.TotalAmount req)))
                         (users st))
                (orders st
                 ++ [Order.mk (User.ID user) (User.ID user)
                              (CreateRequest.TotalAmount req)
                              OrderTypeRedEnvelopeSend (Now ctx)])
                (S (transactions st)),
              OK (mkCreateResponse (nextID (red_envelopes st)) code))).
Proof.
  unfold Create.
  destruct (IsRedEnvelopeEnabled ctx) eqn:Hon; cbn [negb];
    [|left; eexists; repeat split; reflexivity].
  destruct (ShouldBindJSON_Create req) eqn:Hbind; cbn [negb];
    [|left; eexists; repeat split; reflexivity].
  destruct (LessThanOrEqual (CreateRequest.TotalAmount req) Zero) eqn:Hpos;
    [left; eexists; repeat split; reflexivity|].
  destruct (Z.ltb_spec (Exponent (CreateRequest.TotalAmount req)) (-2)) as [|Hexp];
    [left; eexists; repeat split; reflexivity|].
  pose proof (bound_count req Hbind) as Hcount.
  set (perShare := match CreateRequest.Type_ req with
                   | RedEnvelopeTypeFixed => _
                   | RedEnvelopeTypeRandom => _
                   end).
  destruct perShare as [[]|f] eqn:Hper; [|left; eexists; repeat split; reflexivity].
  destruct (VerifyPayKey ctx (CreateRequest.PayKey req)) eqn:Hkey; cbn [negb];
    [|left; eexists; repeat split; reflexivity].
  unfold Transaction, createTx.
  change (users (begin st)) with (users st).
  destruct (First (fun u => User.ID u =? currentUser ctx) (users st)) as [user|] eqn:Hu;
    [|left; eexists; repeat split; reflexivity].
  destruct (LessThan (User.AvailableBalance user) (CreateRequest.TotalAmount req)) eqn:Hbal;
    [left; eexists; repeat split; reflexivity|].
  right. exists user. repeat split; try assumption; reflexivity.
Qed.

Lemma housekeeping_tables (st st' : Store) :
  red_envelopes st' = red_envelopes st ->
  red_envelope_claims st' = red_envelope_claims st ->
  users st' = users st ->
  housekeeping st -> housekeeping st'.
Proof.
  unfold housekeeping, ledger, keyed, accounts, accounted.
  intros -> -> ->. trivial.
Qed.

Lemma funds_tables (st st' : Store) :
  red_envelopes st' = red_envelopes st -> users st' = users st ->
  funds st' = funds st.
Proof. unfold funds. intros -> ->. reflexivity. Qed.

Lemma Sub_cents (b d : Decimal) :
  -2 <= exp d -> -2 <= exp b ->
  -2 <= exp (Sub b d) /\ units 2 (Sub b d) = units 2 b + - units 2 d.
Proof. intros Hd Hb. rewrite exp_Sub, units_Sub by lia. lia. Qed.

Lemma Add_cents (b d : Decimal) :
  -2 <= exp d -> -2 <= exp b ->
  -2 <= exp (Add b d) /\ units 2 (Add b d) = units 2 b + units 2 d.
Proof. intros Hd Hb. rewrite exp_Add, units_Add by lia. lia. Qed.

(** Creating an envelope moves money from the balance into the envelope. *)
Lemma Create_funds (ctx : Context) (req : CreateRequest.t) (code : string) (st : Store) :
  housekeeping st ->
  housekeeping (fst (Create ctx req code st))
  /\ funds (fst (Create ctx req code st)) = funds st
  /\ map User.ID (users (fst (Create ctx req code st))) = map User.ID (users st).
Proof.
  intros Hk.
  destruct (Create_inv ctx req code st)
    as [(f & _ & H1 & H2 & H3 & _)
       |(user & Hu & Hbal & Hpos & Hexp & Hcount & _ & _ & Heq)].
  - split; [apply (housekeeping_tables st); assumption|].
    split; [apply funds_tables; assumption|rewrite H3; reflexivity].
  - pose proof (Create_Change ctx req code st) as Hch.
    rewrite Heq in *. cbn [fst] in *.
    destruct Hk as (Hl & (Hnd & Hcents) & Hrows).
    unfold First in Hu. apply find_some in Hu. destruct Hu as [Huin Huid].
    unfold Exponent in Hexp.
    destruct (balance_update (User.ID user)
                (fun b => Sub b (CreateRequest.TotalAmount req))
                (- units 2 (CreateRequest.TotalAmount req)) (users st) Hnd Hcents)
      as (Hids & Hcents' & Hsum).
    { intros b Hb. apply Sub_cents; assumption. }
    rewrite (known_user (User.ID user) (users st)) in Hsum
      by (apply in_map; exact Huin).
    split; [|split].
    + split; [eapply Change_ledger; eassumption|].
      split; [split|].
      * cbn [users]. rewrite Hids. exact Hnd.
      * cbn [users]. exact Hcents'.
      * cbn [red_envelopes users]. rewrite Hids. intros e Hin.
        apply in_app_or in Hin. destruct Hin as [Hin|[<-|[]]]; [apply Hrows; exact Hin|].
        cbn [RedEnvelope.CreatorID RedEnvelope.RemainingAmount].
        split; [apply in_map; exact Huin|exact Hexp].
    + unfold funds. cbn [users red_envelopes]. rewrite Hsum, sumZ_app.
      cbn [sumZ fold_right RedEnvelope.RemainingAmount]. lia.
    + cbn [users]. exact Hids.
Qed.

(** A claim moves the share from the envelope to the claimant, provided the
    claimant has a row. *)
Lemma Claim_funds (ctx : Context) (req : ClaimRequest) (raw : Z) (st : Store) :
  housekeeping st ->
  In (currentUser ctx) (map User.ID (users st)) ->
  housekeeping (fst (Claim ctx req raw st))
  /\ funds (fst (Claim ctx req raw st)) = funds st
  /\ map User.ID (users (fst (Claim ctx req raw st))) = map User.ID (users st).
Proof.
  intros Hk Hknown.
  destruct (Claim_inv ctx req raw st)
    as [(f & _ & H1 & H2 & H3 & _)|(env & amt & Hlock & Hpass & Hamt & Heq & _)].
  - split; [apply (housekeeping_tables st); assumption|].
    split; [apply funds_tables; assumption|rewrite H3; reflexivity].
  - pose proof (Claim_Change ctx req raw st) as Hch.
    pose proof (Transaction_claimWrites ctx raw env st) as Hw. rewrite Hamt in Hw.
    destruct Hw as (st' & Hst' & Hclaims & Henvs & Husers & _).
    rewrite Heq, Hst' in *. cbn [fst] in *.
    destruct Hk as (Hl & (Hnd & Hcents) & Hrows).
    pose proof (lockedEnvelope_In _ _ _ Hlock) as Hin.
    destruct (Hrows env Hin) as [_ Her].
    destruct Hpass as (Hs & _ & Hc & _).
    pose proof (claimedAmountOf_exp raw env amt Hamt Her Hc) as Hea.
    destruct (balance_update (currentUser ctx) (fun b => Add b amt) (units 2 amt)
                (users st) Hnd Hcents) as (Hids & Hcents' & Hsum).
    { intros b Hb. apply Add_cents; assumption. }
    rewrite (known_user _ _ Hknown) in Hsum.
    unfold add_balance in Husers. cbn [users with_users] in Husers.
    split; [|split].
    + split; [eapply Change_ledger; eassumption|].
      split; [split|].
      * rewrite Husers, Hids. exact Hnd.
      * rewrite Husers. exact Hcents'.
      * rewrite Husers, Hids, Henvs. intros e He. apply In_Updates in He.
        destruct He as (y & Hy & ->). destruct (Hrows y Hy) as [Hcr Hex].
        destruct (_ =? _); [|split; assumption].
        cbn [set_remaining RedEnvelope.CreatorID RedEnvelope.RemainingAmount].
        split; [exact Hcr|]. rewrite exp_Sub. lia.
    + unfold funds. rewrite Husers, Hsum, Henvs.
      rewrite (remaining_update (red_envelopes st) env).
      * rewrite units_Sub by lia. lia.
      * apply Hl.
      * exact Hin.
      * apply Z.eqb_refl.
      * intros y _ Hy. apply Z.eqb_eq. exact Hy.
    + rewrite Husers. exact Hids.
Qed.

Lemma GreaterThan_zero (d : Decimal) :
  GreaterThan d (NewFromInt 0) = true -> IsPositive d = true.
Proof.
  intros H. set (s := Z.max 0 (- exp d)).
  rewrite (GreaterThan_units s) in H by (cbn [exp NewFromInt]; lia).
  apply Z.ltb_lt in H. unfold units at 1 in H. cbn [value NewFromInt] in H.
  unfold units in H. pose proof (pow10_pos (exp d + s) ltac:(lia)).
  unfold IsPositive, Sign. apply Z.eqb_eq. apply Z.sgn_pos. nia.
Qed.

(** A refund run on the row as it stands moves what is left back to the
    creator. *)
(** Reading a table off a store that was just written. *)
Ltac store_fields :=
  cbn [users red_envelopes red_envelope_claims orders with_orders
       with_red_envelopes with_users with_claims add_balance sub_balance begin].

Lemma refundOne_funds (now : Time) (envelope : RedEnvelope.t) (st : Store) :
  housekeeping st ->
  In envelope (red_envelopes st) ->
  RedEnvelope.Status envelope = RedEnvelopeStatusActive ->
  IsPositive (RedEnvelope.RemainingAmount envelope) = true ->
  housekeeping (refundOne now envelope st)
  /\ funds (refundOne now envelope st) = funds st
  /\ map User.ID (users (refundOne now envelope st)) = map User.ID (users st)
  /\ (forall e, In e (red_envelopes st) ->
                RedEnvelope.ID e <> RedEnvelope.ID envelope ->
                In e (red_envelopes (refundOne now envelope st))).
Proof.
  intros Hk Hin Hs Hpos.
  pose proof (refundOne_Change now envelope st) as Hch.
  unfold refundOne, Transaction, refundTx in *. rewrite Hpos in *. cbn [fst] in *.
  destruct Hk as (Hl & (Hnd & Hcents) & Hrows).
  destruct (Hrows envelope Hin) as [Hcreator Her].
  destruct (balance_update (RedEnvelope.CreatorID envelope)
              (fun b => Add b (RedEnvelope.RemainingAmount envelope))
              (units 2 (RedEnvelope.RemainingAmount envelope))
              (users st) Hnd Hcents) as (Hids & Hcents' & Hsum).
  { intros b Hb. apply Add_cents; assumption. }
  rewrite (known_user _ _ Hcreator) in Hsum.
  split; [|split; [|split]].
  - split; [eapply Change_ledger; eassumption|].
    split; [split|]; store_fields.
    + rewrite Hids. exact Hnd.
    + exact Hcents'.
    + rewrite Hids. intros e He. apply In_Updates in He.
      destruct He as (y & Hy & ->). destruct (Hrows y Hy) as [Hcr Hex].
      destruct (_ && _); [|split; assumption].
      cbn [set_remaining RedEnvelope.CreatorID RedEnvelope.RemainingAmount exp NewFromInt].
      split; [exact Hcr|lia].
  - unfold funds. store_fields. rewrite Hsum.
    rewrite (remaining_update (red_envelopes st) envelope).
    + change (units 2 (NewFromInt 0)) with 0. lia.
    + apply Hl.
    + exact Hin.
    + rewrite Z.eqb_refl, Hs. reflexivity.
    + intros y _ Hy. apply andb_prop in Hy. destruct Hy as [Hy _].
      apply Z.eqb_eq. exact Hy.
  - store_fields. exact Hids.
  - intros e He Hne. store_fields. unfold Updates. apply in_map_iff. exists e.
    split; [|exact He].
    destruct (Z.eqb_spec (RedEnvelope.ID e) (RedEnvelope.ID envelope));
      [contradiction|reflexivity].
Qed.

Lemma refundAll_funds (now : Time) (l : list RedEnvelope.t) (st : Store) :
  housekeeping st ->
  NoDup (map RedEnvelope.ID l) ->
  (forall e, In e l ->
             In e (red_envelopes st)
             /\ RedEnvelope.Status e = RedEnvelopeStatusActive
             /\ IsPositive (RedEnvelope.RemainingAmount e) = true) ->
  housekeeping (refundAll now l st)
  /\ funds (refundAll now l st) = funds st
  /\ map User.ID (users (refundAll now l st)) = map User.ID (users st).
Proof.
  revert st. induction l as [|e l IH]; intros st Hk Hnd Hall;
    [split; [exact Hk|split; reflexivity]|].
  cbn [map] in Hnd. inversion Hnd as [|k ks Hnotin Hnd']; subst.
  destruct (Hall e (or_introl eq_refl)) as (Hin & Hs & Hpos).
  destruct (refundOne_funds now e st Hk Hin Hs Hpos) as (Hk1 & Hf1 & Hu1 & Hkeep).
  cbn [refundAll fold_left]. fold (refundAll now l (refundOne now e st)).
  destruct (IH (refundOne now e st) Hk1 Hnd') as (Hk2 & Hf2 & Hu2).
  - intros e' He'. destruct (Hall e' (or_intror He')) as (Hin' & Hs' & Hpos').
    split; [|split; assumption]. apply Hkeep; [exact Hin'|].
    intros Heq. apply Hnotin. rewrite <- Heq. apply in_map. exact He'.
  - split; [exact Hk2|]. split; congruence.
Qed.

(** Selecting rows keeps their keys distinct. *)
Lemma selected_keys_distinct {Row Key : Type} (key : Row -> Key)
    (selected : Row -> bool) (rows : list Row) :
  NoDup (map key rows) -> NoDup (map key (filter selected rows)).
Proof.
  intros Hnd. induction rows as [|row rows IH]; [constructor|].
  cbn [map] in Hnd. apply NoDup_cons_iff in Hnd. destruct Hnd as [Hfresh Hnd].
  cbn [filter]. destruct (selected row); [|exact (IH Hnd)].
  cbn [map]. apply NoDup_cons; [|exact (IH Hnd)].
  intros Hin. apply Hfresh. apply in_map_iff in Hin.
  destruct Hin as (other & Hkey & Hother). apply filter_In in Hother.
  rewrite <- Hkey. apply in_map. apply Hother.
Qed.

Lemma sweep_funds (now : Time) (st : Store) :
  housekeeping st ->
  housekeeping (refundExpiredRedEnvelopes now st)
  /\ funds (refundExpiredRedEnvelopes now st) = funds st
  /\ map User.ID (users (refundExpiredRedEnvelopes now st)) = map User.ID (users st).
Proof.
  intros Hk. unfold refundExpiredRedEnvelopes, expiredEnvelopes.
  apply refundAll_funds; [exact Hk| |].
  - apply selected_keys_distinct. apply Hk.
  - intros e He. apply filter_In in He. destruct He as [Hin Hq].
    apply andb_prop in Hq. destruct Hq as [Hq Hgt].
    apply andb_prop in Hq. destruct Hq as [Hs _].
    split; [exact Hin|]. split; [apply status_eqb_eq; exact Hs|].
    apply GreaterThan_zero. exact Hgt.
Qed.

Lemma run_funds (ops : list Op) (st : Store) :
  housekeeping st ->
  (forall op, In op ops -> served st op) ->
  housekeeping (run ops st) /\ funds (run ops st) = funds st
  /\ map User.ID (users (run ops st)) = map User.ID (users st).
Proof.
  revert st. induction ops as [|op ops IH]; intros st Hk Hserved;
    [split; [exact Hk|split; reflexivity]|].
  cbn [run fold_left]. fold (run ops (apply st op)).
  assert (Hstep : housekeeping (apply st op) /\ funds (apply st op) = funds st
                  /\ map User.ID (users (apply st op)) = map User.ID (users st)).
  { pose proof (Hserved op (or_introl eq_refl)) as Hop.
    destruct op as [ctx req code|ctx req raw|now|now envelope]; cbn [apply served] in *.
    - apply Create_funds. exact Hk.
    - apply Claim_funds; assumption.
    - apply sweep_funds. exact Hk.
    - contradiction. }
  destruct Hstep as (Hk1 & Hf1 & Hu1).
  destruct (IH (apply st op) Hk1) as (Hk2 & Hf2 & Hu2).
  - intros op' Hin. pose proof (Hserved op' (or_intror Hin)) as Hop'.
    destruct op'; cbn [served] in *; try assumption. rewrite Hu1. exact Hop'.
  - split; [exact Hk2|]. split; congruence.
Qed.

(** X4.  No money is made or lost.  Start with any users table that has one row
    per user and whole-cent balances, and no envelopes; serve any requests one
    after the other ([Create], [Claim] by known users, whole sweeps).  Then
    the balances plus what is left in the envelopes add up to the balances at
    the start. *)
Theorem funds_are_conserved (st : Store) (ops : list Op) :
  red_envelopes st = [] -> red_envelope_claims st = [] ->
  accounts st ->
  (forall op, In op ops -> served st op) ->
  sumZ (fun u => units 2 (User.AvailableBalance u)) (users (run ops st))
  + sumZ (fun e => units 2 (RedEnvelope.RemainingAmount e)) (red_envelopes (run ops st))
  = sumZ (fun u => units 2 (User.AvailableBalance u)) (users st).
Proof.
  intros He Hc Hacc Hserved.
  assert (Hk : housekeeping st).
  { split; [apply ledger_empty; assumption|]. split; [exact Hacc|].
    rewrite He. intros e []. }
  destruct (run_funds ops st Hk Hserved) as (_ & Hf & _).
  unfold funds in Hf. rewrite Hf, He. cbn [sumZ fold_right]. lia.
Qed.

Lemma funds_are_conserved_witness :
  accounts sampleStore
  /\ sumZ (fun u => units 2 (User.AvailableBalance u))
          (users (run (sampleRequests ++ sampleSweep) sampleStore))
     + sumZ (fun e => units 2 (RedEnvelope.RemainingAmount e))
            (red_envelopes (run (sampleRequests ++ sampleSweep) sampleStore))
     = 10000.
Proof.
  assert (Hacc : accounts sampleStore).
  { split.
    - cbn. repeat constructor; cbn; intuition discriminate.
    - intros u [<-|[<-|[<-|[]]]]; cbn; lia. }
  split; [exact Hacc|].
  rewrite (funds_are_conserved sampleStore (sampleRequests ++ sampleSweep)
             eq_refl eq_refl Hacc).
  - reflexivity.
  - intros op Hin. cbn in Hin.
    destruct Hin as [<-|[<-|[<-|[<-|[<-|[]]]]]]; cbn; auto.
Defined.

(** ** The sweep *)

(** Each refund transaction keeps every row or expires it. *)
Lemma refundOne_rows (now : Time) (envelope : RedEnvelope.t) (st : Store) :
  red_envelopes (refundOne now envelope st)
  = Updates (fun e => (RedEnvelope.ID e =? RedEnvelope.ID envelope)
                      && status_eqb (RedEnvelope.Status e) RedEnvelopeStatusActive)
            (set_remaining 0 (NewFromInt 0) RedEnvelopeStatusExpired)
            (red_envelopes st).
Proof.
  unfold refundOne, Transaction, refundTx.
  destruct (IsPositive (RedEnvelope.RemainingAmount envelope)); reflexivity.
Qed.

Lemma refundOne_row_origin (now : Time) (envelope : RedEnvelope.t) (st : Store)
    (r : RedEnvelope.t) :
  In r (red_envelopes (refundOne now envelope st)) ->
  exists y, In y (red_envelopes st)
            /\ RedEnvelope.ID r = RedEnvelope.ID y
            /\ (r = y \/ RedEnvelope.Status r = RedEnvelopeStatusExpired)
            /\ (RedEnvelope.ID y = RedEnvelope.ID envelope ->
                RedEnvelope.Status r <> RedEnvelopeStatusActive).
Proof.
  rewrite refundOne_rows. intros Hin. apply In_Updates in Hin.
  destruct Hin as (y & Hy & ->). exists y. split; [exact Hy|].
  destruct (Z.eqb_spec (RedEnvelope.ID y) (RedEnvelope.ID envelope)) as [Hid|Hid];
    cbn [andb].
  - destruct (status_eqb (RedEnvelope.Status y) RedEnvelopeStatusActive) eqn:Hs.
    + cbn. repeat split; [right; reflexivity|discriminate].
    + apply status_eqb_neq in Hs. repeat split; [left; reflexivity|intros _; exact Hs].
  - repeat split; [left; reflexivity|]. intros Heq. contradiction.
Qed.

Lemma refundAll_row_origin (now : Time) (l : list RedEnvelope.t) (st : Store)
    (r : RedEnvelope.t) :
  In r (red_envelopes (refundAll now l st)) ->
  exists y, In y (red_envelopes st)
            /\ RedEnvelope.ID r = RedEnvelope.ID y
            /\ (r = y \/ RedEnvelope.Status r = RedEnvelopeStatusExpired).
Proof.
  revert st. induction l as [|e l IH]; intros st Hin.
  - exists r. repeat split; [exact Hin|left; reflexivity].
  - cbn [refundAll fold_left] in Hin. fold (refundAll now l (refundOne now e st)) in Hin.
    destruct (IH _ Hin) as (y1 & Hy1 & Hid1 & Hst1).
    destruct (refundOne_row_origin now e st y1 Hy1) as (y & Hy & Hid & Hst & _).
    exists y. split; [exact Hy|]. split; [congruence|].
    destruct Hst1 as [->|Hexp]; [exact Hst|right; exact Hexp].
Qed.

(** After the loop, no row that carries the key of a processed envelope is
    still active. *)
Lemma refundAll_processed (now : Time) (l : list RedEnvelope.t) (st : Store)
    (e r : RedEnvelope.t) :
  In e l -> In r (red_envelopes (refundAll now l st)) ->
  RedEnvelope.ID r = RedEnvelope.ID e ->
  RedEnvelope.Status r <> RedEnvelopeStatusActive.
Proof.
  revert st. induction l as [|a l IH]; intros st He Hr Hid; [destruct He|].
  cbn [refundAll fold_left] in Hr. fold (refundAll now l (refundOne now a st)) in Hr.
  destruct He as [->|He]; [|eapply IH; eassumption].
  destruct (refundAll_row_origin now l _ r Hr) as (y1 & Hy1 & Hid1 & Hst1).
  destruct (refundOne_row_origin now e st y1 Hy1) as (y & Hy & Hidy & _ & Hdone).
  assert (Hy1s : RedEnvelope.Status y1 <> RedEnvelopeStatusActive)
    by (apply Hdone; congruence).
  destruct Hst1 as [->|Hexp]; [exact Hy1s|rewrite Hexp; discriminate].
Qed.

(** X5.  A sweep leaves nothing for a sweep at the same time to do: its query
    comes back empty, and running it again returns the store as it is. *)
Theorem sweep_is_complete (now : Time) (st : Store) :
  expiredEnvelopes now (refundExpiredRedEnvelopes now st) = []
  /\ refundExpiredRedEnvelopes now (refundExpiredRedEnvelopes now st)
     = refundExpiredRedEnvelopes now st.
Proof.
  assert (Hempty : expiredEnvelopes now (refundExpiredRedEnvelopes now st) = []).
  { destruct (expiredEnvelopes now (refundExpiredRedEnvelopes now st)) as [|r rest] eqn:Hq;
      [reflexivity|exfalso].
    assert (Hr : In r (expiredEnvelopes now (refundExpiredRedEnvelopes now st)))
      by (rewrite Hq; left; reflexivity).
    unfold expiredEnvelopes at 1 in Hr. apply filter_In in Hr. destruct Hr as [Hin Hpass].
    pose proof Hpass as Hpass'.
    apply andb_prop in Hpass'. destruct Hpass' as [Hpass' _].
    apply andb_prop in Hpass'. destruct Hpass' as [Hs _]. apply status_eqb_eq in Hs.
    unfold refundExpiredRedEnvelopes in Hin.
    destruct (refundAll_row_origin now _ st r Hin) as (y & Hy & Hid & [->|Hexp]);
      [|congruence].
    assert (Hyq : In y (expiredEnvelopes now st))
      by (unfold expiredEnvelopes; apply filter_In; split; assumption).
    exact (refundAll_processed now _ st y y Hyq Hin eq_refl Hs). }
  split; [exact Hempty|].
  unfold refundExpiredRedEnvelopes at 1. rewrite Hempty. reflexivity.
Qed.

(** ** Closed envelopes *)

(** The two rejections for a closed envelope are given exactly when the
    envelope found is closed. *)
Lemma claimTx_closed (ctx : Context) (req : ClaimRequest) (raw : Z) (tx : Store)
    (e : RedEnvelope.t) :
  lockedEnvelope (ClaimRequest_Code req) tx = Some e ->
  closedAt (Now ctx) e ->
  claimTx ctx req raw tx = (tx, Err RedEnvelopeExpired)
  \/ claimTx ctx req raw tx = (tx, Err RedEnvelopeFinished).
Proof.
  unfold lockedEnvelope, claimTx, closedAt. intros -> Hclosed.
  destruct (RedEnvelope.Status e) eqn:Hs; cbn [status_eqb orb].
  - destruct (Z.ltb_spec (RedEnvelope.ExpiresAt e) (Now ctx)); [left; reflexivity|].
    destruct (Z.leb_spec (RedEnvelope.RemainingCount e) 0); [right; reflexivity|].
    exfalso. destruct Hclosed as [Hc|[Hc|Hc]]; [congruence|lia|lia].
  - destruct (Z.ltb_spec (RedEnvelope.ExpiresAt e) (Now ctx));
      [left; reflexivity|right; reflexivity].
  - left. reflexivity.
Qed.

Lemma Claim_closed (ctx : Context) (req : ClaimRequest) (raw : Z) (st : Store) :
  snd (Claim ctx req raw st) = Err RedEnvelopeExpired
  \/ snd (Claim ctx req raw st) = Err RedEnvelopeFinished ->
  ShouldBindJSON_Claim req = true
  /\ exists e, lockedEnvelope (ClaimRequest_Code req) st = Some e
               /\ closedAt (Now ctx) e.
Proof.
  unfold Claim.
  destruct (IsRedEnvelopeEnabled ctx); cbn [negb];
    [|intros [H|H]; discriminate].
  destruct (ShouldBindJSON_Claim req); cbn [negb];
    [|intros [H|H]; discriminate].
  intros Hres. split; [reflexivity|].
  unfold Transaction in Hres.
  pose proof (lockedEnvelope_begin (ClaimRequest_Code req) st) as Hb.
  unfold claimTx in Hres. unfold lockedEnvelope in Hb at 1. rewrite Hb in Hres.
  destruct (lockedEnvelope (ClaimRequest_Code req) st) as [e|];
    [|cbn in Hres; destruct Hres; discriminate].
  exists e. split; [reflexivity|]. unfold closedAt.
  destruct (RedEnvelope.Status e) eqn:Hs;
    [|left; discriminate|left; discriminate].
  cbn [status_eqb orb] in Hres.
  destruct (Z.ltb_spec (RedEnvelope.ExpiresAt e) (Now ctx)); [right; left; assumption|].
  destruct (Z.leb_spec (RedEnvelope.RemainingCount e) 0); [right; right; assumption|].
  exfalso.
  destruct (hasClaim _ _ _); [cbn in Hres; destruct Hres; discriminate|].
  unfold claimWrites in Hres.
  destruct (claimedAmountOf raw e); cbn in Hres; destruct Hres; discriminate.
Qed.

(** The row found by a code is still the row found by that code later. *)
Lemma lockedEnvelope_evolves (code : string) (rows kept more : list RedEnvelope.t)
    (e : RedEnvelope.t) :
  Forall2 evolves rows kept ->
  find (fun e => String.eqb (RedEnvelope.Code e) code) rows = Some e ->
  exists e', find (fun e => String.eqb (RedEnvelope.Code e) code) (kept ++ more) = Some e'
             /\ evolves e e'.
Proof.
  intros Hf. induction Hf as [|x y l l' Hxy _ IH]; [discriminate|].
  cbn [find app]. pose proof (proj1 (proj2 (proj1 Hxy))) as Hcode. rewrite Hcode.
  destruct (String.eqb (RedEnvelope.Code x) code).
  - intros Heq. injection Heq as <-. exists y. split; [reflexivity|exact Hxy].
  - exact IH.
Qed.

(** X7.  Once a claim on a code has been turned down because the envelope is
    expired or finished, every later claim on that code, by whoever and with
    whatever draw, is turned down for one of these two reasons. *)
Theorem closed_envelopes_stay_closed (st : Store) (ops later : list Op)
    (ctx ctx' : Context) (req : ClaimRequest) (raw raw' : Z) :
  red_envelopes st = [] -> red_envelope_claims st = [] ->
  snd (Claim ctx req raw (run ops st)) = Err RedEnvelopeExpired
  \/ snd (Claim ctx req raw (run ops st)) = Err RedEnvelopeFinished ->
  Now ctx <= Now ctx' ->
  IsRedEnvelopeEnabled ctx' = true ->
  snd (Claim ctx' req raw' (run later (run ops st))) = Err RedEnvelopeExpired
  \/ snd (Claim ctx' req raw' (run later (run ops st))) = Err RedEnvelopeFinished.
Proof.
  intros He Hc Hres Hnow Hon.
  destruct (Claim_closed ctx req raw (run ops st) Hres) as (Hbind & e & Hlock & Hclosed).
  destruct (Changes_books st (run ops st) (run_Changes ops st) (books_empty st He Hc))
    as [Hl Hcounted].
  destruct (Changes_evolves (run ops st) (run later (run ops st))
              (run_Changes later (run ops st)) Hl Hcounted)
    as (kept & more & Hrows & Hev).
  destruct (lockedEnvelope_evolves (ClaimRequest_Code req) _ kept more e Hev Hlock)
    as (e' & Hlock' & Hsame & Hcount & Hfrozen).
  assert (Hclosed' : closedAt (Now ctx') e').
  { unfold closedAt in *. destruct Hsame as (_ & _ & _ & _ & _ & _ & _ & Hexp).
    destruct Hclosed as [Hs|[Ht|Hn]].
    - left. rewrite (Hfrozen Hs). exact Hs.
    - right. left. lia.
    - right. right. lia. }
  rewrite <- Hrows in Hlock'.
  rewrite (Claim_transaction ctx' req raw' _ Hon Hbind). unfold Transaction.
  assert (Hlb : lockedEnvelope (ClaimRequest_Code req) (begin (run later (run ops st)))
                = Some e') by (rewrite lockedEnvelope_begin; exact Hlock').
  destruct (claimTx_closed ctx' req raw' _ e' Hlb Hclosed') as [->| ->];
    [left|right]; reflexivity.
Qed.

Lemma closed_envelopes_stay_closed_witness :
  snd (Claim (sampleContext 2 (25 * Hour)) (mkClaimRequest "xyz") 0
             (run sampleRequests sampleStore)) = Err RedEnvelopeExpired
  /\ (snd (Claim (sampleContext 3 (26 * Hour)) (mkClaimRequest "xyz") 5
                 (run sampleSweep (run sampleRequests sampleStore)))
      = Err RedEnvelopeExpired
      \/ snd (Claim (sampleContext 3 (26 * Hour)) (mkClaimRequest "xyz") 5
                    (run sampleSweep (run sampleRequests sampleStore)))
         = Err RedEnvelopeFinished).
Proof.
  split; [vm_compute; reflexivity|].
  apply (closed_envelopes_stay_closed sampleStore sampleRequests sampleSweep
           (sampleContext 2 (25 * Hour)) (sampleContext 3 (26 * Hour))
           (mkClaimRequest "xyz") 0 5 eq_refl eq_refl).
  - left. vm_compute. reflexivity.
  - vm_compute. discriminate.
  - reflexivity.
Defined.

(** ** What a sweep writes *)

Lemma refundOne_claims (now : Time) (envelope : RedEnvelope.t) (st : Store) :
  red_envelope_claims (refundOne now envelope st) = red_envelope_claims st.
Proof.
  unfold refundOne, Transaction, refundTx.
  destruct (IsPositive (RedEnvelope.RemainingAmount envelope)); reflexivity.
Qed.

Lemma refundOne_orders (now : Time) (envelope : RedEnvelope.t) (st : Store) :
  IsPositive (RedEnvelope.RemainingAmount envelope) = true ->
  orders (refundOne now envelope st) = orders st ++ [refundOrder now envelope].
Proof.
  intros Hpos. unfold refundOne, Transaction, refundTx. rewrite Hpos. reflexivity.
Qed.

(** The rows after the loop: a row is expired when it was active and carries
    the key of one of the envelopes processed. *)
Lemma refundAll_rows (now : Time) (l : list RedEnvelope.t) (st : Store) :
  red_envelopes (refundAll now l st)
  = Updates (fun y => existsb (fun e => RedEnvelope.ID y =? RedEnvelope.ID e) l
                      && status_eqb (RedEnvelope.Status y) RedEnvelopeStatusActive)
            (set_remaining 0 (NewFromInt 0) RedEnvelopeStatusExpired)
            (red_envelopes st).
Proof.
  revert st. induction l as [|a l IH]; intros st.
  - cbn [refundAll fold_left existsb andb]. symmetry. apply Updates_nothing.
    reflexivity.
  - cbn [refundAll fold_left]. fold (refundAll now l (refundOne now a st)).
    rewrite IH, refundOne_rows. unfold Updates. rewrite map_map.
    apply map_ext. intros y. cbn [existsb].
    destruct (Z.eqb_spec (RedEnvelope.ID y) (RedEnvelope.ID a)) as [Hid|Hid];
      cbn [andb orb].
    + destruct (status_eqb (RedEnvelope.Status y) RedEnvelopeStatusActive) eqn:Hs.
      * cbn [set_remaining RedEnvelope.Status status_eqb]. rewrite andb_false_r.
        reflexivity.
      * rewrite Hs, andb_false_r. reflexivity.
    + reflexivity.
Qed.

Lemma refundAll_claims (now : Time) (l : list RedEnvelope.t) (st : Store) :
  red_envelope_claims (refundAll now l st) = red_envelope_claims st.
Proof.
  revert st. induction l as [|a l IH]; intros st; [reflexivity|].
  cbn [refundAll fold_left]. fold (refundAll now l (refundOne now a st)).
  rewrite IH. apply refundOne_claims.
Qed.

Lemma refundAll_orders (now : Time) (l : list RedEnvelope.t) (st : Store) :
  (forall e, In e l -> IsPositive (RedEnvelope.RemainingAmount e) = true) ->
  orders (refundAll now l st) = orders st ++ map (refundOrder now) l.
Proof.
  revert st. induction l as [|a l IH]; intros st Hpos.
  - cbn. rewrite app_nil_r. reflexivity.
  - cbn [refundAll fold_left]. fold (refundAll now l (refundOne now a st)).
    rewrite IH by (intros e He; apply Hpos; right; exact He).
    rewrite refundOne_orders by (apply Hpos; left; reflexivity).
    rewrite <- app_assoc. reflexivity.
Qed.

(** X8.  What a sweep writes, when envelope keys are distinct: exactly the active
    envelopes that are past their expiry with something left become Expired
    with nothing left and no shares, every other row stays as it is; one
    refund entry per such envelope is appended to the journal, for the amount
    the envelope had left; the claims are not touched. *)
Theorem sweep_expires_the_overdue (now : Time) (st : Store) :
  NoDup (map RedEnvelope.ID (red_envelopes st)) ->
  red_envelopes (refundExpiredRedEnvelopes now st)
  = Updates (fun e => status_eqb (RedEnvelope.Status e) RedEnvelopeStatusActive
                      && (RedEnvelope.ExpiresAt e <? now)
                      && GreaterThan (RedEnvelope.RemainingAmount e) (NewFromInt 0))
            (set_remaining 0 (NewFromInt 0) RedEnvelopeStatusExpired)
            (red_envelopes st)
  /\ red_envelope_claims (refundExpiredRedEnvelopes now st) = red_envelope_claims st
  /\ orders (refundExpiredRedEnvelopes now st)
     = orders st ++ map (refundOrder now) (expiredEnvelopes now st).
Proof.
  intros Hnd. unfold refundExpiredRedEnvelopes. split; [|split].
  - rewrite refundAll_rows. unfold Updates. apply map_ext_in. intros y Hy.
    match goal with
    | |- (if ?a then _ else _) = (if ?b then _ else _) =>
        assert (Hsame : a = b); [|rewrite Hsame; reflexivity]
    end.
    destruct (status_eqb (RedEnvelope.Status y) RedEnvelopeStatusActive
              && (RedEnvelope.ExpiresAt y <? now)
              && GreaterThan (RedEnvelope.RemainingAmount y) (NewFromInt 0)) eqn:Hq.
    + apply andb_true_intro. split.
      * apply existsb_exists. exists y. split; [|apply Z.eqb_refl].
        unfold expiredEnvelopes. apply filter_In. split; assumption.
      * apply andb_prop in Hq. destruct Hq as [Hq _].
        apply andb_prop in Hq. apply Hq.
    + destruct (existsb _ (expiredEnvelopes now st)) eqn:Hex; [|reflexivity].
      apply existsb_exists in Hex. destruct Hex as (e & He & Hid).
      apply Z.eqb_eq in Hid. unfold expiredEnvelopes in He.
      apply filter_In in He. destruct He as [He Hqe].
      assert (y = e) by (eapply same_key_same_row; eassumption). subst e.
      rewrite Hqe in Hq. discriminate.
  - apply refundAll_claims.
  - apply refundAll_orders. intros e He. unfold expiredEnvelopes in He.
    apply filter_In in He. destruct He as [_ Hq].
    apply andb_prop in Hq. destruct Hq as [_ Hq]. apply GreaterThan_zero. exact Hq.
Qed.

Lemma sweep_expires_the_overdue_witness :
  NoDup (map RedEnvelope.ID (red_envelopes (run sampleRequests sampleStore)))
  /\ map RedEnvelope.Status
         (red_envelopes (refundExpiredRedEnvelopes (24 * Hour + 1)
                                                   (run sampleRequests sampleStore)))
     = [RedEnvelopeStatusExpired; RedEnvelopeStatusActive].
Proof.
  assert (Hnd : NoDup (map RedEnvelope.ID (red_envelopes (run sampleRequests sampleStore)))).
  { vm_compute. repeat constructor; cbn; intuition discriminate. }
  split; [exact Hnd|].
  rewrite (proj1 (sweep_expires_the_overdue (24 * Hour + 1)
                    (run sampleRequests sampleStore) Hnd)).
  vm_compute. reflexivity.
Defined.

(** ** Reading an envelope: [GetDetail] *)

Lemma find_unique {A : Type} (p : A -> bool) (l : list A) (x : A) :
  In x l -> p x = true ->
  (forall y, In y l -> p y = true -> y = x) ->
  find p l = Some x.
Proof.
  intros Hin Hp Huniq. destruct (find p l) as [y|] eqn:Hfind.
  - apply find_some in Hfind. destruct Hfind as [Hy Hpy].
    rewrite (Huniq y Hy Hpy). reflexivity.
  - rewrite (find_none _ _ Hfind x Hin) in Hp. discriminate.
Qed.

(** The row found by a code, once it has been rewritten. *)
Lemma lockedEnvelope_updated (code : string) (cond : RedEnvelope.t -> bool)
    (n : Z) (amount : Decimal) (s : RedEnvelopeStatus) (rows : list RedEnvelope.t)
    (e : RedEnvelope.t) :
  find (fun e => String.eqb (RedEnvelope.Code e) code) rows = Some e ->
  cond e = true ->
  find (fun e => String.eqb (RedEnvelope.Code e) code)
       (Updates cond (set_remaining n amount s) rows)
  = Some (set_remaining n amount s e).
Proof.
  intros Hfind Hcond. induction rows as [|y rows IH]; [discriminate|].
  cbn [Updates map find] in *.
  assert (Hcode : RedEnvelope.Code (if cond y then set_remaining n amount s y else y)
                  = RedEnvelope.Code y) by (destruct (cond y); reflexivity).
  rewrite Hcode.
  destruct (String.eqb (RedEnvelope.Code y) code).
  - injection Hfind as ->. rewrite Hcond. reflexivity.
  - apply IH. exact Hfind.
Qed.

(** X9.  A claim shows up in the detail.  After a claim that succeeded, the
    detail read by the claimant for the same code shows the envelope as the
    claim's response reported it, lists the claim among the claims of the
    envelope, and gives it as the caller's own claim, with the amount the
    response reported. *)
Theorem claim_then_detail
    (byClaimedAt : list RedEnvelopeClaim.t -> list RedEnvelopeClaim.t)
    (ctx : Context) (req : ClaimRequest) (raw : Z) (st : Store)
    (resp : ClaimResponse) :
  (forall rows, Permutation rows (byClaimedAt rows)) ->
  snd (Claim ctx req raw st) = OK resp ->
  exists claims,
    GetDetail byClaimedAt (Some (currentUser ctx)) (ClaimRequest_Code req)
              (fst (Claim ctx req raw st))
    = OK (mkDetailResponse
            (ClaimResponse_RedEnvelope resp) claims
            (Some (RedEnvelopeClaim.mk
                     (RedEnvelope.ID (ClaimResponse_RedEnvelope resp))
                     (currentUser ctx) (ClaimResponse_Amount resp))))
    /\ In (RedEnvelopeClaim.mk (RedEnvelope.ID (ClaimResponse_RedEnvelope resp))
                               (currentUser ctx) (ClaimResponse_Amount resp))
          claims.
Proof.
  intros Hperm Hok.
  destruct (Claim_inv ctx req raw st)
    as [(f & Hf & _)|(e & amt & Hlock & Hpass & Hamt & Htx & Hsnd)];
    [rewrite Hok in Hf; discriminate|].
  rewrite Hok in Hsnd. injection Hsnd as ->.
  pose proof (Transaction_claimWrites ctx raw e st) as Hw. rewrite Hamt in Hw.
  destruct Hw as (st' & Heq & Hclaims & Hrows & _).
  rewrite Htx, Heq. cbn [fst ClaimResponse_RedEnvelope ClaimResponse_Amount].
  unfold GetDetail, First. rewrite Hrows.
  unfold lockedEnvelope, First in Hlock.
  rewrite (lockedEnvelope_updated _ _ _ _ _ _ e Hlock (Z.eqb_refl _)).
  change (set_remaining (RedEnvelope.RemainingCount e - 1)
            (Sub (RedEnvelope.RemainingAmount e) amt)
            (if RedEnvelope.RemainingCount e - 1 <=? 0
             then RedEnvelopeStatusFinished else RedEnvelope.Status e) e)
    with (afterClaim amt e).
  change (RedEnvelope.ID (afterClaim amt e)) with (RedEnvelope.ID e).
  rewrite Hclaims.
  set (own := RedEnvelopeClaim.mk (RedEnvelope.ID e) (currentUser ctx) amt).
  set (selected := filter _ (red_envelope_claims st ++ [own])).
  assert (Hown : In own selected).
  { apply filter_In. split; [apply in_or_app; right; left; reflexivity|].
    apply Z.eqb_refl. }
  assert (Hlisted : In own (byClaimedAt selected))
    by (eapply Permutation_in; [apply Hperm|exact Hown]).
  eexists. split; [|exact Hlisted]. f_equal. f_equal.
  apply find_unique; [exact Hlisted|apply Z.eqb_refl|].
  intros y Hy Hu.
  apply (Permutation_in _ (Permutation_sym (Hperm selected))) in Hy.
  apply filter_In in Hy. destruct Hy as [Hy Hid].
  apply Z.eqb_eq in Hid. apply Z.eqb_eq in Hu.
  apply in_app_or in Hy. destruct Hy as [Hy|[<-|[]]]; [exfalso|reflexivity].
  destruct Hpass as (_ & _ & _ & Hnone).
  assert (Hsome : hasClaim (RedEnvelope.ID e) (currentUser ctx) (red_envelope_claims st)
                  = true)
    by (apply hasClaim_true; exists y; repeat split; assumption).
  rewrite Hsome in Hnone. discriminate.
Qed.

Lemma claim_then_detail_witness :
  exists resp claims,
    snd (Claim (sampleContext 2 5) (mkClaimRequest "xyz") 0
               (run sampleRequests sampleStore)) = OK resp
    /\ GetDetail (@rev RedEnvelopeClaim.t) (Some 2) "xyz"
                 (fst (Claim (sampleContext 2 5) (mkClaimRequest "xyz") 0
                             (run sampleRequests sampleStore)))
       = OK (mkDetailResponse (ClaimResponse_RedEnvelope resp) claims
                              (Some (RedEnvelopeClaim.mk 2 2 (New 100 (-2))))).
Proof.
  eexists. 
  destruct (claim_then_detail (@rev RedEnvelopeClaim.t) (sampleContext 2 5)
              (mkClaimRequest "xyz") 0 (run sampleRequests sampleStore)
              (mkClaimResponse (New 100 (-2))
                 (RedEnvelope.mk 2 "xyz" 1 RedEnvelopeTypeFixed (New 300 (-2))
                    (New 100 (-2)) 3 1 "" RedEnvelopeStatusActive (2 + 24 * Hour))))
    as (claims & Hdetail & _).
  - intros rows. apply Permutation_rev.
  - vm_compute. reflexivity.
  - exists claims. split; [vm_compute; reflexivity|exact Hdetail].
Defined.

(** X10.  What a detail holds.  With no envelope under the code the answer is
    "not found".  Otherwise the envelope is the one a claim on the code would
    lock; the claims listed are the claim rows of that envelope, each once;
    a caller without a user gets no claim of their own; a caller with a user
    gets a claim row of theirs on this envelope if there is one, and none
    exactly when a claim by them would not be turned down as a repeat. *)
Theorem detail_contents
    (byClaimedAt : list RedEnvelopeClaim.t -> list RedEnvelopeClaim.t)
    (currentUser : option Z) (code : string) (st : Store) :
  (forall rows, Permutation rows (byClaimedAt rows)) ->
  match GetDetail byClaimedAt currentUser code st with
  | Err f => f = RedEnvelopeNotFound /\ lockedEnvelope code st = None
  | OK d =>
      lockedEnvelope code st = Some (DetailResponse_RedEnvelope d)
      /\ Permutation (claimsOf (RedEnvelope.ID (DetailResponse_RedEnvelope d))
                               (red_envelope_claims st))
                     (DetailResponse_Claims d)
      /\ match currentUser, DetailResponse_UserClaimed d with
         | None, own => own = None
         | Some uid, Some own =>
             In own (red_envelope_claims st)
             /\ claimKey own = (RedEnvelope.ID (DetailResponse_RedEnvelope d), uid)
         | Some uid, None =>
             hasClaim (RedEnvelope.ID (DetailResponse_RedEnvelope d)) uid
                      (red_envelope_claims st) = false
         end
  end.
Proof.
  intros Hperm. unfold GetDetail, lockedEnvelope.
  destruct (First _ (red_envelopes st)) as [e|]; [|split; reflexivity].
  cbn [DetailResponse_RedEnvelope DetailResponse_Claims DetailResponse_UserClaimed].
  fold (claimsOf (RedEnvelope.ID e) (red_envelope_claims st)).
  split; [reflexivity|]. split; [apply Hperm|].
  destruct currentUser as [uid|]; [|reflexivity].
  destruct (find _ (byClaimedAt _)) as [own|] eqn:Hfind.
  - apply find_some in Hfind. destruct Hfind as [Hin Hu].
    apply (Permutation_in _ (Permutation_sym (Hperm _))) in Hin.
    apply filter_In in Hin. destruct Hin as [Hin Hid].
    apply Z.eqb_eq in Hid. apply Z.eqb_eq in Hu.
    split; [exact Hin|]. unfold claimKey. congruence.
  - destruct (hasClaim (RedEnvelope.ID e) uid (red_envelope_claims st)) eqn:Hhas;
      [exfalso|reflexivity].
    apply hasClaim_true in Hhas. destruct Hhas as (c & Hc & Hid & Hu).
    assert (Hlisted : In c (byClaimedAt (claimsOf (RedEnvelope.ID e)
                                                  (red_envelope_claims st)))).
    { eapply Permutation_in; [apply Hperm|].
      apply filter_In. split; [exact Hc|]. apply Z.eqb_eq. exact Hid. }
    pose proof (find_none _ _ Hfind c Hlisted) as Hno. cbn in Hno.
    apply Z.eqb_neq in Hno. contradiction.
Qed.

Lemma detail_contents_witness :
  exists d,
    GetDetail (@rev RedEnvelopeClaim.t) (Some 3) "xyz" (run sampleRequests sampleStore)
    = OK d
    /\ lockedEnvelope "xyz" (run sampleRequests sampleStore)
       = Some (DetailResponse_RedEnvelope d)
    /\ Permutation (claimsOf (RedEnvelope.ID (DetailResponse_RedEnvelope d))
                             (red_envelope_claims (run sampleRequests sampleStore)))
                   (DetailResponse_Claims d).
Proof.
  assert (Hd : exists d, GetDetail (@rev RedEnvelopeClaim.t) (Some 3) "xyz"
                                   (run sampleRequests sampleStore) = OK d)
    by (eexists; vm_compute; reflexivity).
  destruct Hd as [d Hd]. exists d. split; [exact Hd|].
  pose proof (detail_contents (@rev RedEnvelopeClaim.t) (Some 3) "xyz"
                (run sampleRequests sampleStore)
                (fun rows => Permutation_rev rows)) as H.
  rewrite Hd in H. destruct H as (Hlock & Hclaims & _).
  split; [exact Hlock|exact Hclaims].
Defined.

(** ** Listing envelopes: [List] *)

Lemma firstn_add {A : Type} (a b : nat) (l : list A) :
  firstn (a + b) l = firstn a l ++ firstn b (skipn a l).
Proof.
  revert l. induction a as [|a IH]; intros l; [reflexivity|].
  destruct l as [|x l]; [cbn; rewrite firstn_nil; reflexivity|].
  cbn. rewrite IH. reflexivity.
Qed.

Lemma ShouldBindJSON_List_ok (page size : Z) (type : string) :
  1 <= page < 2 ^ 63 -> 1 <= size <= 100 ->
  type = EmptyString \/ type = "sent"%string \/ type = "received"%string ->
  ShouldBindJSON_List (mkListRequest page size type) = true.
Proof.
  intros Hp Hs Ht. unfold ShouldBindJSON_List.
  cbn [ListRequest_Page ListRequest_PageSize ListRequest_Type].
  destruct (Z.leb_spec 1 page); [|lia].
  destruct (Z.ltb_spec page (2 ^ 63)); [|lia].
  destruct (Z.leb_spec 1 size); [|lia].
  destruct (Z.leb_spec size 100); [|lia].
  destruct Ht as [->|[->| ->]]; reflexivity.
Qed.

(** A page of the list, read off the whole result. *)
Lemma List_page (byCreatedAt : list RedEnvelope.t -> list RedEnvelope.t)
    (ctx : Context) (page size : Z) (type : string) (st : Store) :
  1 <= page < 2 ^ 63 -> 1 <= size <= 100 -> (page - 1) * size < 2 ^ 63 ->
  type = EmptyString \/ type = "sent"%string \/ type = "received"%string ->
  List byCreatedAt ctx (mkListRequest page size type) st
  = OK (mkListResponse
          (Z.of_nat (List.length (listQuery (currentUser ctx) type st)))
          page size
          (firstn (Z.to_nat size)
                  (skipn (Z.to_nat ((page - 1) * size))
                         (byCreatedAt (listQuery (currentUser ctx) type st))))).
Proof.
  intros Hp Hs Hfit Ht. unfold List.
  rewrite ShouldBindJSON_List_ok by assumption.
  cbn [negb ListRequest_Page ListRequest_PageSize ListRequest_Type].
  unfold Limit, Offset. rewrite wrap64_small by nia.
  destruct (Z.ltb_spec size 0); [lia|]. reflexivity.
Qed.

(** X11.  Pages tile the result.  For a page size from 1 to 100 and a direction
    the request accepts, as long as the offsets fit an [int]: the pages
    1, ..., [n], one after the other, are the first [n * size] rows of the
    whole result in its order, so no row is skipped and none comes twice; each
    page has at most [size] rows, and every page reports the same total, the
    number of rows of the whole result. *)
Theorem list_pages_tile (byCreatedAt : list RedEnvelope.t -> list RedEnvelope.t)
    (ctx : Context) (size : Z) (type : string) (st : Store) (n : nat) :
  1 <= size <= 100 ->
  type = EmptyString \/ type = "sent"%string \/ type = "received"%string ->
  Z.of_nat n * size < 2 ^ 63 ->
  List.concat (map (fun page =>
                 listedRows (List byCreatedAt ctx
                                  (mkListRequest (Z.of_nat page) size type) st))
              (seq 1 n))
  = firstn (n * Z.to_nat size) (byCreatedAt (listQuery (currentUser ctx) type st))
  /\ forall page, (1 <= page <= n)%nat ->
       exists rows,
         List byCreatedAt ctx (mkListRequest (Z.of_nat page) size type) st
         = OK (mkListResponse
                 (Z.of_nat (List.length (listQuery (currentUser ctx) type st)))
                 (Z.of_nat page) size rows)
         /\ (List.length rows <= Z.to_nat size)%nat.
Proof.
  intros Hs Ht Hfit. split.
  - induction n as [|n IH]; [reflexivity|].
    rewrite seq_S, map_app, concat_app, IH by nia.
    cbn [map List.concat Nat.add]. rewrite app_nil_r.
    rewrite List_page by (try assumption; nia).
    cbn [listedRows ListResponse_RedEnvelopes].
    replace (Z.to_nat ((Z.of_nat (S n) - 1) * size)) with (n * Z.to_nat size)%nat by nia.
    replace (S n * Z.to_nat size)%nat with (n * Z.to_nat size + Z.to_nat size)%nat by lia.
    symmetry. apply firstn_add.
  - intros page Hpage. eexists. split.
    + apply List_page; try assumption; nia.
    + apply firstn_le_length.
Qed.

Lemma list_pages_tile_witness :
  List.concat (map (fun page =>
                 listedRows (List (@rev RedEnvelope.t) (sampleContext 1 5)
                                  (mkListRequest (Z.of_nat page) 1 "sent") 
                                  (run sampleRequests sampleStore)))
              (seq 1 2))
  = firstn 2 (rev (listQuery 1 "sent" (run sampleRequests sampleStore))).
Proof.
  apply (proj1 (list_pages_tile (@rev RedEnvelope.t) (sampleContext 1 5) 1 "sent"
                  (run sampleRequests sampleStore) 2
                  ltac:(lia) ltac:(right; left; reflexivity) ltac:(cbn; lia))).
Defined.

Lemma Changes_claimKeys (st st' : Store) :
  Changes st st' ->
  NoDup (map claimKey (red_envelope_claims st)) ->
  NoDup (map claimKey (red_envelope_claims st')).
Proof.
  intros Hch Hnd. induction Hch as [|st' st'' _ IH Hstep]; [exact Hnd|].
  eapply Change_claimKeys; eassumption.
Qed.

(** With one claim row per envelope and user, the join of [received] gives
    an envelope once if the user has a claim on it, and not otherwise. *)
Lemma joined_once (envelopeID uid : Z) (rows : list RedEnvelopeClaim.t) :
  NoDup (map claimKey rows) ->
  List.length (filter (fun c => (RedEnvelopeClaim.RedEnvelopeID c =? envelopeID)
                                && (RedEnvelopeClaim.UserID c =? uid)) rows)
  = if hasClaim envelopeID uid rows then 1%nat else 0%nat.
Proof.
  unfold hasClaim, First. induction rows as [|c rows IH]; intros Hnd; [reflexivity|].
  cbn [map] in Hnd. apply NoDup_cons_iff in Hnd. destruct Hnd as [Hnew Hnd].
  cbn [filter find].
  destruct ((RedEnvelopeClaim.RedEnvelopeID c =? envelopeID)
            && (RedEnvelopeClaim.UserID c =? uid)) eqn:Hc; [|apply IH; exact Hnd].
  apply andb_prop in Hc. destruct Hc as [He Hu].
  apply Z.eqb_eq in He. apply Z.eqb_eq in Hu.
  cbn [List.length]. f_equal. rewrite (IH Hnd).
  destruct (find _ rows) as [c'|] eqn:Hfind; [exfalso|reflexivity].
  apply find_some in Hfind. destruct Hfind as [Hin Hc'].
  apply andb_prop in Hc'. destruct Hc' as [He' Hu'].
  apply Z.eqb_eq in He'. apply Z.eqb_eq in Hu'.
  apply Hnew. apply in_map_iff. exists c'. split; [|exact Hin].
  unfold claimKey. congruence.
Qed.

Lemma listQuery_wanted (uid : Z) (type : string) (st : Store) :
  NoDup (map claimKey (red_envelope_claims st)) ->
  listQuery uid type st = filter (wanted uid type st) (red_envelopes st).
Proof.
  intros Hnd. unfold listQuery, wanted.
  destruct (String.eqb type "sent") eqn:Hsent.
  - apply String.eqb_eq in Hsent. subst type. reflexivity.
  - destruct (String.eqb type "received"); [|reflexivity].
    induction (red_envelopes st) as [|e l IH]; [reflexivity|].
    cbn [flat_map filter]. rewrite IH.
    pose proof (joined_once (RedEnvelope.ID e) uid (red_envelope_claims st) Hnd) as Hlen.
    destruct (filter _ (red_envelope_claims st)) as [|c [|c' more]];
      destruct (hasClaim (RedEnvelope.ID e) uid (red_envelope_claims st));
      cbn in Hlen; try discriminate; reflexivity.
Qed.

Lemma NoDup_firstn {A : Type} (n : nat) (l : list A) : NoDup l -> NoDup (firstn n l).
Proof.
  intros Hnd. rewrite <- (firstn_skipn n l) in Hnd.
  exact (NoDup_app_remove_r _ _ Hnd).
Qed.

Lemma NoDup_skipn {A : Type} (n : nat) (l : list A) : NoDup l -> NoDup (skipn n l).
Proof.
  intros Hnd. rewrite <- (firstn_skipn n l) in Hnd.
  exact (NoDup_app_remove_l _ _ Hnd).
Qed.

Lemma In_firstn {A : Type} (n : nat) (l : list A) (x : A) : In x (firstn n l) -> In x l.
Proof.
  intros Hin. rewrite <- (firstn_skipn n l). apply in_or_app. left. exact Hin.
Qed.

Lemma In_skipn {A : Type} (n : nat) (l : list A) (x : A) : In x (skipn n l) -> In x l.
Proof.
  intros Hin. rewrite <- (firstn_skipn n l). apply in_or_app. right. exact Hin.
Qed.

(** X12.  What a list holds.  Starting without envelopes or claims, after any
    requests, whatever the page: the total is the number of envelopes the
    direction is about (those the caller has a claim on for [received], those
    the caller created otherwise); every row of the page is such an envelope
    of the table; and no envelope comes twice, also not through the join. *)
Theorem list_contents (byCreatedAt : list RedEnvelope.t -> list RedEnvelope.t)
    (st : Store) (ops : list Op) (ctx : Context) (req : ListRequest)
    (r : ListResponse) :
  (forall rows, Permutation rows (byCreatedAt rows)) ->
  red_envelopes st = [] -> red_envelope_claims st = [] ->
  List byCreatedAt ctx req (run ops st) = OK r ->
  ListResponse_Total r
  = Z.of_nat (List.length
                (filter (wanted (currentUser ctx) (ListRequest_Type req) (run ops st))
                        (red_envelopes (run ops st))))
  /\ NoDup (ListResponse_RedEnvelopes r)
  /\ forall e, In e (ListResponse_RedEnvelopes r) ->
       In e (red_envelopes (run ops st))
       /\ wanted (currentUser ctx) (ListRequest_Type req) (run ops st) e = true.
Proof.
  intros Hperm He Hc Hlist.
  assert (Hkeys : NoDup (map claimKey (red_envelope_claims (run ops st)))).
  { apply (Changes_claimKeys st); [apply run_Changes|]. rewrite Hc. constructor. }
  assert (Hrows : NoDup (red_envelopes (run ops st))).
  { destruct (Changes_ledger st (run ops st) (run_Changes ops st)
                (ledger_empty st He Hc)) as [(Hids & _) _].
    exact (NoDup_map_inv _ _ Hids). }
  unfold List in Hlist.
  destruct (ShouldBindJSON_List req); cbn [negb] in Hlist; [|discriminate].
  injection Hlist as <-.
  cbn [ListResponse_Total ListResponse_RedEnvelopes].
  rewrite (listQuery_wanted _ _ _ Hkeys).
  set (query := filter _ (red_envelopes (run ops st))).
  assert (Hq : NoDup (byCreatedAt query)).
  { eapply Permutation_NoDup; [apply Hperm|]. apply NoDup_filter. exact Hrows. }
  split; [reflexivity|]. unfold Limit, Offset. split.
  - destruct (_ <? 0); [|apply NoDup_firstn]; apply NoDup_skipn; exact Hq.
  - intros e Hin.
    assert (Hsorted : In e (byCreatedAt query)).
    { destruct (_ <? 0); [|apply In_firstn in Hin]; apply In_skipn in Hin; exact Hin. }
    apply (Permutation_in _ (Permutation_sym (Hperm query))) in Hsorted.
    apply filter_In in Hsorted. exact Hsorted.
Qed.

Lemma list_contents_witness :
  exists r,
    List (@rev RedEnvelope.t) (sampleContext 3 5) (mkListRequest 1 10 "received")
         (run sampleRequests sampleStore) = OK r
    /\ ListResponse_Total r = 1
    /\ NoDup (ListResponse_RedEnvelopes r).
Proof.
  assert (Hr : exists r, List (@rev RedEnvelope.t) (sampleContext 3 5)
                              (mkListRequest 1 10 "received")
                              (run sampleRequests sampleStore) = OK r)
    by (eexists; vm_compute; reflexivity).
  destruct Hr as [r Hr]. exists r. split; [exact Hr|].
  destruct (list_contents (@rev RedEnvelope.t) sampleStore sampleRequests
              (sampleContext 3 5) (mkListRequest 1 10 "received") r
              (fun rows => Permutation_rev rows) eq_refl eq_refl Hr)
    as (Htotal & Hnodup & _).
  split; [|exact Hnodup]. rewrite Htotal. vm_compute. reflexivity.
Defined.

(** ** The journal *)

Lemma map_Updates_same {A B : Type} (f : A -> B) (cond : A -> bool) (set : A -> A)
    (rows : list A) :
  (forall row, f (set row) = f row) ->
  map f (Updates cond set rows) = map f rows.
Proof.
  intros Hsame. unfold Updates. rewrite map_map. apply map_ext.
  intros row. destruct (cond row); [apply Hsame|reflexivity].
Qed.

Lemma journalled_tables (st st' : Store) :
  red_envelopes st' = red_envelopes st ->
  red_envelope_claims st' = red_envelope_claims st ->
  orders st' = orders st ->
  journalled st -> journalled st'.
Proof. unfold journalled. intros -> -> ->. exact (fun H => H). Qed.

Lemma Create_journalled (ctx : Context) (req : CreateRequest.t) (code : string)
    (st : Store) :
  journalled st -> journalled (fst (Create ctx req code st)).
Proof.
  intros Hj.
  destruct (Create_inv ctx req code st) as [(f & _ & He & Hc & _ & Ho)|(user & H)].
  - exact (journalled_tables _ _ He Hc Ho Hj).
  - destruct H as (_ & _ & _ & _ & _ & _ & _ & ->). destruct Hj as [Hs Hr].
    unfold journalled, sends, receipts in *.
    cbn [fst orders red_envelopes red_envelope_claims].
    rewrite !filter_app, !map_app. cbn [filter Order.Type_ map app].
    rewrite app_nil_r, Hs, Hr. split; reflexivity.
Qed.

Lemma Claim_journalled (ctx : Context) (req : ClaimRequest) (raw : Z) (st : Store) :
  journalled st -> journalled (fst (Claim ctx req raw st)).
Proof.
  intros Hj.
  destruct (Claim_inv ctx req raw st)
    as [(f & _ & He & Hc & _ & Ho)|(e & amt & _ & _ & Hamt & Htx & _)].
  - exact (journalled_tables _ _ He Hc Ho Hj).
  - pose proof (Transaction_claimWrites ctx raw e st) as Hw. rewrite Hamt in Hw.
    destruct Hw as (st' & Heq & Hclaims & Hrows & _ & Horders).
    rewrite Htx, Heq. cbn [fst]. destruct Hj as [Hs Hr].
    unfold journalled, sends, receipts in *.
    rewrite Hclaims, Hrows, Horders.
    rewrite !filter_app, !map_app. cbn [filter Order.Type_ map app].
    rewrite app_nil_r, Hs, Hr.
    rewrite map_Updates_same by reflexivity. split; reflexivity.
Qed.

Lemma refundOne_journalled (now : Time) (envelope : RedEnvelope.t) (st : Store) :
  journalled st -> journalled (refundOne now envelope st).
Proof.
  intros [Hs Hr]. unfold journalled, sends, receipts in *.
  rewrite refundOne_rows, refundOne_claims.
  rewrite map_Updates_same by reflexivity.
  unfold refundOne, Transaction, refundTx.
  destruct (IsPositive (RedEnvelope.RemainingAmount envelope));
    cbn [fst orders with_orders add_balance with_users with_red_envelopes begin].
  - rewrite !filter_app, !map_app. cbn [filter Order.Type_ map app].
    rewrite !app_nil_r, Hs, Hr. split; reflexivity.
  - rewrite Hs, Hr. split; reflexivity.
Qed.

Lemma apply_journalled (st : Store) (op : Op) :
  journalled st -> journalled (apply st op).
Proof.
  intros Hj. destruct op as [ctx req code|ctx req raw|now|now envelope]; cbn [apply].
  - apply Create_journalled. exact Hj.
  - apply Claim_journalled. exact Hj.
  - unfold refundExpiredRedEnvelopes. generalize (expiredEnvelopes now st).
    intros l. revert st Hj. induction l as [|e l IH]; intros st Hj; [exact Hj|].
    cbn [refundAll fold_left]. apply IH. apply refundOne_journalled. exact Hj.
  - apply refundOne_journalled. exact Hj.
Qed.

(** X13.  The journal accounts for every envelope and every claim.  Starting
    without envelopes, claims or entries, after any operations: the send
    entries of the journal are the envelopes, one for one and in order, each
    from the creator to the creator for the envelope's total; the receive
    entries are the claim rows, one for one and in order, each to the
    claimant for the amount of the claim. *)
Theorem journal_matches_tables (st : Store) (ops : list Op) :
  red_envelopes st = [] -> red_envelope_claims st = [] -> orders st = [] ->
  map (fun o => (Order.PayerUserID o, Order.PayeeUserID o, Order.Amount o))
      (sends (orders (run ops st)))
  = map (fun e => (RedEnvelope.CreatorID e, RedEnvelope.CreatorID e,
                   RedEnvelope.TotalAmount e))
        (red_envelopes (run ops st))
  /\ map (fun o => (Order.PayeeUserID o, Order.Amount o))
         (receipts (orders (run ops st)))
     = map (fun c => (RedEnvelopeClaim.UserID c, RedEnvelopeClaim.Amount c))
           (red_envelope_claims (run ops st)).
Proof.
  intros He Hc Ho.
  assert (Hj : journalled st)
    by (unfold journalled; rewrite He, Hc, Ho; split; reflexivity).
  clear He Hc Ho. revert st Hj. unfold run.
  induction ops as [|op ops IH]; intros st Hj; [exact Hj|].
  cbn [fold_left]. apply IH. apply apply_journalled. exact Hj.
Qed.

Lemma journal_matches_tables_witness :
  map (fun o => (Order.PayeeUserID o, Order.Amount o))
      (receipts (orders (run (sampleRequests ++ sampleSweep) sampleStore)))
  = [(2, New 42 (-2)); (3, New 100 (-2))].
Proof.
  rewrite (proj2 (journal_matches_tables sampleStore (sampleRequests ++ sampleSweep)
                    eq_refl eq_refl eq_refl)).
  vm_compute. reflexivity.
Defined.

(** ** Redis keys and JSON values *)

Lemma append_cancel (p a b : string) : (p ++ a = p ++ b)%string -> a = b.
Proof.
  induction p as [|c p IH]; cbn; intros H; [exact H|].
  injection H as H. exact (IH H).
Qed.

Lemma PrefixedKey_append (cfg : RedisConfig) (key : string) :
  PrefixedKey cfg key = (KeyPrefix cfg ++ key)%string.
Proof.
  unfold PrefixedKey. destruct (String.eqb_spec (KeyPrefix cfg) "") as [->|_];
    reflexivity.
Qed.

(** X14.  Prefixed names do not collide.  Under one configuration the
    prefixed key and the prefixed queue name are the prefix followed by the
    name, whether or not the prefix is empty; so two keys get the same
    prefixed key only if they are the same key, likewise for queue names, and
    a key and a queue name are prefixed to the same string only if they are
    the same name. *)
Theorem prefixed_names_do_not_collide (cfg : RedisConfig) (a b : string) :
  PrefixedKey cfg a = (KeyPrefix cfg ++ a)%string
  /\ PrefixedQueue cfg a = (KeyPrefix cfg ++ a)%string
  /\ (PrefixedKey cfg a = PrefixedKey cfg b -> a = b)
  /\ (PrefixedQueue cfg a = PrefixedQueue cfg b -> a = b)
  /\ (PrefixedKey cfg a = PrefixedQueue cfg b -> a = b).
Proof.
  assert (Hkey : forall s, PrefixedKey cfg s = (KeyPrefix cfg ++ s)%string)
    by (intros s; apply PrefixedKey_append).
  assert (Hqueue : forall s, PrefixedQueue cfg s = (KeyPrefix cfg ++ s)%string).
  { intros s. unfold PrefixedQueue.
    destruct (String.eqb_spec (KeyPrefix cfg) "") as [->|_]; reflexivity. }
  split; [apply Hkey|]. split; [apply Hqueue|].
  split; [|split].
  - rewrite !Hkey. apply append_cancel.
  - rewrite !Hqueue. apply append_cancel.
  - rewrite Hkey, Hqueue. apply append_cancel.
Qed.

Lemma sameField_refl (key field value : string) :
  sameField key field (key, field, value) = true.
Proof. unfold sameField. cbn. rewrite !String.eqb_refl. reflexivity. Qed.

Lemma HGet_HSet_same (key field value : string) (r : Hashes) :
  HGet key field (HSet key field value r) = inr value.
Proof. unfold HGet, HSet. cbn [find]. rewrite sameField_refl. reflexivity. Qed.

Lemma HGet_HSet_other (key field value key' field' : string) (r : Hashes) :
  key' <> key \/ field' <> field ->
  HGet key' field' (HSet key field value r) = HGet key' field' r.
Proof.
  intros Hother. unfold HGet, HSet. cbn [find].
  assert (Hne : sameField key' field' (key, field, value) = false).
  { unfold sameField. cbn. apply andb_false_iff.
    destruct Hother as [H|H]; [left|right]; apply String.eqb_neq; congruence. }
  rewrite Hne. f_equal.
  induction r as [|entry r IH]; [reflexivity|]. cbn [filter find].
  destruct (sameField key field entry) eqn:Hs; cbn [negb find].
  - assert (Hs' : sameField key' field' entry = false).
    { unfold sameField in *. apply andb_prop in Hs. destruct Hs as [Hk Hf].
      apply String.eqb_eq in Hk. apply String.eqb_eq in Hf.
      apply andb_false_iff.
      destruct Hother as [H|H]; [left|right]; apply String.eqb_neq; congruence. }
    rewrite Hs'. exact IH.
  - destruct (sameField key' field' entry); [reflexivity|exact IH].
Qed.

(** X15.  A value stored as JSON is read back.  For a type whose encoding decodes
    to the value encoded: [HSetJSON] either fails to encode and leaves the
    hashes as they are, or succeeds, and then [HGetJSON] on the same hash key
    and field returns the value stored, while on any other hash key or field
    it answers as it did before. *)
Theorem json_values_are_read_back {T : Type} (marshal : T -> option string)
    (unmarshal : string -> option T) (cfg : RedisConfig)
    (hashKey fieldKey : string) (data : T) (r : Hashes) :
  (forall x json, marshal x = Some json -> unmarshal json = Some x) ->
  match HSetJSON marshal cfg hashKey fieldKey data r with
  | (r', Some err) => err = MarshalError /\ r' = r /\ marshal data = None
  | (r', None) =>
      HGetJSON unmarshal cfg hashKey fieldKey r' = inr data
      /\ forall hashKey' fieldKey',
           hashKey' <> hashKey \/ fieldKey' <> fieldKey ->
           HGetJSON unmarshal cfg hashKey' fieldKey' r'
           = HGetJSON unmarshal cfg hashKey' fieldKey' r
  end.
Proof.
  intros Hcodec. unfold HSetJSON.
  destruct (marshal data) as [json|] eqn:Hm; [|repeat split].
  split.
  - unfold HGetJSON. rewrite HGet_HSet_same, (Hcodec _ _ Hm). reflexivity.
  - intros hashKey' fieldKey' Hother. unfold HGetJSON.
    rewrite HGet_HSet_other; [reflexivity|].
    destruct Hother as [Hk|Hf]; [left|right; exact Hf].
    intros Heq. apply Hk. rewrite !PrefixedKey_append in Heq.
    exact (append_cancel _ _ _ Heq).
Qed.

Lemma json_values_are_read_back_witness :
  let marshal := fun b : bool => Some (if b then "true" else "false")%string in
  let unmarshal := fun s : string =>
                     if String.eqb s "true" then Some true
                     else if String.eqb s "false" then Some false else None in
  let cfg := mkRedisConfig "credit:" in
  HGetJSON unmarshal cfg "flags" "red_envelope"
           (fst (HSetJSON marshal cfg "flags" "red_envelope" true
                          [("credit:flags", "red_envelope", "false")%string]))
  = inr true.
Proof.
  cbv zeta.
  pose proof (json_values_are_read_back
                (fun b : bool => Some (if b then "true" else "false")%string)
                (fun s : string =>
                   if String.eqb s "true" then Some true
                   else if String.eqb s "false" then Some false else None)
                (mkRedisConfig "credit:") "flags" "red_envelope" true
                [("credit:flags", "red_envelope", "false")%string]) as H.
  cbv beta iota delta [HSetJSON] in H. apply H.
  intros [] json Hjson; injection Hjson as <-; reflexivity.
Defined.

(** ** Balances stay non-negative *)

Lemma units_sign (d : Decimal) : -2 <= exp d -> (0 <= units 2 d <-> 0 <= value d).
Proof.
  intros He. unfold units. pose proof (pow10_pos (exp d + 2) ltac:(lia)). nia.
Qed.

(** Rewriting the balance of one user by a change that keeps it in whole
    cents and non-negative. *)
Lemma users_update (uid : Z) (change : Decimal -> Decimal) (rows : list User.t) :
  NoDup (map User.ID rows) ->
  (forall u, In u rows -> -2 <= exp (User.AvailableBalance u)) ->
  (forall u, In u rows -> 0 <= value (User.AvailableBalance u)) ->
  (forall u, In u rows -> User.ID u = uid ->
             -2 <= exp (change (User.AvailableBalance u))
             /\ 0 <= value (change (User.AvailableBalance u))) ->
  let rows' := Updates (fun u => User.ID u =? uid)
                       (fun u => User.mk (User.ID u) (change (User.AvailableBalance u)))
                       rows in
  NoDup (map User.ID rows')
  /\ (forall u, In u rows' -> -2 <= exp (User.AvailableBalance u))
  /\ (forall u, In u rows' -> 0 <= value (User.AvailableBalance u)).
Proof.
  intros Hnd Hexp Hpos Hchange rows'. subst rows'. split.
  - rewrite map_Updates_same by reflexivity. exact Hnd.
  - split; intros u Hin; apply In_Updates in Hin; destruct Hin as (y & Hy & ->);
      destruct (Z.eqb_spec (User.ID y) uid) as [Hid|_]; cbn [User.AvailableBalance];
      try (apply Hchange; assumption); auto.
Qed.

Lemma sound_tables (st st' : Store) :
  Change st st' -> red_envelopes st' = red_envelopes st -> users st' = users st ->
  sound st -> sound st'.
Proof.
  intros Hch He Hu (Hl & Ha & Hs & Ht). unfold sound, accounts, solvent.
  rewrite He, Hu. split; [exact (Change_ledger _ _ Hch Hl)|]. auto.
Qed.

Lemma Create_sound (ctx : Context) (req : CreateRequest.t) (code : string) (st : Store) :
  CreateRequest.Type_ req = RedEnvelopeTypeRandom ->
  sound st -> sound (fst (Create ctx req code st)).
Proof.
  intros Hrandom Hsound. pose proof (Create_Change ctx req code st) as Hch.
  destruct (Create_inv ctx req code st) as [(f & _ & He & _ & Hu & _)|(user & H)];
    [exact (sound_tables _ _ Hch He Hu Hsound)|].
  destruct H as (Hfirst & Hfunds & _ & Hexp & _ & _ & _ & Heq).
  destruct Hsound as (Hl & (Hnd & Hcents) & Hs & Ht).
  split; [exact (Change_ledger _ _ Hch Hl)|]. rewrite Heq in *. clear Heq Hch.
  cbn [fst users red_envelopes]. unfold sound, accounts, solvent.
  cbn [users red_envelopes].
  apply find_some in Hfirst. destruct Hfirst as [Huser _].
  destruct (users_update (User.ID user)
              (fun b => Sub b (CreateRequest.TotalAmount req)) (users st)
              Hnd Hcents Hs) as (Hnd' & Hcents' & Hs').
  { intros u Hu Hid.
    assert (u = user) by (eapply same_user_same_row; eassumption). subst u.
    unfold Exponent in Hexp.
    destruct (Sub_cents (User.AvailableBalance user) (CreateRequest.TotalAmount req)
                Hexp (Hcents user Huser)) as [He Hunits].
    split; [exact He|]. apply units_sign; [exact He|]. rewrite Hunits.
    rewrite (LessThan_units 2) in Hfunds
      by (try (pose proof (Hcents user Huser)); lia).
    apply Z.ltb_ge in Hfunds. lia. }
  split; [split; assumption|]. split; [exact Hs'|].
  intros e Hin. apply in_app_or in Hin. destruct Hin as [Hin|[<-|[]]];
    [apply Ht; exact Hin|exact Hrandom].
Qed.

Lemma Updates_types (cond : RedEnvelope.t -> bool) (n : Z) (amount : Decimal)
    (s : RedEnvelopeStatus) (rows : list RedEnvelope.t) :
  (forall e, In e rows -> RedEnvelope.Type_ e = RedEnvelopeTypeRandom) ->
  forall e, In e (Updates cond (set_remaining n amount s) rows) ->
            RedEnvelope.Type_ e = RedEnvelopeTypeRandom.
Proof.
  intros Ht e Hin. apply In_Updates in Hin. destruct Hin as (y & Hy & ->).
  destruct (cond y); [cbn|]; apply Ht; exact Hy.
Qed.

Lemma credit_sound (st st' : Store) (uid : Z) (amount : Decimal)
    (cond : RedEnvelope.t -> bool) (n : Z) (left : Decimal) (s : RedEnvelopeStatus) :
  Change st st' ->
  red_envelopes st' = Updates cond (set_remaining n left s) (red_envelopes st) ->
  users st' = users (add_balance uid amount st) ->
  -2 <= exp amount -> 0 <= value amount ->
  sound st -> sound st'.
Proof.
  intros Hch He Hu Hexp Hpos (Hl & (Hnd & Hcents) & Hs & Ht).
  split; [exact (Change_ledger _ _ Hch Hl)|].
  unfold accounts, solvent. rewrite He, Hu. unfold add_balance. cbn [users with_users].
  destruct (users_update uid (fun b => Add b amount) (users st) Hnd Hcents Hs)
    as (Hnd' & Hcents' & Hs').
  { intros u Hin _.
    destruct (Add_cents (User.AvailableBalance u) amount Hexp (Hcents u Hin))
      as [Hea Hunits].
    split; [exact Hea|]. apply units_sign; [exact Hea|]. rewrite Hunits.
    pose proof (proj2 (units_sign _ (Hcents u Hin)) (Hs u Hin)).
    pose proof (proj2 (units_sign _ Hexp) Hpos). lia. }
  split; [split; assumption|]. split; [exact Hs'|].
  apply Updates_types. exact Ht.
Qed.

Lemma Claim_sound (ctx : Context) (req : ClaimRequest) (raw : Z) (st : Store) :
  sound st -> sound (fst (Claim ctx req raw st)).
Proof.
  intros Hsound. pose proof (Claim_Change ctx req raw st) as Hch.
  destruct (Claim_inv ctx req raw st)
    as [(f & _ & He & _ & Hu & _)|(e & amt & Hlock & Hpass & Hamt & Htx & _)];
    [exact (sound_tables _ _ Hch He Hu Hsound)|].
  pose proof (Transaction_claimWrites ctx raw e st) as Hw. rewrite Hamt in Hw.
  destruct Hw as (st' & Heq & _ & Hrows & Husers & _).
  rewrite Htx, Heq in *. cbn [fst] in *.
  apply lockedEnvelope_In in Hlock.
  destruct Hpass as (Hactive & _ & Hcount & _).
  pose proof Hsound as (Hl & _ & _ & Ht).
  destruct (proj2 Hl e Hlock ltac:(rewrite Hactive; discriminate))
    as (_ & Hexp & _ & Hrange).
  pose proof (random_share_within raw e amt (Ht e Hlock) Hamt Hexp
                (proj1 (Hrange (Ht e Hlock))) Hcount) as [Hshare _].
  pose proof (claimedAmountOf_exp raw e amt Hamt Hexp Hcount) as Hea.
  eapply credit_sound; try eassumption. apply units_sign; assumption.
Qed.

Lemma refundOne_sound (now : Time) (envelope : RedEnvelope.t) (st : Store) :
  -2 <= exp (RedEnvelope.RemainingAmount envelope) ->
  sound st -> sound (refundOne now envelope st).
Proof.
  intros Hexp Hsound. pose proof (refundOne_Change now envelope st) as Hch.
  pose proof (refundOne_rows now envelope st) as Hrows.
  destruct (IsPositive (RedEnvelope.RemainingAmount envelope)) eqn:Hpos.
  - eapply credit_sound; try eassumption.
    + unfold refundOne, Transaction, refundTx. rewrite Hpos. reflexivity.
    + unfold IsPositive, Sign in Hpos. apply Z.eqb_eq in Hpos.
      destruct (value (RedEnvelope.RemainingAmount envelope)); cbn in Hpos; lia.
  - destruct Hsound as (Hl & Ha & Hs & Ht).
    split; [exact (Change_ledger _ _ Hch Hl)|].
    assert (Hu : users (refundOne now envelope st) = users st)
      by (unfold refundOne, Transaction, refundTx; rewrite Hpos; reflexivity).
    unfold accounts, solvent. rewrite Hu, Hrows.
    split; [exact Ha|]. split; [exact Hs|]. apply Updates_types. exact Ht.
Qed.

Lemma apply_sound (st : Store) (op : Op) :
  randomOnly op -> sound st -> sound (apply st op).
Proof.
  intros Hop Hsound.
  destruct op as [ctx req code|ctx req raw|now|now envelope]; cbn [apply randomOnly] in *.
  - apply Create_sound; assumption.
  - apply Claim_sound; assumption.
  - unfold refundExpiredRedEnvelopes.
    assert (Hl : forall e, In e (expiredEnvelopes now st) ->
                           -2 <= exp (RedEnvelope.RemainingAmount e)).
    { intros e He. unfold expiredEnvelopes in He. apply filter_In in He.
      destruct He as [Hin Hq]. apply andb_prop in Hq. destruct Hq as [Hq _].
      apply andb_prop in Hq. destruct Hq as [Hactive _].
      apply status_eqb_eq in Hactive. destruct Hsound as ((_ & Hacc) & _).
      destruct (Hacc e Hin ltac:(rewrite Hactive; discriminate)) as (_ & Hexp & _).
      exact Hexp. }
    revert Hl. generalize (expiredEnvelopes now st). intros l. revert st Hsound.
    induction l as [|e l IH]; intros st Hsound Hl; [exact Hsound|].
    cbn [refundAll fold_left]. apply IH.
    + apply refundOne_sound; [apply Hl; left; reflexivity|exact Hsound].
    + intros e' He'. apply Hl. right. exact He'.
  - destruct Hop.
Qed.

(** X16.  Random envelopes never drive a balance below zero.  Start with one row
    per user, whole-cent balances none of which is negative, and no
    envelopes; serve any requests one after the other in which every
    envelope created is Random.  Then no balance is ever negative: a creator
    is debited at most what they have, and a claimant is never credited a
    negative share. *)
Theorem random_envelopes_keep_balances (st : Store) (ops : list Op) :
  red_envelopes st = [] -> red_envelope_claims st = [] ->
  accounts st -> solvent st ->
  (forall op, In op ops -> randomOnly op) ->
  forall u, In u (users (run ops st)) -> 0 <= value (User.AvailableBalance u).
Proof.
  intros He Hc Ha Hs Hops.
  assert (Hsound : sound st).
  { split; [apply ledger_empty; assumption|]. split; [exact Ha|].
    split; [exact Hs|]. rewrite He. intros e []. }
  clear He Hc Ha Hs.
  enough (Hfinal : sound (run ops st)) by (destruct Hfinal as (_ & _ & H & _); exact H).
  revert st Hsound. unfold run.
  induction ops as [|op ops IH]; intros st Hsound; [exact Hsound|].
  cbn [fold_left]. apply IH.
  - intros op' Hin. apply Hops. right. exact Hin.
  - apply apply_sound; [apply Hops; left; reflexivity|exact Hsound].
Qed.

Lemma random_envelopes_keep_balances_witness :
  let ops :=
    [OpCreate (sampleContext 1 0)
       (CreateRequest.mk RedEnvelopeTypeRandom (New 1000 (-2)) 2 "" "123456") "abc";
     OpClaim (sampleContext 2 1) (mkClaimRequest "abc") 41;
     OpSweep (100 * Hour)] in
  accounts sampleStore /\ solvent sampleStore
  /\ forall u, In u (users (run ops sampleStore)) -> 0 <= value (User.AvailableBalance u).
Proof.
  cbv zeta.
  assert (Hacc : accounts sampleStore).
  { split.
    - cbn. repeat constructor; cbn; intuition discriminate.
    - intros u [<-|[<-|[<-|[]]]]; cbn; lia. }
  assert (Hsol : solvent sampleStore)
    by (intros u [<-|[<-|[<-|[]]]]; cbn; lia).
  split; [exact Hacc|]. split; [exact Hsol|].
  apply (random_envelopes_keep_balances sampleStore
           [OpCreate (sampleContext 1 0)
              (CreateRequest.mk RedEnvelopeTypeRandom (New 1000 (-2)) 2 "" "123456")
              "abc";
            OpClaim (sampleContext 2 1) (mkClaimRequest "abc") 41;
            OpSweep (100 * Hour)]
           eq_refl eq_refl Hacc Hsol).
  intros op [<-|[<-|[<-|[]]]]; cbn; auto.
Defined.

(** ** Random envelopes that hold a cent per share *)

Lemma units_one_cent : units 2 NewFromFloat_0_01 = 1.
Proof. reflexivity. Qed.

Lemma underfunded_units (remaining : Decimal) (count : Z) :
  -2 <= exp remaining ->
  LessThan remaining (Mul NewFromFloat_0_01 (NewFromInt count))
  = (units 2 remaining <? count).
Proof.
  intros He. rewrite (LessThan_units 2) by exp_side.
  rewrite units_Mul_int, units_one_cent. f_equal. lia.
Qed.

(** One claim on an envelope that holds a cent per share: the share is at
    least a cent and leaves a cent for every share still to come. *)
Lemma funded_share (raw : Z) (e : RedEnvelope.t) (amount : Decimal) :
  RedEnvelope.Type_ e = RedEnvelopeTypeRandom ->
  claimedAmountOf raw e = Some amount ->
  -2 <= exp (RedEnvelope.RemainingAmount e) ->
  0 < RedEnvelope.RemainingCount e ->
  RedEnvelope.RemainingCount e <= units 2 (RedEnvelope.RemainingAmount e) ->
  -2 <= exp amount
  /\ 1 <= units 2 amount
  /\ RedEnvelope.RemainingCount e - 1
     <= units 2 (RedEnvelope.RemainingAmount e) - units 2 amount.
Proof.
  intros Htype Hamt Hexp Hcount Hfunded.
  pose proof (claimedAmountOf_exp raw e amount Hamt Hexp Hcount) as Hea.
  split; [exact Hea|].
  destruct (Z.eq_dec (RedEnvelope.RemainingCount e) 1) as [Hone|Hmore].
  - rewrite (claimedAmountOf_last raw e Hone) in Hamt.
    assert (amount = RedEnvelope.RemainingAmount e) by congruence. subst amount. lia.
  - unfold claimedAmountOf in Hamt. rewrite Htype in Hamt.
    assert (Hmain : LessThan (RedEnvelope.RemainingAmount e)
                             (Mul NewFromFloat_0_01
                                  (NewFromInt (RedEnvelope.RemainingCount e))) = false)
      by (rewrite underfunded_units by exact Hexp; apply Z.ltb_ge; exact Hfunded).
    assert (Htwo : 2 <= RedEnvelope.RemainingCount e) by lia.
    destruct (calculateRandomAmount_main_bounds raw _ _ amount Htwo Hmain Hamt)
      as (Hlow & Hhigh & _).
    rewrite (LessThanOrEqual_units 2) in Hlow by exp_side.
    rewrite (LessThanOrEqual_units 2) in Hhigh by exp_side.
    rewrite units_one_cent in Hlow.
    rewrite units_Sub, units_Mul_int, units_one_cent in Hhigh by exp_side.
    apply Z.leb_le in Hlow. apply Z.leb_le in Hhigh. lia.
Qed.

Lemma Create_funded (ctx : Context) (req : CreateRequest.t) (code : string) (st : Store) :
  fundedRequest (OpCreate ctx req code) ->
  (forall e, In e (red_envelopes st) -> funded e) ->
  forall e, In e (red_envelopes (fst (Create ctx req code st))) -> funded e.
Proof.
  intros Hreq Hinv.
  destruct (Create_inv ctx req code st) as [(f & _ & He & _)|(user & H)];
    [rewrite He; exact Hinv|].
  destruct H as (_ & _ & _ & Hexp & _ & _ & _ & ->). cbn [fst red_envelopes].
  intros e Hin. apply in_app_or in Hin. destruct Hin as [Hin|[<-|[]]];
    [apply Hinv; exact Hin|].
  intros Htype _. cbn [RedEnvelope.Type_ RedEnvelope.RemainingCount
                       RedEnvelope.RemainingAmount] in *.
  specialize (Hreq Htype). unfold Exponent in Hexp.
  rewrite underfunded_units in Hreq by exact Hexp. apply Z.ltb_ge in Hreq. exact Hreq.
Qed.

Lemma Claim_funded (ctx : Context) (req : ClaimRequest) (raw : Z) (st : Store) :
  ledger st ->
  (forall e, In e (red_envelopes st) -> funded e) ->
  forall e, In e (red_envelopes (fst (Claim ctx req raw st))) -> funded e.
Proof.
  intros Hl Hinv.
  destruct (Claim_inv ctx req raw st)
    as [(f & _ & He & _)|(env & amt & Hlock & Hpass & Hamt & Htx & _)];
    [rewrite He; exact Hinv|].
  pose proof (Transaction_claimWrites ctx raw env st) as Hw. rewrite Hamt in Hw.
  destruct Hw as (st' & Heq & _ & Hrows & _).
  rewrite Htx, Heq. cbn [fst]. rewrite Hrows.
  apply lockedEnvelope_In in Hlock. destruct Hpass as (Hactive & _ & Hcount & _).
  intros e Hin. apply In_Updates in Hin. destruct Hin as (y & Hy & ->).
  destruct (Z.eqb_spec (RedEnvelope.ID y) (RedEnvelope.ID env)) as [Hid|_];
    [|apply Hinv; exact Hy].
  assert (y = env) by (eapply same_key_same_row; try eassumption; apply Hl).
  subst y. intros Htype _. cbn [set_remaining RedEnvelope.Type_] in Htype.
  cbn [set_remaining RedEnvelope.RemainingCount RedEnvelope.RemainingAmount].
  destruct (proj2 Hl env Hlock ltac:(rewrite Hactive; discriminate))
    as (_ & Hexp & _).
  destruct (funded_share raw env amt Htype Hamt Hexp Hcount
              (Hinv env Hlock Htype ltac:(rewrite Hactive; discriminate)))
    as (Hea & _ & Hleft).
  rewrite units_Sub by lia. exact Hleft.
Qed.

Lemma refundOne_funded (now : Time) (envelope : RedEnvelope.t) (st : Store) :
  (forall e, In e (red_envelopes st) -> funded e) ->
  forall e, In e (red_envelopes (refundOne now envelope st)) -> funded e.
Proof.
  intros Hinv e Hin. rewrite refundOne_rows in Hin.
  apply In_Updates in Hin. destruct Hin as (y & Hy & ->).
  destruct (_ && _); [|apply Hinv; exact Hy].
  intros _ Hs. cbn in Hs. congruence.
Qed.

Lemma apply_funded (st : Store) (op : Op) :
  fundedRequest op ->
  ledger st /\ (forall e, In e (red_envelopes st) -> funded e) ->
  ledger (apply st op) /\ (forall e, In e (red_envelopes (apply st op)) -> funded e).
Proof.
  intros Hop [Hl Hinv].
  split; [exact (Changes_ledger _ _ (apply_Changes st op) Hl)|].
  destruct op as [ctx req code|ctx req raw|now|now envelope]; cbn [apply].
  - apply Create_funded; assumption.
  - apply Claim_funded; assumption.
  - unfold refundExpiredRedEnvelopes. generalize (expiredEnvelopes now st).
    intros l. clear Hl. revert st Hinv.
    induction l as [|e l IH]; intros st Hinv; [exact Hinv|].
    cbn [refundAll fold_left]. apply IH. apply refundOne_funded. exact Hinv.
  - apply refundOne_funded. exact Hinv.
Qed.

(** X17.  Everybody gets at least a cent from a Random envelope that was paid in
    with a cent per share.  Starting without envelopes or claims, after any
    operations in which every Random envelope created holds at least 0.01
    per share: a claim on a Random envelope that succeeds pays at least
    0.01, the last one included. *)
Theorem funded_random_envelopes_pay_a_cent (st : Store) (ops : list Op)
    (ctx : Context) (req : ClaimRequest) (raw : Z) (resp : ClaimResponse) :
  red_envelopes st = [] -> red_envelope_claims st = [] ->
  (forall op, In op ops -> fundedRequest op) ->
  snd (Claim ctx req raw (run ops st)) = OK resp ->
  RedEnvelope.Type_ (ClaimResponse_RedEnvelope resp) = RedEnvelopeTypeRandom ->
  LessThanOrEqual NewFromFloat_0_01 (ClaimResponse_Amount resp) = true.
Proof.
  intros He Hc Hops Hok Htype.
  assert (Hinv : ledger (run ops st)
                 /\ forall e, In e (red_envelopes (run ops st)) -> funded e).
  { assert (Hstart : ledger st /\ forall e, In e (red_envelopes st) -> funded e)
      by (split; [apply ledger_empty; assumption|rewrite He; intros e []]).
    clear He Hc Hok. revert st Hstart. unfold run.
    induction ops as [|op ops IH]; intros st Hstart; [exact Hstart|].
    cbn [fold_left]. apply IH.
    - intros op' Hin. apply Hops. right. exact Hin.
    - apply apply_funded; [apply Hops; left; reflexivity|exact Hstart]. }
  destruct Hinv as [Hl Hfunded].
  destruct (Claim_inv ctx req raw (run ops st))
    as [(f & Hf & _)|(env & amt & Hlock & Hpass & Hamt & _ & Hsnd)];
    [rewrite Hok in Hf; discriminate|].
  rewrite Hok in Hsnd. injection Hsnd as ->.
  cbn [ClaimResponse_RedEnvelope ClaimResponse_Amount] in *.
  change (RedEnvelope.Type_ (afterClaim amt env)) with (RedEnvelope.Type_ env) in Htype.
  apply lockedEnvelope_In in Hlock. destruct Hpass as (Hactive & _ & Hcount & _).
  destruct (proj2 Hl env Hlock ltac:(rewrite Hactive; discriminate))
    as (_ & Hexp & _).
  destruct (funded_share raw env amt Htype Hamt Hexp Hcount
              (Hfunded env Hlock Htype ltac:(rewrite Hactive; discriminate)))
    as (Hea & Hcent & _).
  rewrite (LessThanOrEqual_units 2) by exp_side.
  rewrite units_one_cent. apply Z.leb_le. exact Hcent.
Qed.

Lemma funded_random_envelopes_pay_a_cent_witness :
  exists resp,
    snd (Claim (sampleContext 3 5) (mkClaimRequest "abc") 7
               (run sampleRequests sampleStore)) = OK resp
    /\ LessThanOrEqual NewFromFloat_0_01 (ClaimResponse_Amount resp) = true.
Proof.
  assert (Hr : exists resp, snd (Claim (sampleContext 3 5) (mkClaimRequest "abc") 7
                                       (run sampleRequests sampleStore)) = OK resp)
    by (eexists; vm_compute; reflexivity).
  destruct Hr as [resp Hr]. exists resp. split; [exact Hr|].
  apply (funded_random_envelopes_pay_a_cent sampleStore sampleRequests
           (sampleContext 3 5) (mkClaimRequest "abc") 7 resp eq_refl eq_refl).
  - intros op Hin. destruct Hin as [<-|[<-|[<-|[<-|[]]]]];
      try exact I; intros _; vm_compute; reflexivity.
  - exact Hr.
  - revert Hr. vm_compute. intros Hr. injection Hr as <-. reflexivity.
Defined.

(** ** Claims always get an answer *)

(** The share is defined for an envelope with shares left whose remaining
    amount, if it is Random, is a non-negative number of cents that fits an
    [int64]. *)
Lemma claimedAmountOf_defined (raw : Z) (e : RedEnvelope.t) :
  1 <= RedEnvelope.TotalCount e ->
  0 < RedEnvelope.RemainingCount e ->
  (RedEnvelope.Type_ e = RedEnvelopeTypeRandom ->
   -2 <= exp (RedEnvelope.RemainingAmount e)
   /\ 0 <= units 2 (RedEnvelope.RemainingAmount e) < 2 ^ 63) ->
  exists amount, claimedAmountOf raw e = Some amount.
Proof.
  intros Htotal Hcount Hrandom. unfold claimedAmountOf.
  destruct (RedEnvelope.Type_ e).
  - destruct (RedEnvelope.RemainingCount e =? 1); [eexists; reflexivity|].
    destruct (Div_defined (RedEnvelope.TotalAmount e)
                (NewFromInt (RedEnvelope.TotalCount e))) as [q Hq];
      [cbn [value NewFromInt]; lia|].
    rewrite Hq. eexists. reflexivity.
  - destruct (Hrandom eq_refl) as (Hexp & Hlow & Hhigh).
    destruct (Z.eq_dec (RedEnvelope.RemainingCount e) 1) as [Hone|Hmore].
    + unfold calculateRandomAmount. rewrite Hone. eexists. reflexivity.
    + assert (Htwo : 2 <= RedEnvelope.RemainingCount e) by lia.
      destruct (LessThan (RedEnvelope.RemainingAmount e)
                  (Mul NewFromFloat_0_01 (NewFromInt (RedEnvelope.RemainingCount e))))
        eqn:Hunder.
      * assert (Hvalue : 0 <= value (RedEnvelope.RemainingAmount e))
          by (apply units_sign; assumption).
        destruct (calculateRandomAmount_fallback raw _ _ Htwo Hvalue Hunder Hexp)
          as (q & share & _ & _ & Hshare & _).
        exists share. exact Hshare.
      * apply (calculateRandomAmount_main_defined raw _ _ Htwo Hunder).
        rewrite (LessThan_units 2) by exp_side.
        apply Z.ltb_lt. exact Hhigh.
Qed.

Ltac rejected :=
  let Hr := fresh "Hr" in intros Hr; injection Hr as <-; left; cbn; tauto.

(** A claim only fails otherwise when the share is not defined. *)
Lemma Claim_failure (ctx : Context) (req : ClaimRequest) (raw : Z) (st : Store)
    (f : Failure) :
  snd (Claim ctx req raw st) = Err f ->
  In f claimRejections
  \/ exists e, lockedEnvelope (ClaimRequest_Code req) st = Some e
               /\ passesChecks ctx e st
               /\ claimedAmountOf raw e = None.
Proof.
  unfold Claim, claimRejections.
  destruct (IsRedEnvelopeEnabled ctx); cbn [negb];
    [|rejected].
  destruct (ShouldBindJSON_Claim req); cbn [negb];
    [|rejected].
  unfold Transaction, claimTx.
  pose proof (lockedEnvelope_begin (ClaimRequest_Code req) st) as Hb.
  unfold lockedEnvelope in Hb at 1. rewrite Hb.
  destruct (lockedEnvelope (ClaimRequest_Code req) st) as [e|];
    [|rejected].
  destruct (RedEnvelope.Status e) eqn:Hs; cbn [status_eqb orb];
    try rejected.
  - destruct (Z.ltb_spec (RedEnvelope.ExpiresAt e) (Now ctx));
      [rejected|].
    destruct (Z.leb_spec (RedEnvelope.RemainingCount e) 0);
      [rejected|].
    change (red_envelope_claims (begin st)) with (red_envelope_claims st).
    destruct (hasClaim _ _ _) eqn:Hhas;
      [rejected|].
    unfold claimWrites. destruct (claimedAmountOf raw e) eqn:Hamt;
      [intros Hr; discriminate Hr|].
    intros _. right. exists e. repeat split; assumption.
  - destruct (Z.ltb_spec (RedEnvelope.ExpiresAt e) (Now ctx));
      rejected.
Qed.

Lemma units_Int64Cents : units 2 Int64Cents = 2 ^ 63.
Proof. reflexivity. Qed.

Lemma apply_bounded (st : Store) (op : Op) :
  boundedRequest op ->
  (forall e, In e (red_envelopes st) ->
             LessThan (RedEnvelope.TotalAmount e) Int64Cents = true) ->
  forall e, In e (red_envelopes (apply st op)) ->
            LessThan (RedEnvelope.TotalAmount e) Int64Cents = true.
Proof.
  intros Hop Hinv.
  assert (Hrefund : forall now envelope st,
             (forall e, In e (red_envelopes st) ->
                        LessThan (RedEnvelope.TotalAmount e) Int64Cents = true) ->
             forall e, In e (red_envelopes (refundOne now envelope st)) ->
                       LessThan (RedEnvelope.TotalAmount e) Int64Cents = true).
  { intros now envelope st0 H0 e Hin. rewrite refundOne_rows in Hin.
    apply In_Updates in Hin. destruct Hin as (y & Hy & ->).
    destruct (_ && _); [cbn|]; apply H0; exact Hy. }
  destruct op as [ctx req code|ctx req raw|now|now envelope]; cbn [apply].
  - destruct (Create_inv ctx req code st) as [(f & _ & He & _)|(user & H)];
      [rewrite He; exact Hinv|].
    destruct H as (_ & _ & _ & _ & _ & _ & _ & ->). cbn [fst red_envelopes].
    intros e Hin. apply in_app_or in Hin. destruct Hin as [Hin|[<-|[]]];
      [apply Hinv; exact Hin|exact Hop].
  - destruct (Claim_inv ctx req raw st)
      as [(f & _ & He & _)|(env & amt & _ & _ & Hamt & Htx & _)];
      [rewrite He; exact Hinv|].
    pose proof (Transaction_claimWrites ctx raw env st) as Hw. rewrite Hamt in Hw.
    destruct Hw as (st' & Heq & _ & Hrows & _).
    rewrite Htx, Heq. cbn [fst]. rewrite Hrows.
    intros e Hin. apply In_Updates in Hin. destruct Hin as (y & Hy & ->).
    destruct (_ =? _); [cbn|]; apply Hinv; exact Hy.
  - unfold refundExpiredRedEnvelopes. generalize (expiredEnvelopes now st).
    intros l. revert st Hinv.
    induction l as [|e l IH]; intros st Hinv; [exact Hinv|].
    cbn [refundAll fold_left]. apply IH. apply Hrefund. exact Hinv.
  - apply Hrefund. exact Hinv.
Qed.

(** X18.  A claim is always answered.  Starting without envelopes or claims,
    after any operations in which every envelope created holds less than
    [2 ^ 63] cents: a claim either succeeds or is turned down with one of the
    six conditions of [Claim]; the computation of the share never fails. *)
Theorem claims_are_answered (st : Store) (ops : list Op)
    (ctx : Context) (req : ClaimRequest) (raw : Z) (f : Failure) :
  red_envelopes st = [] -> red_envelope_claims st = [] ->
  (forall op, In op ops -> boundedRequest op) ->
  snd (Claim ctx req raw (run ops st)) = Err f ->
  In f claimRejections.
Proof.
  intros He Hc Hops Hf.
  destruct (Claim_failure ctx req raw (run ops st) f Hf)
    as [Hnamed|(e & Hlock & Hpass & Hnone)]; [exact Hnamed|exfalso].
  destruct (Changes_books st (run ops st) (run_Changes ops st) (books_empty st He Hc))
    as [Hl Hcounted].
  assert (Hbounded : forall e, In e (red_envelopes (run ops st)) ->
                               LessThan (RedEnvelope.TotalAmount e) Int64Cents = true).
  { assert (Hstart : forall e, In e (red_envelopes st) ->
                               LessThan (RedEnvelope.TotalAmount e) Int64Cents = true)
      by (rewrite He; intros e0 []).
    clear He Hc Hf Hlock Hpass Hl Hcounted. revert st Hstart. unfold run.
    induction ops as [|op ops IH]; intros st Hstart; [exact Hstart|].
    cbn [fold_left]. apply IH.
    - intros op' Hin. apply Hops. right. exact Hin.
    - apply apply_bounded; [apply Hops; left; reflexivity|exact Hstart]. }
  apply lockedEnvelope_In in Hlock. destruct Hpass as (Hactive & _ & Hcount & _).
  destruct (Hcounted e Hlock) as (Htotal & _).
  destruct (claimedAmountOf_defined raw e Htotal Hcount) as [amount Hamount];
    [|congruence].
  intros Htype.
  destruct (proj2 Hl e Hlock ltac:(rewrite Hactive; discriminate))
    as (Het & Hexp & _ & Hrange).
  specialize (Hrange Htype). specialize (Hbounded e Hlock).
  rewrite (LessThan_units 2) in Hbounded by exp_side.
  rewrite units_Int64Cents in Hbounded. apply Z.ltb_lt in Hbounded.
  split; [exact Hexp|lia].
Qed.

Lemma claims_are_answered_witness :
  snd (Claim (sampleContext 3 5) (mkClaimRequest "xyz") 7
             (run sampleRequests sampleStore)) = Err RedEnvelopeAlreadyClaimed
  /\ In RedEnvelopeAlreadyClaimed claimRejections.
Proof.
  assert (Hf : snd (Claim (sampleContext 3 5) (mkClaimRequest "xyz") 7
                          (run sampleRequests sampleStore))
               = Err RedEnvelopeAlreadyClaimed) by (vm_compute; reflexivity).
  split; [exact Hf|].
  apply (claims_are_answered sampleStore sampleRequests (sampleContext 3 5)
           (mkClaimRequest "xyz") 7 RedEnvelopeAlreadyClaimed eq_refl eq_refl).
  - intros op Hin. destruct Hin as [<-|[<-|[<-|[<-|[]]]]];
      try exact I; vm_compute; reflexivity.
  - exact Hf.
Defined.

(** ** Balances and the journal *)

(** One balance update together with its journal entry. *)
Lemma explained_step (journal : list Order.t) (o : Order.t) (uid : Z)
    (change : Decimal -> Decimal) (delta : Z) (start rows : list User.t) :
  (forall b, -2 <= exp b ->
             -2 <= exp (change b) /\ units 2 (change b) = units 2 b + delta) ->
  (forall u, movement u o = if u =? uid then delta else 0) ->
  Forall2 (explained journal) start rows ->
  Forall2 (explained (journal ++ [o])) start
          (Updates (fun u => User.ID u =? uid)
                   (fun u => User.mk (User.ID u) (change (User.AvailableBalance u)))
                   rows).
Proof.
  intros Hchange Hmove Hf. induction Hf as [|u0 u start rows Hu _ IH];
    [constructor|].
  cbn [Updates map]. constructor; [|exact IH].
  destruct Hu as (Hid & Hexp & Hbal). unfold explained.
  rewrite sumZ_app. cbn [sumZ fold_right]. rewrite Hmove.
  replace (User.ID u0 =? uid) with (User.ID u =? uid) by (rewrite Hid; reflexivity).
  destruct (User.ID u =? uid).
  - cbn [User.ID User.AvailableBalance].
    destruct (Hchange _ Hexp) as [He Hu']. repeat split; [exact Hid|exact He|lia].
  - cbv beta iota. repeat split; [exact Hid|exact Hexp|lia].
Qed.

Lemma Create_explained (ctx : Context) (req : CreateRequest.t) (code : string)
    (st : Store) (start : list User.t) :
  Forall2 (explained (orders st)) start (users st) ->
  Forall2 (explained (orders (fst (Create ctx req code st)))) start
          (users (fst (Create ctx req code st))).
Proof.
  intros Hf.
  destruct (Create_inv ctx req code st) as [(f & _ & _ & _ & Hu & Ho)|(user & H)];
    [rewrite Hu, Ho; exact Hf|].
  destruct H as (_ & _ & _ & Hexp & _ & _ & _ & ->). cbn [fst users orders].
  apply explained_step
    with (change := fun b => Sub b (CreateRequest.TotalAmount req))
         (delta := - units 2 (CreateRequest.TotalAmount req));
    [| |exact Hf].
  - intros b Hb. apply Sub_cents; assumption.
  - intros u. unfold movement. cbn [Order.Type_ Order.PayerUserID Order.Amount].
    rewrite (Z.eqb_sym u). reflexivity.
Qed.

Lemma credit_explained (st st' : Store) (uid payer : Z) (amount : Decimal)
    (type : OrderType) (now : Time) (start : list User.t) :
  type <> OrderTypeRedEnvelopeSend ->
  -2 <= exp amount ->
  users st' = users (add_balance uid amount st) ->
  orders st' = orders st ++ [Order.mk payer uid amount type now] ->
  Forall2 (explained (orders st)) start (users st) ->
  Forall2 (explained (orders st')) start (users st').
Proof.
  intros Htype Hexp -> -> Hf. unfold add_balance. cbn [users with_users].
  apply explained_step
    with (change := fun b => Add b amount) (delta := units 2 amount);
    [| |exact Hf].
  - intros b Hb. apply Add_cents; assumption.
  - intros u. unfold movement. cbn [Order.Type_ Order.PayeeUserID Order.Amount].
    rewrite (Z.eqb_sym u). destruct type; [contradiction| |]; reflexivity.
Qed.

Lemma Claim_explained (ctx : Context) (req : ClaimRequest) (raw : Z) (st : Store)
    (start : list User.t) :
  ledger st ->
  Forall2 (explained (orders st)) start (users st) ->
  Forall2 (explained (orders (fst (Claim ctx req raw st)))) start
          (users (fst (Claim ctx req raw st))).
Proof.
  intros Hl Hf.
  destruct (Claim_inv ctx req raw st)
    as [(f & _ & _ & _ & Hu & Ho)|(e & amt & Hlock & Hpass & Hamt & Htx & _)];
    [rewrite Hu, Ho; exact Hf|].
  pose proof (Transaction_claimWrites ctx raw e st) as Hw. rewrite Hamt in Hw.
  destruct Hw as (st' & Heq & _ & _ & Husers & Horders).
  rewrite Htx, Heq. cbn [fst].
  apply lockedEnvelope_In in Hlock. destruct Hpass as (Hactive & _ & Hcount & _).
  destruct (proj2 Hl e Hlock ltac:(rewrite Hactive; discriminate)) as (_ & Hexp & _).
  apply (credit_explained st st' (currentUser ctx) (RedEnvelope.CreatorID e) amt
           OrderTypeRedEnvelopeReceive (Now ctx) start);
    [discriminate| |exact Husers|exact Horders|exact Hf].
  exact (claimedAmountOf_exp raw e amt Hamt Hexp Hcount).
Qed.

Lemma refundOne_explained (now : Time) (envelope : RedEnvelope.t) (st : Store)
    (start : list User.t) :
  -2 <= exp (RedEnvelope.RemainingAmount envelope) ->
  Forall2 (explained (orders st)) start (users st) ->
  Forall2 (explained (orders (refundOne now envelope st))) start
          (users (refundOne now envelope st)).
Proof.
  intros Hexp Hf.
  destruct (IsPositive (RedEnvelope.RemainingAmount envelope)) eqn:Hpos.
  - apply (credit_explained st (refundOne now envelope st)
             (RedEnvelope.CreatorID envelope) (RedEnvelope.CreatorID envelope)
             (RedEnvelope.RemainingAmount envelope)
             (OrderTypeLiteral "red_envelope_refund") now start);
      [discriminate|exact Hexp| | |exact Hf];
      unfold refundOne, Transaction, refundTx; rewrite Hpos; reflexivity.
  - unfold refundOne, Transaction, refundTx. rewrite Hpos. exact Hf.
Qed.

Lemma apply_explained (st : Store) (op : Op) (start : list User.t) :
  wholeCents op ->
  ledger st ->
  Forall2 (explained (orders st)) start (users st) ->
  Forall2 (explained (orders (apply st op))) start (users (apply st op)).
Proof.
  intros Hop Hl Hf.
  destruct op as [ctx req code|ctx req raw|now|now envelope]; cbn [apply wholeCents] in *.
  - apply Create_explained. exact Hf.
  - apply Claim_explained; assumption.
  - unfold refundExpiredRedEnvelopes.
    assert (Hq : forall e, In e (expiredEnvelopes now st) ->
                           -2 <= exp (RedEnvelope.RemainingAmount e)).
    { intros e He. unfold expiredEnvelopes in He. apply filter_In in He.
      destruct He as [Hin Hq]. apply andb_prop in Hq. destruct Hq as [Hq _].
      apply andb_prop in Hq. destruct Hq as [Hactive _].
      apply status_eqb_eq in Hactive.
      destruct (proj2 Hl e Hin ltac:(rewrite Hactive; discriminate)) as (_ & Hexp & _).
      exact Hexp. }
    clear Hl. revert Hq. generalize (expiredEnvelopes now st). intros l.
    revert st Hf. induction l as [|e l IH]; intros st Hf Hq; [exact Hf|].
    cbn [refundAll fold_left]. apply IH.
    + apply refundOne_explained; [apply Hq; left; reflexivity|exact Hf].
    + intros e' He'. apply Hq. right. exact He'.
  - apply refundOne_explained; assumption.
Qed.

Lemma run_explained (ops : list Op) (st : Store) (start : list User.t) :
  (forall op, In op ops -> wholeCents op) ->
  ledger st ->
  Forall2 (explained (orders st)) start (users st) ->
  Forall2 (explained (orders (run ops st))) start (users (run ops st)).
Proof.
  unfold run. revert st. induction ops as [|op ops IH]; intros st Hops Hl Hstart;
    [exact Hstart|].
  cbn [fold_left]. apply IH.
  - intros op' Hin. apply Hops. right. exact Hin.
  - exact (Changes_ledger _ _ (apply_Changes st op) Hl).
  - apply apply_explained; [apply Hops; left; reflexivity|exact Hl|exact Hstart].
Qed.

(** X19.  Every balance is explained by the journal.  Start with whole-cent
    balances, no envelopes, no claims and an empty journal, and run any
    operations (a refund transaction on a row of the caller's choice only
    with a whole-cent amount).  Then the users are the same, in the same
    order, and each balance is the balance at the start, less the send entries
    the user paid, plus the receive and refund entries paid to the user. *)
Theorem balances_follow_the_journal (st : Store) (ops : list Op) :
  red_envelopes st = [] -> red_envelope_claims st = [] -> orders st = [] ->
  (forall u, In u (users st) -> -2 <= exp (User.AvailableBalance u)) ->
  (forall op, In op ops -> wholeCents op) ->
  Forall2 (fun before after =>
             User.ID after = User.ID before
             /\ units 2 (User.AvailableBalance after)
                = units 2 (User.AvailableBalance before)
                  + sumZ (movement (User.ID before)) (orders (run ops st)))
          (users st) (users (run ops st)).
Proof.
  intros He Hc Ho Hcents Hops.
  assert (Hstart : Forall2 (explained (orders st)) (users st) (users st)).
  { rewrite Ho. clear - Hcents. induction (users st) as [|u l IH]; constructor.
    - unfold explained. cbn [sumZ fold_right].
      repeat split; [apply Hcents; left; reflexivity|lia].
    - apply IH. intros u' Hu'. apply Hcents. right. exact Hu'. }
  pose proof (run_explained ops st (users st) Hops (ledger_empty st He Hc) Hstart)
    as Hfinal.
  eapply Forall2_impl; [|exact Hfinal]. intros a b (Hid & _ & Hbal).
  split; assumption.
Qed.

Lemma balances_follow_the_journal_witness :
  Forall2 (fun before after =>
             User.ID after = User.ID before
             /\ units 2 (User.AvailableBalance after)
                = units 2 (User.AvailableBalance before)
                  + sumZ (movement (User.ID before))
                         (orders (run (sampleRequests ++ sampleSweep) sampleStore)))
          (users sampleStore)
          (users (run (sampleRequests ++ sampleSweep) sampleStore)).
Proof.
  apply (balances_follow_the_journal sampleStore (sampleRequests ++ sampleSweep)
           eq_refl eq_refl eq_refl).
  - intros u [<-|[<-|[<-|[]]]]; cbn; lia.
  - intros op Hin. cbn in Hin.
    destruct Hin as [<-|[<-|[<-|[<-|[<-|[]]]]]]; exact I.
Defined.

(** ** From [Create] to [Claim] *)

Lemma find_app_none {A : Type} (p : A -> bool) (l l' : list A) :
  find p l = None -> find p (l ++ l') = find p l'.
Proof.
  induction l as [|x l IH]; [reflexivity|]. cbn [find app].
  destruct (p x); [discriminate|exact IH].
Qed.

(** X20.  What is created can be claimed.  After any operations, when a [Create]
    succeeds under a code no envelope has yet, with less than [2 ^ 63] cents,
    then a claim on that code by any caller, the creator included, made no
    later than 24 hours after, with the feature on, succeeds whatever the
    draw: it is served from the envelope just created, and leaves one share
    less than the total count. *)
Theorem created_envelopes_can_be_claimed (st : Store) (ops : list Op)
    (ctx : Context) (req : CreateRequest.t) (code : string)
    (created : CreateResponse) (ctx' : Context) (raw : Z) :
  red_envelopes st = [] -> red_envelope_claims st = [] ->
  snd (Create ctx req code (run ops st)) = OK created ->
  lockedEnvelope code (run ops st) = None ->
  1 <= len code ->
  LessThan (CreateRequest.TotalAmount req) Int64Cents = true ->
  IsRedEnvelopeEnabled ctx' = true ->
  Now ctx' <= Now ctx + 24 * Hour ->
  exists claimed,
    snd (Claim ctx' (mkClaimRequest code) raw (fst (Create ctx req code (run ops st))))
    = OK claimed
    /\ RedEnvelope.ID (ClaimResponse_RedEnvelope claimed) = CreateResponse_ID created
    /\ RedEnvelope.RemainingCount (ClaimResponse_RedEnvelope claimed)
       = CreateRequest.TotalCount req - 1.
Proof.
  intros He Hc Hok Hfresh Hcode Hfit Hon Hnow.
  pose proof (Changes_ledger st (run ops st) (run_Changes ops st)
                (ledger_empty st He Hc)) as [(_ & _ & Hclaims) _].
  set (s := run ops st) in *.
  destruct (Create_inv ctx req code s) as [(f & Hf & _)|(user & H)];
    [rewrite Hok in Hf; discriminate|].
  destruct H as (_ & _ & Hpos & Hexp & Hcount & _ & _ & Heq).
  rewrite Heq in Hok |- *. cbn [fst snd] in *. injection Hok as <-.
  cbn [CreateResponse_ID].
  set (new := RedEnvelope.mk (nextID (red_envelopes s)) code (User.ID user)
                (CreateRequest.Type_ req) (CreateRequest.TotalAmount req)
                (CreateRequest.TotalAmount req) (CreateRequest.TotalCount req)
                (CreateRequest.TotalCount req) (CreateRequest.Greeting req)
                RedEnvelopeStatusActive (Now ctx + 24 * Hour)).
  set (s' := mkStore _ _ _ _ _).
  assert (Hlock : lockedEnvelope code s' = Some new).
  { unfold lockedEnvelope, First in *. subst s'. cbn [red_envelopes].
    rewrite (find_app_none _ _ _ Hfresh). cbn [find]. subst new.
    cbn [RedEnvelope.Code]. rewrite String.eqb_refl. reflexivity. }
  assert (Hpass : passesChecks ctx' new s').
  { unfold passesChecks. subst new s'.
    cbn [RedEnvelope.Status RedEnvelope.ExpiresAt RedEnvelope.RemainingCount
         RedEnvelope.ID red_envelope_claims].
    repeat split; [exact Hnow|lia|].
    destruct (hasClaim _ _ _) eqn:Hhas; [exfalso|reflexivity].
    apply hasClaim_true in Hhas. destruct Hhas as (c & Hin & Hid & _).
    destruct (Hclaims c Hin) as [Hrange _]. unfold nextID in Hid. lia. }
  assert (Hbind : ShouldBindJSON_Claim (mkClaimRequest code) = true)
    by (unfold ShouldBindJSON_Claim; cbn [ClaimRequest_Code]; apply Z.leb_le; exact Hcode).
  rewrite (Claim_proceeds ctx' (mkClaimRequest code) raw s' new Hon Hbind Hlock Hpass).
  destruct (claimedAmountOf_defined raw new) as [amount Hamount].
  - exact Hcount.
  - subst new. cbn [RedEnvelope.RemainingCount]. lia.
  - intros _. subst new. cbn [RedEnvelope.RemainingAmount].
    unfold Exponent in Hexp. split; [exact Hexp|].
    rewrite (LessThanOrEqual_units 2) in Hpos by exp_side.
    rewrite (LessThan_units 2) in Hfit by exp_side.
    rewrite units_Int64Cents in Hfit.
    change (units 2 Zero) with 0 in Hpos.
    apply Z.leb_gt in Hpos. apply Z.ltb_lt in Hfit. lia.
  - pose proof (Transaction_claimWrites ctx' raw new s') as Hw.
    rewrite Hamount in Hw. destruct Hw as (s'' & -> & _).
    eexists. split; [reflexivity|]. split; reflexivity.
Qed.

Lemma created_envelopes_can_be_claimed_witness :
  exists claimed,
    snd (Claim (sampleContext 1 7) (mkClaimRequest "new") 12345
               (fst (Create (sampleContext 1 6)
                            (CreateRequest.mk RedEnvelopeTypeRandom (New 500 (-2)) 3
                                              "" "123456")
                            "new" (run sampleRequests sampleStore))))
    = OK claimed
    /\ RedEnvelope.ID (ClaimResponse_RedEnvelope claimed) = 3.
Proof.
  destruct (created_envelopes_can_be_claimed sampleStore sampleRequests
              (sampleContext 1 6)
              (CreateRequest.mk RedEnvelopeTypeRandom (New 500 (-2)) 3 "" "123456")
              "new" (mkCreateResponse 3 "new") (sampleContext 1 7) 12345
              eq_refl eq_refl)
    as (claimed & Hclaimed & Hid & _).
  - vm_compute. reflexivity.
  - vm_compute. reflexivity.
  - vm_compute. discriminate.
  - vm_compute. reflexivity.
  - reflexivity.
  - vm_compute. discriminate.
  - exists claimed. split; [exact Hclaimed|exact Hid].
Defined.
